(** * Sitemap generation of TVSHOWup

    A shallow embedding of the two sitemap generators of the repository,

    - the edge function [supabase/functions/generate-sitemaps/index.ts]
      (module [Server] below), and
    - the browser-side class [SitemapGenerator] of [src/lib/sitemap.ts]
      (module [Browser] below),

    together with the part of the ECMAScript runtime they call (module [JS]).

    Numbers are IEEE 754 binary64 values (Rocq's primitive floats), so that
    [0.9 + 0.05] is the number the program computes and not the rational
    [19/20].  A string is its sequence of code units; the model covers the
    strings whose code units are below 256.  A time value is an integral
    number of milliseconds since the epoch, or no number at all for an
    invalid date; it is modelled by [option Z]. *)

From Stdlib Require Import ZArith QArith Qround Qabs List String Ascii Bool Lia.
From Stdlib Require Import Floats DecimalString.
Import ListNotations.

Close Scope Q_scope.

Set Warnings "-inexact-float".

(* ================================================================== *)
(** * The runtime *)
(* ================================================================== *)

Module JS.

Local Open Scope Z_scope.

(** ** Values *)

Inductive Value : Type :=
| VUndefined
| VNull
| VBool (b : bool)
| VNumber (x : float)
| VString (s : string).

(** What the host implements and the program only calls: the numeric reading
    of a non-empty string ([Number(s)]), the time value of [new Date(s)] for
    a string ([None] when the string is not a date) and the offset of local
    time. *)
Class Host : Type := {
  StringToNumber : string -> float;
  Date_parse : string -> option Z;
  LocalTZA : Z -> bool -> Z
}.

(** [x] is neither [0], [-0] nor [NaN]. *)
Definition truthy_number (x : float) : bool :=
  negb (PrimFloat.is_zero x || PrimFloat.is_nan x).

Definition ToBoolean (v : Value) : bool :=
  match v with
  | VUndefined | VNull => false
  | VBool b => b
  | VNumber x => truthy_number x
  | VString s => negb (String.eqb s EmptyString)
  end.

(** [Number(v)]; the empty string reads as [0] on every host. *)
Definition ToNumber `{Host} (v : Value) : float :=
  match v with
  | VUndefined => nan
  | VNull => zero
  | VBool true => one
  | VBool false => zero
  | VNumber x => x
  | VString EmptyString => zero
  | VString s => StringToNumber s
  end.

(** [a || b] *)
Definition or_else (a b : Value) : Value :=
  if ToBoolean a then a else b.

(** [x || y] on two numbers. *)
Definition number_or (x y : float) : float :=
  if truthy_number x then x else y.

(** [Math.min] and [Math.max] of two numbers: [NaN] when one of them is,
    and [-0] below [+0]. *)
Definition is_neg_zero (x : float) : bool :=
  match PrimFloat.classify x with NZero => true | _ => false end.

Definition Math_min (a b : float) : float :=
  if PrimFloat.is_nan a || PrimFloat.is_nan b then nan
  else if PrimFloat.ltb a b then a
  else if PrimFloat.ltb b a then b
  else if is_neg_zero a then a else b.

Definition Math_max (a b : float) : float :=
  if PrimFloat.is_nan a || PrimFloat.is_nan b then nan
  else if PrimFloat.ltb a b then b
  else if PrimFloat.ltb b a then a
  else if is_neg_zero a then b else a.

(** ** Time values and the calendar *)

Definition msPerDay : Z := 86400000.

Definition Day (t : Z) : Z := t / msPerDay.
Definition TimeWithinDay (t : Z) : Z := t mod msPerDay.

(** The civil date [(year, month, day)] of a day number, months counted
    from 0 and days of the month from 1, in the proleptic Gregorian
    calendar. *)
Definition civil_from_days (z : Z) : Z * Z * Z :=
  let z := z + 719468 in
  let era := z / 146097 in
  let doe := z - era * 146097 in
  let yoe := (doe - doe / 1460 + doe / 36524 - doe / 146096) / 365 in
  let doy := doe - (365 * yoe + yoe / 4 - yoe / 100) in
  let mp := (5 * doy + 2) / 153 in
  let d := doy - (153 * mp + 2) / 5 + 1 in
  let m := if mp <? 10 then mp + 2 else mp - 10 in
  let y := yoe + era * 400 + (if m <=? 1 then 1 else 0) in
  (y, m, d).

(** The day number of the first day of month [m] (from 0) of year [y]. *)
Definition days_from_civil (y m : Z) : Z :=
  let y := if m <=? 1 then y - 1 else y in
  let era := y / 400 in
  let yoe := y - era * 400 in
  let doy := (153 * (if 1 <? m then m - 2 else m + 10) + 2) / 5 in
  let doe := yoe * 365 + yoe / 4 - yoe / 100 + doy in
  era * 146097 + doe - 719468.

Definition YearFromTime (t : Z) : Z := fst (fst (civil_from_days (Day t))).
Definition MonthFromTime (t : Z) : Z := snd (fst (civil_from_days (Day t))).
Definition DateFromTime (t : Z) : Z := snd (civil_from_days (Day t)).

Definition MakeDay (year month date : Z) : Z :=
  let ym := year + month / 12 in
  let mn := month mod 12 in
  days_from_civil ym mn + date - 1.

Definition MakeDate (day time : Z) : Z := day * msPerDay + time.

Definition maxTime : Z := 8640000000000000.

Definition TimeClip (t : Z) : option Z :=
  if Z.abs t <=? maxTime then Some t else None.

Definition LocalTime `{Host} (t : Z) : Z := t + LocalTZA t true.
Definition UTC `{Host} (t : Z) : Z := t - LocalTZA t false.

(** [d.getMonth()], [d.getFullYear()] and [d.setMonth(month)] on the time
    value of [d]; [setMonth] gives the new time value. *)
Definition getMonth `{Host} (t : Z) : Z := MonthFromTime (LocalTime t).
Definition getFullYear `{Host} (t : Z) : Z := YearFromTime (LocalTime t).

Definition setMonth `{Host} (t : Z) (month : Z) : option Z :=
  let t := LocalTime t in
  let newDate :=
    MakeDate (MakeDay (YearFromTime t) month (DateFromTime t)) (TimeWithinDay t) in
  TimeClip (UTC newDate).

(** The integral part of a finite number, for [TimeClip] of a number. *)
Definition truncate (x : float) : option Z :=
  match Prim2SF x with
  | S754_zero _ => Some 0
  | S754_finite s m e =>
      let mag := Z.shiftl (Z.pos m) e in
      Some (if s then - mag else mag)
  | _ => None
  end.

(** The time value of [new Date(v)]. *)
Definition Date_new `{Host} (v : Value) : option Z :=
  match v with
  | VString s => Date_parse s
  | _ => match truncate (ToNumber v) with
         | Some t => TimeClip t
         | None => None
         end
  end.

(** [a > b] on two dates, which compares their time values; an invalid
    date is greater than nothing and nothing is greater than it. *)
Definition date_gt (a b : option Z) : bool :=
  match a, b with
  | Some x, Some y => y <? x
  | _, _ => false
  end.

(** ** Numbers as strings *)

Local Open Scope string_scope.
Local Open Scope Z_scope.

(** The decimal digits of a natural number. *)
Definition digits (n : Z) : string :=
  NilZero.string_of_uint (N.to_uint (Z.to_N n)).

Fixpoint zeros (k : nat) : string :=
  match k with
  | O => ""
  | S k' => String "0" (zeros k')
  end.

(** [b ^ n] for an exponent of either sign, and the value [m * 2 ^ e] of a
    finite number. *)
Definition power (b n : Z) : Q :=
  if 0 <=? n then inject_Z (b ^ n) else Qinv (inject_Z (b ^ (- n))).

Definition exact (m e : Z) : Q := Qmult (inject_Z m) (power 2 e).

Definition Qlt_bool (a b : Q) : bool := negb (Qle_bool b a).

(** [v] rounds to the number [m * 2 ^ e]: it lies between the midpoints to
    the two neighbours, the midpoints included when [m] is even. *)
Definition rounds_to (m e : Z) (v : Q) : bool :=
  let up := exact (2 * m + 1) (e - 1) in
  let down :=
    if (m =? 2 ^ 52) && (-1074 <? e) then exact (4 * m - 1) (e - 2)
    else exact (2 * m - 1) (e - 1) in
  if Z.even m then Qle_bool down v && Qle_bool v up
  else Qlt_bool down v && Qlt_bool v up.

(** The least [n] from [n0] on with [x < 10 ^ n]. *)
Fixpoint first_above (fuel : nat) (x : Q) (n : Z) : Z :=
  match fuel with
  | O => n
  | S fuel' => if Qlt_bool x (power 10 n) then n
               else first_above fuel' x (n + 1)
  end.

Definition decimal_exponent (m e : Z) : Z :=
  first_above 6 (exact m e) ((Z.log2 m + e) * 30103 / 100000 - 1).

(** The decimals [s * 10 ^ (n - k)] of [k] digits that round to
    [m * 2 ^ e], for the [n] around its decimal exponent. *)
Definition candidates (m e k : Z) : list (Z * Z) :=
  let n0 := decimal_exponent m e in
  flat_map
    (fun n =>
       let s := Qfloor (Qdiv (exact m e) (power 10 (n - k))) in
       filter
         (fun sn =>
            (10 ^ (k - 1) <=? fst sn) && (fst sn <? 10 ^ k)
            && rounds_to m e (Qmult (inject_Z (fst sn)) (power 10 (n - k))))
         [(s, n); (s + 1, n)])
    [n0 - 1; n0; n0 + 1].

(** Of two such decimals the one closer to the number, the even one when
    they are as close. *)
Definition closer (m e k : Z) (a b : Z * Z) : Z * Z :=
  let dist sn :=
    Qabs (Qminus (Qmult (inject_Z (fst sn)) (power 10 (snd sn - k)))
                      (exact m e)) in
  if Qlt_bool (dist a) (dist b) then a
  else if Qlt_bool (dist b) (dist a) then b
  else if Z.even (fst a) then a else b.

Definition closest (m e k : Z) (l : list (Z * Z)) : option (Z * Z) :=
  match l with
  | [] => None
  | a :: l' => Some (fold_left (closer m e k) l' a)
  end.

(** The shortest decimal that reads back as the number: [(s, n, k)] with
    [k] digits in [s], from [k] digits on. *)
Fixpoint shortest (fuel : nat) (m e k : Z) : Z * Z * Z :=
  match closest m e k (candidates m e k) with
  | Some (s, n) => (s, n, k)
  | None =>
      match fuel with
      | O => (Qfloor (Qdiv (exact m e) (power 10 (decimal_exponent m e - k))),
              decimal_exponent m e, k)
      | S fuel' => shortest fuel' m e (k + 1)
      end
  end.

(** [Number::toString] of [m * 2 ^ e], a positive number. *)
Definition positive_to_string (m e : Z) : string :=
  let '(s, n, k) := shortest 16 m e 1 in
  let ds := digits s in
  if (k <=? n) && (n <=? 21) then ds ++ zeros (Z.to_nat (n - k))
  else if (0 <? n) && (n <=? 21) then
    substring 0 (Z.to_nat n) ds ++ "." ++ substring (Z.to_nat n) (Z.to_nat (k - n)) ds
  else if (-6 <? n) && (n <=? 0) then
    "0." ++ zeros (Z.to_nat (- n)) ++ ds
  else
    let sign := if 0 <=? n - 1 then "+" else "-" in
    let exponent := "e" ++ sign ++ digits (Z.abs (n - 1)) in
    if k =? 1 then ds ++ exponent
    else substring 0 1 ds ++ "." ++ substring 1 (Z.to_nat (k - 1)) ds ++ exponent.

(** The string of a number, as in [`${x}`] and [String(x)]. *)
Definition Number_toString (x : float) : string :=
  match Prim2SF x with
  | S754_nan => "NaN"
  | S754_zero _ => "0"
  | S754_infinity s => if s then "-Infinity" else "Infinity"
  | S754_finite s m e =>
      (if s then "-" else "") ++ positive_to_string (Z.pos m) e
  end.

(** [x.toFixed(fractionDigits)].  [n] is the integer nearest to
    [|x| * 10 ^ fractionDigits], the larger one of two. *)
Definition fixed_digits (n : Z) (f : nat) : string :=
  let m := digits n in
  if Nat.eqb f 0 then m else
  let k := String.length m in
  let m := if Nat.leb k f then zeros (f + 1 - k) ++ m else m in
  let k := String.length m in
  substring 0 (k - f) m ++ "." ++ substring (k - f) f m.

Definition nearest_scaled (m e : Z) (f : nat) : Z :=
  Qfloor (Qplus (Qmult (exact m e) (inject_Z (10 ^ Z.of_nat f))) (1 # 2)).

Definition toFixed (x : float) (fractionDigits : nat) : string :=
  match Prim2SF x with
  | S754_nan => "NaN"
  | S754_zero _ => fixed_digits 0 fractionDigits
  | S754_infinity s => if s then "-Infinity" else "Infinity"
  | S754_finite s m e =>
      if PrimFloat.leb 1e21 (PrimFloat.abs x)
      then Number_toString x
      else (if s then "-" else "")
           ++ fixed_digits (nearest_scaled (Z.pos m) e fractionDigits)
                           fractionDigits
  end.

(** [x] is finite and below [10 ^ 21] in magnitude, where [toFixed]
    writes fixed-point notation. *)
Definition in_fixed_range (x : float) : bool :=
  match Prim2SF x with
  | S754_zero _ => true
  | S754_finite _ _ _ => negb (PrimFloat.leb 1e21 (PrimFloat.abs x))
  | _ => false
  end.

(** A string of digits, and a decimal with exactly one digit after the
    point: an optional sign, digits, a point, one digit. *)
Definition is_digit (a : ascii) : bool :=
  let n := Z.of_nat (nat_of_ascii a) in (48 <=? n) && (n <=? 57).

Fixpoint all_digits (s : string) : bool :=
  match s with
  | EmptyString => true
  | String a s' => is_digit a && all_digits s'
  end.

Definition point_digit (s : string) : bool :=
  match s with
  | String p (String d EmptyString) => Ascii.eqb p "." && is_digit d
  | _ => false
  end.

Fixpoint digits_point_digit (s : string) : bool :=
  match s with
  | EmptyString => false
  | String a s' => is_digit a && (point_digit s' || digits_point_digit s')
  end.

Definition one_decimal (s : string) : bool :=
  match s with
  | EmptyString => false
  | String a s' => if Ascii.eqb a "-" then digits_point_digit s'
                   else digits_point_digit s
  end.

(** [String(v)], the reading of [v] in a template literal. *)
Definition ToString (v : Value) : string :=
  match v with
  | VUndefined => "undefined"
  | VNull => "null"
  | VBool true => "true"
  | VBool false => "false"
  | VNumber x => Number_toString x
  | VString s => s
  end.

(** ** Exceptions *)

(** What a [throw] carries: one of the runtime's errors, or the error
    object of the store's client, which is an [Error] or not with the
    client's version. *)
Inductive Exn : Type :=
| TypeError (message : string)
| RangeError (message : string)
| SyntaxError (message : string)
| Error (message : string)
| StoreError (message : string) (instanceof_Error : bool).

(** The outcome of an expression that may throw. *)
Inductive Outcome (A : Type) : Type :=
| Returned (a : A)
| Thrown (e : Exn).

Arguments Returned {A} a.
Arguments Thrown {A} e.

Definition bind {A B : Type} (o : Outcome A) (k : A -> Outcome B) : Outcome B :=
  match o with
  | Returned a => k a
  | Thrown e => Thrown e
  end.

Notation "x <- o ;; k" := (bind o (fun x => k))
  (at level 61, o at next level, right associativity).

(** [for (const x of l) acc = step(acc, x)], leaving at the first throw. *)
Fixpoint for_of {A B : Type} (step : B -> A -> Outcome B) (l : list A) (acc : B)
  : Outcome B :=
  match l with
  | [] => Returned acc
  | x :: l' => acc' <- step acc x ;; for_of step l' acc'
  end.

(** ** Strings *)

Definition quote : ascii := Ascii false true false false false true false false.
Definition newline : ascii := Ascii false true false true false false false false.

(** The one-character strings of a double quote and of a line feed. *)
Definition q : string := String quote "".
Definition nl : string := String newline "".

(** [s.replace(/c/g, by)] for a character [c]. *)
Fixpoint replace_char (c : ascii) (by_ : string) (s : string) : string :=
  match s with
  | EmptyString => ""
  | String a s' =>
      if Ascii.eqb a c then by_ ++ replace_char c by_ s'
      else String a (replace_char c by_ s')
  end.

(** [v.replace(/c/g, by)] for any value [v]: only a string has the
    method. *)
Definition replace (v : Value) (c : ascii) (by_ : string) : Outcome string :=
  match v with
  | VString s => Returned (replace_char c by_ s)
  | VUndefined | VNull =>
      Thrown (TypeError "Cannot read properties of undefined or null")
  | _ => Thrown (TypeError "replace is not a function")
  end.

(** [s.split(c)[0]] *)
Fixpoint before_first (c : ascii) (s : string) : string :=
  match s with
  | EmptyString => ""
  | String a s' => if Ascii.eqb a c then "" else String a (before_first c s')
  end.

(** The classes [\w] and [\s] of a regular expression, on code units
    below 256. *)
Definition code (a : ascii) : Z := Z.of_nat (nat_of_ascii a).

Definition is_word (a : ascii) : bool :=
  let n := code a in
  ((48 <=? n) && (n <=? 57)) || ((65 <=? n) && (n <=? 90))
  || ((97 <=? n) && (n <=? 122)) || (n =? 95).

Definition is_space (a : ascii) : bool :=
  let n := code a in
  ((9 <=? n) && (n <=? 13)) || (n =? 32) || (n =? 160).

(** [s.toLowerCase()], on code units below 256. *)
Definition lower (a : ascii) : ascii :=
  let n := code a in
  if ((65 <=? n) && (n <=? 90))
     || ((192 <=? n) && (n <=? 222) && negb (n =? 215))
  then ascii_of_nat (Z.to_nat (n + 32)) else a.

Fixpoint map_string (f : ascii -> ascii) (s : string) : string :=
  match s with
  | EmptyString => ""
  | String a s' => String (f a) (map_string f s')
  end.

Definition toLowerCase (v : Value) : Outcome string :=
  match v with
  | VString s => Returned (map_string lower s)
  | VUndefined | VNull =>
      Thrown (TypeError "Cannot read properties of undefined or null")
  | _ => Thrown (TypeError "toLowerCase is not a function")
  end.

(** [s.replace(/[^...]/g, '')], keeping the characters of a class. *)
Fixpoint keep (p : ascii -> bool) (s : string) : string :=
  match s with
  | EmptyString => ""
  | String a s' => if p a then String a (keep p s') else keep p s'
  end.

(** [s.replace(/p+/g, by)]: every run of characters of the class [p]
    becomes one [by]. *)
Fixpoint collapse (p : ascii -> bool) (by_ : string) (in_run : bool) (s : string)
  : string :=
  match s with
  | EmptyString => ""
  | String a s' =>
      if p a then
        if in_run then collapse p by_ true s'
        else by_ ++ collapse p by_ true s'
      else String a (collapse p by_ false s')
  end.

(** ** Dates as strings *)

(** [n] in at least [width] digits. *)
Definition pad (width : nat) (n : Z) : string :=
  zeros (width - String.length (digits n)) ++ digits n.

(** [d.toISOString()] on the time value of [d]. *)
Definition toISOString (t : option Z) : Outcome string :=
  match t with
  | None => Thrown (RangeError "Invalid time value")
  | Some t =>
      let '(y, m, d) := civil_from_days (Day t) in
      let ms := TimeWithinDay t in
      let year :=
        if (0 <=? y) && (y <=? 9999) then pad 4 y
        else (if y <? 0 then "-" else "+") ++ pad 6 (Z.abs y) in
      Returned (year ++ "-" ++ pad 2 (m + 1) ++ "-" ++ pad 2 d
                ++ "T" ++ pad 2 (ms / 3600000)
                ++ ":" ++ pad 2 (ms / 60000 mod 60)
                ++ ":" ++ pad 2 (ms / 1000 mod 60)
                ++ "." ++ pad 3 (ms mod 1000) ++ "Z")
  end.

(** ** A host for running examples

    Local time is UTC; [new Date(s)] reads the date-only form [YYYY-MM-DD]
    of the ECMAScript date-time format (midnight UTC of that day) and takes
    every other string for an invalid date; [Number(s)] reads nothing. *)

Definition digit_of (c : ascii) : option Z :=
  let n := Z.of_nat (nat_of_ascii c) in
  if (48 <=? n) && (n <=? 57) then Some (n - 48) else None.

Fixpoint digits_value (acc : Z) (s : string) : option Z :=
  match s with
  | EmptyString => Some acc
  | String c s' =>
      match digit_of c with
      | Some d => digits_value (10 * acc + d) s'
      | None => None
      end
  end.

Definition parse_iso_date (s : string) : option Z :=
  if negb (Nat.eqb (String.length s) 10) then None else
  if negb (String.eqb (substring 4 1 s) "-" && String.eqb (substring 7 1 s) "-")
  then None else
  match digits_value 0 (substring 0 4 s),
        digits_value 0 (substring 5 2 s),
        digits_value 0 (substring 8 2 s) with
  | Some y, Some m, Some d =>
      let day := days_from_civil y (m - 1) + d - 1 in
      if (1 <=? m) && (m <=? 12) && (1 <=? d)
         && (snd (fst (civil_from_days day)) =? m - 1)
      then TimeClip (day * msPerDay) else None
  | _, _, _ => None
  end.

Definition utc_host : Host :=
  {| StringToNumber := fun _ => nan;
     Date_parse := parse_iso_date;
     LocalTZA := fun _ _ => 0 |}.

End JS.

(* ================================================================== *)
(** * Content records *)
(* ================================================================== *)

Import JS.

(** A row of [movies] and a row of [tv_shows], as the store's client hands
    them over: every column is a value, [VNull] for SQL's [NULL]. *)
Module Movie.
Record t : Type := {
  id : Value;
  slug : Value;
  title : Value;
  original_title : Value;
  popularity : Value;
  vote_average : Value;
  release_date : Value;
  updated_at : Value;
  poster_path : Value;
  backdrop_path : Value
}.
End Movie.

Module TVShow.
Record t : Type := {
  id : Value;
  slug : Value;
  name : Value;
  original_name : Value;
  popularity : Value;
  vote_average : Value;
  first_air_date : Value;
  in_production : Value;
  updated_at : Value;
  poster_path : Value;
  backdrop_path : Value
}.
End TVShow.

(** [Movie | TVShow] *)
Inductive Item : Type :=
| IMovie (m : Movie.t)
| ITVShow (s : TVShow.t).

(** The columns the two functions below read.  [item.key] is [undefined]
    when [item] has no such column. *)
Inductive Key : Type :=
| popularity | vote_average | release_date | first_air_date | in_production.

(** [key in item] *)
Definition has (key : Key) (item : Item) : bool :=
  match item, key with
  | _, popularity | _, vote_average => true
  | IMovie _, release_date => true
  | ITVShow _, first_air_date | ITVShow _, in_production => true
  | _, _ => false
  end.

(** [item.key] *)
Definition get (item : Item) (key : Key) : Value :=
  match item, key with
  | IMovie m, popularity => Movie.popularity m
  | IMovie m, vote_average => Movie.vote_average m
  | IMovie m, release_date => Movie.release_date m
  | ITVShow s, popularity => TVShow.popularity s
  | ITVShow s, vote_average => TVShow.vote_average s
  | ITVShow s, first_air_date => TVShow.first_air_date s
  | ITVShow s, in_production => TVShow.in_production s
  | _, _ => VUndefined
  end.

(** The record [item] with [v] in its popularity column. *)
Definition with_popularity (v : Value) (item : Item) : Item :=
  match item with
  | IMovie m =>
      IMovie {| Movie.id := Movie.id m; Movie.slug := Movie.slug m;
                Movie.title := Movie.title m;
                Movie.original_title := Movie.original_title m;
                Movie.popularity := v;
                Movie.vote_average := Movie.vote_average m;
                Movie.release_date := Movie.release_date m;
                Movie.updated_at := Movie.updated_at m;
                Movie.poster_path := Movie.poster_path m;
                Movie.backdrop_path := Movie.backdrop_path m |}
  | ITVShow s =>
      ITVShow {| TVShow.id := TVShow.id s; TVShow.slug := TVShow.slug s;
                 TVShow.name := TVShow.name s;
                 TVShow.original_name := TVShow.original_name s;
                 TVShow.popularity := v;
                 TVShow.vote_average := TVShow.vote_average s;
                 TVShow.first_air_date := TVShow.first_air_date s;
                 TVShow.in_production := TVShow.in_production s;
                 TVShow.updated_at := TVShow.updated_at s;
                 TVShow.poster_path := TVShow.poster_path s;
                 TVShow.backdrop_path := TVShow.backdrop_path s |}
  end.

(** [const d = new Date(); d.setMonth(d.getMonth() - k)], then [d]. *)
Definition months_ago `{Host} (now : Z) (k : Z) : option Z :=
  setMonth now (getMonth now - k).

Inductive Changefreq : Type :=
| always | hourly | daily | weekly | monthly | yearly | never.

(* ================================================================== *)
(** * Sitemap entries *)
(* ================================================================== *)

Local Open Scope string_scope.

Definition changefreq_string (c : Changefreq) : string :=
  match c with
  | always => "always"
  | hourly => "hourly"
  | daily => "daily"
  | weekly => "weekly"
  | monthly => "monthly"
  | yearly => "yearly"
  | never => "never"
  end.

(** [{ hreflang, href }] *)
Module Alternate.
Record t : Type := { hreflang : Value; href : Value }.
End Alternate.

(** [{ loc, title?, caption? }] *)
Module Image.
Record t : Type := { loc : Value; title : Value; caption : Value }.
End Image.

(** The interface [SitemapUrl] of the edge function.  A text field is a
    value, so that a null or undefined one can be told from a string; an
    optional field that is no text is [None] when undefined. *)
Module SitemapUrl.
Record t : Type := {
  loc : Value;
  lastmod : Value;
  changefreq : option Changefreq;
  priority : option float;
  alternates : option (list Alternate.t);
  images : option (list Image.t)
}.
End SitemapUrl.

(** A text field holds a string or nothing, that is null or undefined;
    and an entry all of whose escaped fields do: its location, the
    addresses of its alternates, and the location, title and caption of
    its images. *)
Definition is_text (v : Value) : bool :=
  match v with
  | VUndefined | VNull | VString _ => true
  | _ => false
  end.

Definition text_fields (url : SitemapUrl.t) : bool :=
  is_text (SitemapUrl.loc url)
  && match SitemapUrl.alternates url with
     | Some alternates => forallb (fun a => is_text (Alternate.href a)) alternates
     | None => true
     end
  && match SitemapUrl.images url with
     | Some images =>
         forallb (fun i => is_text (Image.loc i) && is_text (Image.title i)
                           && is_text (Image.caption i)) images
     | None => true
     end.

(** A row of the external API's list of popular people. *)
Module Person.
Record t : Type := {
  id : Value;
  name : Value;
  profile_path : Value;
  popularity : Value;
  known_for_department : Value
}.
End Person.

(* ================================================================== *)
(** * What a request sees and what it leaves behind *)
(* ================================================================== *)

(** The store behind the client: a table answers with its rows or fails
    with an error object. *)
Inductive Store (A : Type) : Type :=
| Failing (message : string) (instanceof_Error : bool)
| Rows (rows : list A).

Arguments Failing {A} message instanceof_Error.
Arguments Rows {A} rows.

(** [{ data, error }], the answer of the client to an awaited query. *)
Record QueryResult (A : Type) : Type := {
  data : option (list A);
  error : option Exn
}.

Arguments data {A} _.
Arguments error {A} _.

(** [ORDER BY popularity DESC]: nulls first, then the greater number
    first, rows of equal popularity in the table's order. *)
Definition precedes (a b : Value) : bool :=
  match a, b with
  | VNumber x, VNumber y => PrimFloat.leb y x
  | VNumber _, _ => false
  | _, _ => true
  end.

Fixpoint insert_by {A : Type} (key : A -> Value) (x : A) (l : list A) : list A :=
  match l with
  | [] => [x]
  | y :: l' => if precedes (key y) (key x) then y :: insert_by key x l'
               else x :: l
  end.

Definition order_desc {A : Type} (key : A -> Value) (l : list A) : list A :=
  fold_right (insert_by key) [] l.

Definition is_null (v : Value) : bool :=
  match v with VNull => true | _ => false end.

(** [from(table).select(columns).not('slug', 'is', null)
      .order('popularity', { ascending: false }).limit(n)], awaited. *)
Definition select_by_popularity {A : Type} (slug popularity : A -> Value)
    (limit : Z) (table : Store A) : QueryResult A :=
  match table with
  | Failing message is_error =>
      {| data := None; error := Some (StoreError message is_error) |}
  | Rows rows =>
      {| data := Some (firstn (Z.to_nat limit)
                         (order_desc popularity
                            (filter (fun r => negb (is_null (slug r))) rows)));
         error := None |}
  end.

(** The answer to a [fetch]: [ok], [statusText], and what reading
    [results] off the parsed body gives, [None] when it has none. *)
Module Response.
Record t : Type := {
  ok : bool;
  statusText : string;
  results : Outcome (option (list Person.t))
}.
End Response.

(** What one request finds: the two tables, the external API (a [fetch]
    that is rejected throws), the time of the request, which every
    [new Date()] of the request reads, the environment variables
    [SUPABASE_URL], [SUPABASE_SERVICE_ROLE_KEY] and [TMDB_API_KEY], and
    [createClient] of the client library, which makes the client of the
    two tables from an address and a key, or throws. *)
Record Env : Type := {
  movies : Store Movie.t;
  tv_shows : Store TVShow.t;
  api : string -> Outcome Response.t;
  now : Z;
  SUPABASE_URL : option string;
  SUPABASE_SERVICE_ROLE_KEY : option string;
  createClient : string -> string -> Outcome unit;
  TMDB_API_KEY : option string
}.

(** [Deno.env.get(name) ?? ''] *)
Definition or_empty (setting : option string) : string :=
  match setting with
  | Some value => value
  | None => ""%string
  end.

Inductive Level : Type := log | error_level.

(** A line of the console: [console.log(message)] or
    [console.error(message, detail)]. *)
Inductive Detail : Type :=
| no_detail
| text (s : string)
| caught (e : Exn).

Record Line : Type := { level : Level; message : string; detail : Detail }.

(** What a request leaves behind, in order: the console's lines and the
    addresses fetched; and the variable [xml] of the generator at work. *)
Record World : Type := {
  console : list Line;
  fetched : list string;
  xml : string
}.

Definition start : World := {| console := []; fetched := []; xml := "" |}.

(** A computation: from a world to an outcome and a world. *)
Definition M (A : Type) : Type := World -> Outcome A * World.

Definition ret {A : Type} (a : A) : M A := fun w => (Returned a, w).

Definition throw {A : Type} (e : Exn) : M A := fun w => (Thrown e, w).

Definition and_then {A B : Type} (m : M A) (k : A -> M B) : M B :=
  fun w => match m w with
           | (Returned a, w') => k a w'
           | (Thrown e, w') => (Thrown e, w')
           end.

Notation "x <~ m ;; k" := (and_then m (fun x => k))
  (at level 61, m at next level, right associativity).
Notation "m ;;; k" := (and_then m (fun _ => k))
  (at level 61, right associativity).

(** [try { body } catch (error) { handler(error) }] *)
Definition try_catch {A : Type} (body : M A) (handler : Exn -> M A) : M A :=
  fun w => match body w with
           | (Returned a, w') => (Returned a, w')
           | (Thrown e, w') => handler e w'
           end.

Definition lift {A : Type} (o : Outcome A) : M A := fun w => (o, w).

Definition console_log (message : string) : M unit :=
  fun w => (Returned tt,
            {| console := console w ++ [ {| level := log; message := message;
                                            detail := no_detail |} ];
               fetched := fetched w; xml := xml w |}).

Definition console_error (message : string) (d : Detail) : M unit :=
  fun w => (Returned tt,
            {| console := console w ++ [ {| level := error_level;
                                            message := message;
                                            detail := d |} ];
               fetched := fetched w; xml := xml w |}).

(** [await fetch(url)] *)
Definition fetch (env : Env) (url : string) : M Response.t :=
  fun w => (api env url,
            {| console := console w; fetched := fetched w ++ [url];
               xml := xml w |}).

(** [let xml = s], [xml += s] and the value of [xml]. *)
Definition set_xml (s : string) : M unit :=
  fun w => (Returned tt,
            {| console := console w; fetched := fetched w; xml := s |}).

Definition append_xml (s : string) : M unit :=
  fun w => (Returned tt,
            {| console := console w; fetched := fetched w;
               xml := xml w ++ s |}).

Definition get_xml : M string := fun w => (Returned (xml w), w).

(** [for (const x of l) { body(x) }] *)
Fixpoint for_each {A : Type} (body : A -> M unit) (l : list A) : M unit :=
  match l with
  | [] => ret tt
  | x :: l' => body x ;;; for_each body l'
  end.

(** The strings of a list one after the other. *)
Definition joined (l : list string) : string := fold_right append "" l.

(** A computation that only appends to [xml], at most [n] strings that
    each satisfy [P], and exactly [n] of them when it returns. *)
Definition Emits (P : string -> Prop) (n : nat) (m : M unit) : Prop :=
  forall (w : World) (r : Outcome unit) (w' : World),
    m w = (r, w') ->
    exists urls : list string,
      Forall P urls /\ xml w' = xml w ++ joined urls /\
      (List.length urls <= n)%nat /\
      (r = Returned tt -> List.length urls = n).

(** A computation that fetches nothing. *)
Definition Quiet {A} (m : M A) : Prop :=
  forall w r w', m w = (r, w') -> fetched w' = fetched w.

(** A computation whose fetches, in order, satisfy [Q]. *)
Definition Fetches {A} (Q : list string -> Prop) (m : M A) : Prop :=
  forall w r w', m w = (r, w') ->
    exists l, fetched w' = (fetched w ++ l)%list /\ Q l.

(** The string of a list's length and of a year, which are integers. *)
Definition integer_string (n : Z) : string :=
  if (n <? 0)%Z then "-" ++ digits (- n)%Z else digits n.

(** [new Date(v).getFullYear()] in a template literal. *)
Definition full_year_string `{Host} (v : Value) : string :=
  match Date_new v with
  | Some t => integer_string (getFullYear t)
  | None => "NaN"
  end.

(** [new Date(v).toISOString().split('T')[0]] *)
Definition iso_day `{Host} (t : option Z) : Outcome string :=
  s <- toISOString t ;; Returned (before_first "T" s).

(** What the handler answers. *)
Inductive Body : Type :=
| no_body
| xml_body (document : string)
| json_body (error_field : string) (message_field : string).

Module Reply.
Record t : Type := {
  status : Z;
  content_type : option string;
  cache_control : option string;
  body : Body
}.
End Reply.

Module Request.
(** [req.method] and [url.searchParams.get('type')]. *)
Record t : Type := { method : string; type : option string }.
End Request.

(* ================================================================== *)
(** * The specification's ranker and classifier *)
(* ================================================================== *)

(** Sections 4.1 and 4.2 of the specification, word for word, to compare
    the two implementations with. *)
Module Spec.

Section Ranking.
Local Open Scope float_scope.
Context `{Host}.
Variable now : Z.

(** A column holds nothing: it is undefined, null, empty or false. *)
Definition missing (v : Value) : bool := negb (ToBoolean v).

(** "missing popularity/rating default to 0" *)
Definition or_zero (v : Value) : float :=
  if missing v then 0 else ToNumber v.

(** "a primary date (release date or first-air date)" *)
Definition primary_date (item : Item) : Value :=
  match item with
  | IMovie m => Movie.release_date m
  | ITVShow s => TVShow.first_air_date s
  end.

(** "an 'in production' flag (TV only)" *)
Definition in_production_flag (item : Item) : bool :=
  match item with
  | IMovie _ => false
  | ITVShow s => ToBoolean (TVShow.in_production s)
  end.

(** "the primary date is within the last [k] months
    (date > now - [k] months)"; a missing date is not. *)
Definition within_last_months (k : Z) (item : Item) : bool :=
  if missing (primary_date item) then false
  else date_gt (Date_new (primary_date item)) (months_ago now k).

(** ">100 -> 0.9, >50 -> 0.85, >20 -> 0.75, >10 -> 0.65, else -> 0.6" *)
Definition base_priority (p : float) : float :=
  if PrimFloat.ltb 100 p then 0.9
  else if PrimFloat.ltb 50 p then 0.85
  else if PrimFloat.ltb 20 p then 0.75
  else if PrimFloat.ltb 10 p then 0.65
  else 0.6.

(** "Result clamped to [0.5, 1.0]" *)
Definition clamp (x : float) : float := Math_min 1.0 (Math_max 0.5 x).

Definition Ranker (item : Item) : float :=
  let p := base_priority (or_zero (get item popularity)) in
  let p := if PrimFloat.leb 8.0 (or_zero (get item vote_average))
           then p + 0.05 else p in
  let p := if within_last_months 6 item then p + 0.05 else p in
  clamp p.

Definition Classifier (item : Item) : Changefreq :=
  if in_production_flag item then weekly
  else if within_last_months 3 item then weekly
  else monthly.

End Ranking.

(** Section 4.4: the [<url>] element of a sitemap entry. *)
Section Serialization.
Local Open Scope string_scope.

(** The entity of each of the five characters the specification has
    escaped: ampersand, less-than, greater-than, double quote, apostrophe. *)
Definition entity (a : ascii) : string :=
  if Ascii.eqb a "&" then "&amp;"
  else if Ascii.eqb a "<" then "&lt;"
  else if Ascii.eqb a ">" then "&gt;"
  else if Ascii.eqb a quote then "&quot;"
  else if Ascii.eqb a "'" then "&apos;"
  else String a "".

Fixpoint escape (s : string) : string :=
  match s with
  | EmptyString => ""
  | String a s' => entity a ++ escape s'
  end.

(** A character that needs no escaping, and strings of such. *)
Definition plain (a : ascii) : bool :=
  negb (Ascii.eqb a "&" || Ascii.eqb a "<" || Ascii.eqb a ">"
        || Ascii.eqb a quote || Ascii.eqb a "'").

Fixpoint all_plain (s : string) : bool :=
  match s with
  | EmptyString => true
  | String a s' => plain a && all_plain s'
  end.

(** The names of the five entities, after their ampersand. *)
Definition entity_names : list string :=
  ["amp;"; "lt;"; "gt;"; "quot;"; "apos;"].

(** A text made of plain characters and entities. *)
Inductive Escaped : string -> Prop :=
| Escaped_nil : Escaped ""
| Escaped_plain (a : ascii) (s : string) :
    plain a = true -> Escaped s -> Escaped (String a s)
| Escaped_entity (e s : string) :
    In e entity_names -> Escaped s -> Escaped (String "&" (e ++ s)).

(** The escaped text of a field: nothing for a field that holds nothing,
    and none at all for a value that is no string. *)
Definition escaped (v : Value) : Outcome string :=
  if missing v then Returned ""
  else match v with
       | VString s => Returned (escape s)
       | _ => Thrown (TypeError "replace is not a function")
       end.

(** [<name>content</name>] on a line of its own. *)
Definition element (indent name content : string) : string :=
  indent ++ "<" ++ name ++ ">" ++ content ++ "</" ++ name ++ ">" ++ nl.

(** "one per alternate entry, each with [hreflang] and XML-escaped
    [href]" *)
Definition link (alt : Alternate.t) : Outcome string :=
  href <- escaped (Alternate.href alt) ;;
  Returned ("    <xhtml:link rel=" ++ q ++ "alternate" ++ q
            ++ " hreflang=" ++ q ++ ToString (Alternate.hreflang alt) ++ q
            ++ " href=" ++ q ++ href ++ q ++ " />" ++ nl).

(** "each with escaped [<image:loc>] and optional escaped
    [<image:title>]/[<image:caption>]" *)
Definition optional_text (name : string) (v : Value) : Outcome string :=
  if missing v then Returned ""
  else content <- escaped v ;; Returned (element "      " name content).

Definition image_block (img : Image.t) : Outcome string :=
  loc <- escaped (Image.loc img) ;;
  title <- optional_text "image:title" (Image.title img) ;;
  caption <- optional_text "image:caption" (Image.caption img) ;;
  Returned ("    <image:image>" ++ nl
            ++ element "      " "image:loc" loc
            ++ title ++ caption
            ++ "    </image:image>" ++ nl).

(** The elements of a list, one after the other. *)
Fixpoint all {A : Type} (f : A -> Outcome string) (l : list A) : Outcome string :=
  match l with
  | [] => Returned ""
  | x :: l' => s <- f x ;; rest <- all f l' ;; Returned (s ++ rest)
  end.

Definition some_or_none {A : Type} (l : option (list A)) : list A :=
  match l with Some l => l | None => [] end.

(** "[<lastmod>] emitted only if present", "[<changefreq>] emitted only if
    present", "[<priority>] emitted only if present" *)
Definition lastmod_element (v : Value) : string :=
  if missing v then "" else element "    " "lastmod" (ToString v).

Definition changefreq_element (c : option Changefreq) : string :=
  match c with
  | Some c => element "    " "changefreq" (changefreq_string c)
  | None => ""
  end.

Definition priority_element (p : option float) : string :=
  match p with
  | Some x => element "    " "priority" (toFixed x 1)
  | None => ""
  end.

Definition url_element (url : SitemapUrl.t) : Outcome string :=
  loc <- escaped (SitemapUrl.loc url) ;;
  links <- all link (some_or_none (SitemapUrl.alternates url)) ;;
  images <- all image_block (some_or_none (SitemapUrl.images url)) ;;
  Returned ("  <url>" ++ nl
            ++ element "    " "loc" loc
            ++ lastmod_element (SitemapUrl.lastmod url)
            ++ changefreq_element (SitemapUrl.changefreq url)
            ++ priority_element (SitemapUrl.priority url)
            ++ links ++ images
            ++ "  </url>" ++ nl).

End Serialization.

End Spec.

(* ================================================================== *)
(** * The edge function *)
(* ================================================================== *)

Module Server.

(** ** Ranking and classification *)

Section Ranking.
Local Open Scope float_scope.
Context `{Host}.
(** The time value of [new Date()] at the call. *)
Variable now : Z.

Definition calculatePriority (item : Item) : float :=
  let popularity := number_or (ToNumber (get item popularity)) 0 in
  let voteAverage := number_or (ToNumber (get item vote_average)) 0 in
  let priority :=
    if PrimFloat.ltb 100 popularity then 0.9
    else if PrimFloat.ltb 50 popularity then 0.85
    else if PrimFloat.ltb 20 popularity then 0.75
    else if PrimFloat.ltb 10 popularity then 0.65
    else 0.6 in
  let priority :=
    if PrimFloat.leb 8.0 voteAverage then Math_min 1.0 (priority + 0.05)
    else priority in
  let releaseDate :=
    if has release_date item then get item release_date
    else get item first_air_date in
  let priority :=
    if ToBoolean releaseDate then
      let sixMonthsAgo := months_ago now 6 in
      let itemDate := Date_new releaseDate in
      if date_gt itemDate sixMonthsAgo then Math_min 1.0 (priority + 0.05)
      else priority
    else priority in
  Math_min 1.0 (Math_max 0.5 priority).

Definition calculateChangefreq (item : Item) : Changefreq :=
  if has in_production item && ToBoolean (get item in_production) then weekly
  else
    let releaseDate :=
      if has release_date item then get item release_date
      else get item first_air_date in
    if ToBoolean releaseDate
       && date_gt (Date_new releaseDate) (months_ago now 3)
    then weekly
    else monthly.

End Ranking.

(** ** Escaping and serialization *)

Local Open Scope string_scope.

Definition SUPPORTED_LANGUAGES : list string :=
  ["en"; "tr"; "de"; "fr"; "es"; "it"; "pt"; "ru"; "ja"; "ko"; "zh"].
Definition BASE_URL : string := "https://www.tvshowup.com".
Definition TMDB_IMAGE_BASE : string := "https://image.tmdb.org/t/p/original".
Definition MAX_URLS_PER_SITEMAP : Z := 50000.

Definition escapeXml (str : Value) : Outcome string :=
  if negb (ToBoolean str) then Returned ""
  else
    s <- replace str "&" "&amp;" ;;
    Returned (replace_char "'" "&apos;"
               (replace_char quote "&quot;"
                 (replace_char ">" "&gt;"
                   (replace_char "<" "&lt;" s)))).

(** One step of [url.alternates.forEach] and of [url.images.forEach]. *)
Definition add_alternate (xml : string) (alt : Alternate.t) : Outcome string :=
  href <- escapeXml (Alternate.href alt) ;;
  Returned (xml ++ "    <xhtml:link rel=" ++ q ++ "alternate" ++ q
                ++ " hreflang=" ++ q ++ ToString (Alternate.hreflang alt) ++ q
                ++ " href=" ++ q ++ href ++ q ++ " />" ++ nl).

Definition add_image (xml : string) (img : Image.t) : Outcome string :=
  let xml := xml ++ "    <image:image>" ++ nl in
  loc <- escapeXml (Image.loc img) ;;
  let xml := xml ++ "      <image:loc>" ++ loc ++ "</image:loc>" ++ nl in
  xml <- (if ToBoolean (Image.title img) then
            title <- escapeXml (Image.title img) ;;
            Returned (xml ++ "      <image:title>" ++ title
                          ++ "</image:title>" ++ nl)
          else Returned xml) ;;
  xml <- (if ToBoolean (Image.caption img) then
            caption <- escapeXml (Image.caption img) ;;
            Returned (xml ++ "      <image:caption>" ++ caption
                          ++ "</image:caption>" ++ nl)
          else Returned xml) ;;
  Returned (xml ++ "    </image:image>" ++ nl).

Definition generateXmlUrl (url : SitemapUrl.t) : Outcome string :=
  let xml := "  <url>" ++ nl in
  loc <- escapeXml (SitemapUrl.loc url) ;;
  let xml := xml ++ "    <loc>" ++ loc ++ "</loc>" ++ nl in
  let xml :=
    if ToBoolean (SitemapUrl.lastmod url)
    then xml ++ "    <lastmod>" ++ ToString (SitemapUrl.lastmod url)
             ++ "</lastmod>" ++ nl
    else xml in
  let xml :=
    match SitemapUrl.changefreq url with
    | Some c => xml ++ "    <changefreq>" ++ changefreq_string c
                    ++ "</changefreq>" ++ nl
    | None => xml
    end in
  let xml :=
    match SitemapUrl.priority url with
    | Some priority => xml ++ "    <priority>" ++ toFixed priority 1
                           ++ "</priority>" ++ nl
    | None => xml
    end in
  xml <- match SitemapUrl.alternates url with
         | Some alternates => for_of add_alternate alternates xml
         | None => Returned xml
         end ;;
  xml <- match SitemapUrl.images url with
         | Some images => for_of add_image images xml
         | None => Returned xml
         end ;;
  Returned (xml ++ "  </url>" ++ nl).

Definition generateAlternates (path : string) : list Alternate.t :=
  (map (fun lang =>
          {| Alternate.hreflang := VString lang;
             Alternate.href := VString (BASE_URL ++ "/" ++ lang ++ path) |})
       SUPPORTED_LANGUAGES
   ++ [ {| Alternate.hreflang := VString "x-default";
           Alternate.href := VString (BASE_URL ++ "/en" ++ path) |} ])%list.

Definition createSlugFromName (id name : Value) : Outcome string :=
  lowered <- toLowerCase name ;;
  let cleanName :=
    substring 0 50
      (collapse (Ascii.eqb "-") "-" false
        (collapse is_space "-" false
          (keep (fun a => is_word a || is_space a || Ascii.eqb a "-") lowered))) in
  Returned (ToString id ++ "-" ++ cleanName).

(** ** The assemblers *)

Section Assemblers.
Context `{Host}.
Variable env : Env.

(** [new Date().toISOString().split('T')[0]] *)
Definition today : Outcome string := iso_day (Some (now env)).

Definition xml_declaration : string :=
  "<?xml version=" ++ q ++ "1.0" ++ q ++ " encoding=" ++ q ++ "UTF-8" ++ q
  ++ "?>" ++ nl.

Definition urlset_open : string :=
  xml_declaration
  ++ "<urlset xmlns=" ++ q ++ "http://www.sitemaps.org/schemas/sitemap/0.9" ++ q ++ nl
  ++ "        xmlns:xhtml=" ++ q ++ "http://www.w3.org/1999/xhtml" ++ q ++ ">" ++ nl.

Definition urlset_open_with_images : string :=
  xml_declaration
  ++ "<urlset xmlns=" ++ q ++ "http://www.sitemaps.org/schemas/sitemap/0.9" ++ q ++ nl
  ++ "        xmlns:xhtml=" ++ q ++ "http://www.w3.org/1999/xhtml" ++ q ++ nl
  ++ "        xmlns:image=" ++ q ++ "http://www.google.com/schemas/sitemap-image/1.1"
  ++ q ++ ">" ++ nl.

(** [images.length > 0 ? images : undefined] *)
Definition some_images (images : list Image.t) : option (list Image.t) :=
  match images with
  | [] => None
  | _ => Some images
  end.

(** [xml += generateXmlUrl(url)] *)
Definition add_url (url : SitemapUrl.t) : M unit :=
  entry <~ lift (generateXmlUrl url) ;; append_xml entry.

Definition staticPages : list (string * float * Changefreq) :=
  [ ("/", 1.0%float, daily);
    ("/search", 0.8%float, daily);
    ("/discover-lists", 0.7%float, weekly);
    ("/about", 0.5%float, monthly);
    ("/privacy", 0.3%float, yearly);
    ("/terms", 0.3%float, yearly);
    ("/contact", 0.4%float, monthly) ].

Definition generateMainSitemap : M string :=
  set_xml urlset_open ;;;
  for_each
    (fun page : string * float * Changefreq =>
       let '(path, priority, changefreq) := page in
       for_each
         (fun lang =>
            lastmod <~ lift today ;;
            add_url {| SitemapUrl.loc := VString (BASE_URL ++ "/" ++ lang ++ path);
                       SitemapUrl.lastmod := VString lastmod;
                       SitemapUrl.changefreq := Some changefreq;
                       SitemapUrl.priority := Some priority;
                       SitemapUrl.alternates := Some (generateAlternates path);
                       SitemapUrl.images := None |})
         SUPPORTED_LANGUAGES)
    staticPages ;;;
  append_xml "</urlset>" ;;;
  get_xml.

(** [row.updated_at ? new Date(row.updated_at).toISOString().split('T')[0]
                    : new Date().toISOString().split('T')[0]] *)
Definition lastmod_of (updated_at : Value) : Outcome string :=
  if ToBoolean updated_at then iso_day (Date_new updated_at) else today.

(** [date ? new Date(date).getFullYear() : ''] in a template literal. *)
Definition year_or_empty (date : Value) : string :=
  if ToBoolean date then full_year_string date else "".

Definition movie_images (movie : Movie.t) : list Image.t :=
  ((if ToBoolean (Movie.poster_path movie) then
      [ {| Image.loc := VString (TMDB_IMAGE_BASE ++ ToString (Movie.poster_path movie));
           Image.title := or_else (Movie.title movie) (Movie.original_title movie);
           Image.caption :=
             VString (ToString (Movie.title movie) ++ " ("
                      ++ year_or_empty (Movie.release_date movie)
                      ++ ") - Movie Poster") |} ]
    else [])
   ++
   (if ToBoolean (Movie.backdrop_path movie) then
      [ {| Image.loc := VString (TMDB_IMAGE_BASE ++ ToString (Movie.backdrop_path movie));
           Image.title := or_else (Movie.title movie) (Movie.original_title movie);
           Image.caption :=
             VString (ToString (Movie.title movie) ++ " - Movie Backdrop") |} ]
    else []))%list.

(** The body of [for (const movie of movies)]. *)
Definition add_movie (movie : Movie.t) : M unit :=
  let path := "/movie/" ++ ToString (Movie.slug movie) in
  let priority := calculatePriority (now env) (IMovie movie) in
  let changefreq := calculateChangefreq (now env) (IMovie movie) in
  let images := movie_images movie in
  for_each
    (fun lang =>
       lastmod <~ lift (lastmod_of (Movie.updated_at movie)) ;;
       add_url {| SitemapUrl.loc := VString (BASE_URL ++ "/" ++ lang ++ path);
                  SitemapUrl.lastmod := VString lastmod;
                  SitemapUrl.changefreq := Some changefreq;
                  SitemapUrl.priority := Some priority;
                  SitemapUrl.alternates := Some (generateAlternates path);
                  SitemapUrl.images := some_images images |})
    SUPPORTED_LANGUAGES.

Definition count_string {A : Type} (l : list A) : string :=
  integer_string (Z.of_nat (List.length l)).

Definition generateMoviesSitemap : M string :=
  set_xml urlset_open_with_images ;;;
  try_catch
    (let answer :=
       select_by_popularity Movie.slug Movie.popularity MAX_URLS_PER_SITEMAP
         (movies env) in
     match error answer with
     | Some e =>
         console_error "Error fetching movies:" (caught e) ;;;
         throw e
     | None =>
         match data answer with
         | Some ((_ :: _) as rows) =>
             console_log ("Generating sitemap for " ++ count_string rows
                          ++ " movies") ;;;
             for_each add_movie rows
         | _ => ret tt
         end
     end)
    (fun e =>
       console_error "Error generating movies sitemap:" (caught e) ;;;
       throw e) ;;;
  append_xml "</urlset>" ;;;
  get_xml.

Definition show_images (show : TVShow.t) : list Image.t :=
  ((if ToBoolean (TVShow.poster_path show) then
      [ {| Image.loc := VString (TMDB_IMAGE_BASE ++ ToString (TVShow.poster_path show));
           Image.title := or_else (TVShow.name show) (TVShow.original_name show);
           Image.caption :=
             VString (ToString (TVShow.name show) ++ " ("
                      ++ year_or_empty (TVShow.first_air_date show)
                      ++ ") - TV Show Poster") |} ]
    else [])
   ++
   (if ToBoolean (TVShow.backdrop_path show) then
      [ {| Image.loc := VString (TMDB_IMAGE_BASE ++ ToString (TVShow.backdrop_path show));
           Image.title := or_else (TVShow.name show) (TVShow.original_name show);
           Image.caption :=
             VString (ToString (TVShow.name show) ++ " - TV Show Backdrop") |} ]
    else []))%list.

Definition add_show (show : TVShow.t) : M unit :=
  let path := "/tv_show/" ++ ToString (TVShow.slug show) in
  let priority := calculatePriority (now env) (ITVShow show) in
  let changefreq := calculateChangefreq (now env) (ITVShow show) in
  let images := show_images show in
  for_each
    (fun lang =>
       lastmod <~ lift (lastmod_of (TVShow.updated_at show)) ;;
       add_url {| SitemapUrl.loc := VString (BASE_URL ++ "/" ++ lang ++ path);
                  SitemapUrl.lastmod := VString lastmod;
                  SitemapUrl.changefreq := Some changefreq;
                  SitemapUrl.priority := Some priority;
                  SitemapUrl.alternates := Some (generateAlternates path);
                  SitemapUrl.images := some_images images |})
    SUPPORTED_LANGUAGES.

Definition generateTVShowsSitemap : M string :=
  set_xml urlset_open_with_images ;;;
  try_catch
    (let answer :=
       select_by_popularity TVShow.slug TVShow.popularity MAX_URLS_PER_SITEMAP
         (tv_shows env) in
     match error answer with
     | Some e =>
         console_error "Error fetching TV shows:" (caught e) ;;;
         throw e
     | None =>
         match data answer with
         | Some ((_ :: _) as rows) =>
             console_log ("Generating sitemap for " ++ count_string rows
                          ++ " TV shows") ;;;
             for_each add_show rows
         | _ => ret tt
         end
     end)
    (fun e =>
       console_error "Error generating TV shows sitemap:" (caught e) ;;;
       throw e) ;;;
  append_xml "</urlset>" ;;;
  get_xml.

Definition people_url (tmdbApiKey : string) (page : Z) : string :=
  "https://api.themoviedb.org/3/person/popular?api_key=" ++ tmdbApiKey
  ++ "&page=" ++ integer_string page.

(** [for (let page = ...; page <= 10; page++)] from the pages left to
    fetch, with the people gathered so far; each [break] of the loop ends
    it with them. *)
Fixpoint fetch_people (tmdbApiKey : string) (pages : list Z)
    (people : list Person.t) : M (list Person.t) :=
  match pages with
  | [] => ret people
  | page :: pages' =>
      response <~ fetch env (people_url tmdbApiKey page) ;;
      if negb (Response.ok response) then
        console_error ("Error fetching popular people page "
                       ++ integer_string page ++ ":")
                      (text (Response.statusText response)) ;;;
        ret people
      else
        results <~ lift (Response.results response) ;;
        match results with
        | Some ((_ :: _) as rows) =>
            let people := (people ++ rows)%list in
            if (2000 <=? Z.of_nat (List.length people))%Z then ret people
            else fetch_people tmdbApiKey pages' people
        | _ => ret people
        end
  end.

Definition ten_pages : list Z := [1; 2; 3; 4; 5; 6; 7; 8; 9; 10]%Z.

Definition person_images (person : Person.t) : list Image.t :=
  if ToBoolean (Person.profile_path person) then
    [ {| Image.loc := VString (TMDB_IMAGE_BASE ++ ToString (Person.profile_path person));
         Image.title := Person.name person;
         Image.caption :=
           VString (ToString (Person.name person) ++ " - "
                    ++ ToString (or_else (Person.known_for_department person)
                                         (VString "Actor"))) |} ]
  else [].

Definition add_person (person : Person.t) : M unit :=
  slug <~ lift (createSlugFromName (Person.id person) (Person.name person)) ;;
  let path := "/person/" ++ slug in
  let images := person_images person in
  for_each
    (fun lang =>
       lastmod <~ lift today ;;
       add_url {| SitemapUrl.loc := VString (BASE_URL ++ "/" ++ lang ++ path);
                  SitemapUrl.lastmod := VString lastmod;
                  SitemapUrl.changefreq := Some monthly;
                  SitemapUrl.priority := Some 0.7%float;
                  SitemapUrl.alternates := Some (generateAlternates path);
                  SitemapUrl.images := some_images images |})
    SUPPORTED_LANGUAGES.

Definition generatePersonSitemap (tmdbApiKey : string) : M string :=
  set_xml urlset_open_with_images ;;;
  try_catch
    (people <~ fetch_people tmdbApiKey ten_pages [] ;;
     console_log ("Generating sitemap for " ++ count_string people
                  ++ " people") ;;;
     for_each add_person (firstn 2000 people))
    (fun e =>
       console_error "Error generating person sitemap:" (caught e) ;;;
       throw e) ;;;
  append_xml "</urlset>" ;;;
  get_xml.

Definition generateSitemapIndex : M string :=
  set_xml (xml_declaration
           ++ "<sitemapindex xmlns=" ++ q
           ++ "http://www.sitemaps.org/schemas/sitemap/0.9" ++ q ++ ">" ++ nl) ;;;
  lastmod <~ lift today ;;
  for_each
    (fun name =>
       loc <~ lift (escapeXml (VString (BASE_URL ++ name))) ;;
       append_xml ("  <sitemap>" ++ nl) ;;;
       append_xml ("    <loc>" ++ loc ++ "</loc>" ++ nl) ;;;
       append_xml ("    <lastmod>" ++ lastmod ++ "</lastmod>" ++ nl) ;;;
       append_xml ("  </sitemap>" ++ nl))
    ["/sitemap-main.xml"; "/sitemap-movies.xml"; "/sitemap-tvshows.xml";
     "/sitemap-people.xml"] ;;;
  append_xml "</sitemapindex>" ;;;
  get_xml.

(** ** The request handler *)

(** [error instanceof Error ? error.message : 'Unknown error'] *)
Definition message_of (e : Exn) : string :=
  match e with
  | TypeError m | RangeError m | SyntaxError m | Error m => m
  | StoreError m true => m
  | StoreError _ false => "Unknown error"
  end.

Definition serve (req : Request.t) : M Reply.t :=
  if String.eqb (Request.method req) "OPTIONS" then
    ret {| Reply.status := 200; Reply.content_type := None;
           Reply.cache_control := None; Reply.body := no_body |}
  else
    try_catch
      (lift (createClient env (or_empty (SUPABASE_URL env))
                              (or_empty (SUPABASE_SERVICE_ROLE_KEY env))) ;;;
       let tmdbApiKey := or_empty (TMDB_API_KEY env) in
       (if String.eqb tmdbApiKey "" then
          throw (Error "TMDB_API_KEY environment variable is required")
        else ret tt) ;;;
       let type :=
         match Request.type req with
         | Some t => if String.eqb t "" then "index" else t
         | None => "index"
         end in
       console_log ("Generating sitemap type: " ++ type) ;;;
       document <~
         (if String.eqb type "main" then generateMainSitemap
          else if String.eqb type "movies" then generateMoviesSitemap
          else if String.eqb type "tvshows" then generateTVShowsSitemap
          else if String.eqb type "people" then generatePersonSitemap tmdbApiKey
          else generateSitemapIndex) ;;
       console_log ("Successfully generated " ++ type ++ " sitemap ("
                    ++ integer_string (Z.of_nat (String.length document))
                    ++ " bytes)") ;;;
       ret {| Reply.status := 200;
              Reply.content_type := Some "application/xml";
              Reply.cache_control := Some "public, max-age=3600";
              Reply.body := xml_body document |})
      (fun e =>
         console_error "Error generating sitemap:" (caught e) ;;;
         ret {| Reply.status := 500;
                Reply.content_type := Some "application/json";
                Reply.cache_control := None;
                Reply.body := json_body "Failed to generate sitemap"
                                        (message_of e) |}).

End Assemblers.

End Server.


(* ================================================================== *)
(** * The browser-side generator *)
(* ================================================================== *)

Module Browser.

(** ** Ranking and classification *)

Section Ranking.
Local Open Scope float_scope.
Context `{Host}.
Variable now : Z.

Definition calculatePriority (item : Item) : float :=
  let popularity := number_or (ToNumber (get item popularity)) 0 in
  let voteAverage := number_or (ToNumber (get item vote_average)) 0 in
  let priority :=
    if PrimFloat.ltb 100 popularity then 0.9
    else if PrimFloat.ltb 50 popularity then 0.85
    else if PrimFloat.ltb 20 popularity then 0.75
    else if PrimFloat.ltb 10 popularity then 0.65
    else 0.6 in
  let priority :=
    if PrimFloat.leb 8.0 voteAverage then Math_min 1.0 (priority + 0.05)
    else priority in
  let releaseDate := or_else (get item release_date) (get item first_air_date) in
  let priority :=
    if ToBoolean releaseDate then
      let sixMonthsAgo := months_ago now 6 in
      let itemDate := Date_new releaseDate in
      if date_gt itemDate sixMonthsAgo then Math_min 1.0 (priority + 0.05)
      else priority
    else priority in
  Math_min 1.0 (Math_max 0.5 priority).

Definition calculateChangefreq (item : Item) : Changefreq :=
  if ToBoolean (get item in_production) then weekly
  else
    let releaseDate := or_else (get item release_date) (get item first_air_date) in
    if ToBoolean releaseDate
       && date_gt (Date_new releaseDate) (months_ago now 3)
    then weekly
    else monthly.

End Ranking.

(** ** Escaping, serialization and the assemblers *)

(** The interface [SitemapUrl] of this module, which has no images. *)
Module SitemapUrl.
Record t : Type := {
  loc : Value;
  lastmod : Value;
  changefreq : option Changefreq;
  priority : option float;
  alternates : option (list Alternate.t)
}.
End SitemapUrl.

Section Generator.
Local Open Scope string_scope.
Context `{Host}.
(** [SUPPORTED_LANGUAGES] of [./utils], [this.baseUrl], and what
    [databaseService.supabase] reaches. *)
Variable SUPPORTED_LANGUAGES : list string.
Variable baseUrl : string.
Variable env : Env.

Definition escapeXml (str : Value) : Outcome string :=
  s <- replace str "&" "&amp;" ;;
  Returned (replace_char "'" "&apos;"
             (replace_char quote "&quot;"
               (replace_char ">" "&gt;"
                 (replace_char "<" "&lt;" s)))).

Definition add_alternate (xml : string) (alt : Alternate.t) : Outcome string :=
  href <- escapeXml (Alternate.href alt) ;;
  Returned (xml ++ "    <xhtml:link rel=" ++ q ++ "alternate" ++ q
                ++ " hreflang=" ++ q ++ ToString (Alternate.hreflang alt) ++ q
                ++ " href=" ++ q ++ href ++ q ++ " />" ++ nl).

Definition generateXmlUrl (url : SitemapUrl.t) : Outcome string :=
  let xml := "  <url>" ++ nl in
  loc <- escapeXml (SitemapUrl.loc url) ;;
  let xml := xml ++ "    <loc>" ++ loc ++ "</loc>" ++ nl in
  let xml :=
    if ToBoolean (SitemapUrl.lastmod url)
    then xml ++ "    <lastmod>" ++ ToString (SitemapUrl.lastmod url)
             ++ "</lastmod>" ++ nl
    else xml in
  let xml :=
    match SitemapUrl.changefreq url with
    | Some c => xml ++ "    <changefreq>" ++ changefreq_string c
                    ++ "</changefreq>" ++ nl
    | None => xml
    end in
  let xml :=
    match SitemapUrl.priority url with
    | Some priority => xml ++ "    <priority>" ++ Number_toString priority
                           ++ "</priority>" ++ nl
    | None => xml
    end in
  xml <- match SitemapUrl.alternates url with
         | Some alternates => for_of add_alternate alternates xml
         | None => Returned xml
         end ;;
  Returned (xml ++ "  </url>" ++ nl).

Definition generateAlternates (path : string) : list Alternate.t :=
  (map (fun lang =>
          {| Alternate.hreflang := VString lang;
             Alternate.href := VString (baseUrl ++ "/" ++ lang ++ path) |})
       SUPPORTED_LANGUAGES
   ++ [ {| Alternate.hreflang := VString "x-default";
           Alternate.href := VString (baseUrl ++ "/en" ++ path) |} ])%list.

Definition today : Outcome string := iso_day (Some (now env)).

Definition urlset_open : string :=
  "<?xml version=" ++ q ++ "1.0" ++ q ++ " encoding=" ++ q ++ "UTF-8" ++ q
  ++ "?>" ++ nl
  ++ "<urlset xmlns=" ++ q ++ "http://www.sitemaps.org/schemas/sitemap/0.9" ++ q ++ nl
  ++ "        xmlns:xhtml=" ++ q ++ "http://www.w3.org/1999/xhtml" ++ q ++ ">" ++ nl.

Definition add_url (url : SitemapUrl.t) : M unit :=
  entry <~ lift (generateXmlUrl url) ;; append_xml entry.

Definition staticPages : list (string * float * Changefreq) :=
  [ ("/", 1.0%float, daily);
    ("/search", 0.8%float, daily);
    ("/discover-lists", 0.7%float, weekly);
    ("/about", 0.5%float, monthly);
    ("/privacy", 0.3%float, yearly);
    ("/terms", 0.3%float, yearly);
    ("/contact", 0.4%float, monthly) ].

Definition generateMainSitemap : M string :=
  set_xml urlset_open ;;;
  for_each
    (fun page : string * float * Changefreq =>
       let '(path, priority, changefreq) := page in
       for_each
         (fun lang =>
            lastmod <~ lift today ;;
            add_url {| SitemapUrl.loc := VString (baseUrl ++ "/" ++ lang ++ path);
                       SitemapUrl.lastmod := VString lastmod;
                       SitemapUrl.changefreq := Some changefreq;
                       SitemapUrl.priority := Some priority;
                       SitemapUrl.alternates := Some (generateAlternates path) |})
         SUPPORTED_LANGUAGES)
    staticPages ;;;
  append_xml "</urlset>" ;;;
  get_xml.

Definition lastmod_of (updated_at : Value) : Outcome string :=
  if ToBoolean updated_at then iso_day (Date_new updated_at) else today.

Definition add_movie (movie : Movie.t) : M unit :=
  let path := "/movie/" ++ ToString (Movie.slug movie) in
  let priority := calculatePriority (now env) (IMovie movie) in
  let changefreq := calculateChangefreq (now env) (IMovie movie) in
  for_each
    (fun lang =>
       lastmod <~ lift (lastmod_of (Movie.updated_at movie)) ;;
       add_url {| SitemapUrl.loc := VString (baseUrl ++ "/" ++ lang ++ path);
                  SitemapUrl.lastmod := VString lastmod;
                  SitemapUrl.changefreq := Some changefreq;
                  SitemapUrl.priority := Some priority;
                  SitemapUrl.alternates := Some (generateAlternates path) |})
    SUPPORTED_LANGUAGES.

(** The answer's [error] is not read; a catch only writes to the
    console, and the function goes on to close the document. *)
Definition generateMoviesSitemap (limit : Z) : M string :=
  set_xml urlset_open ;;;
  try_catch
    (let answer :=
       select_by_popularity Movie.slug Movie.popularity limit (movies env) in
     match data answer with
     | Some rows => for_each add_movie rows
     | None => ret tt
     end)
    (fun e => console_error "Error generating movies sitemap:" (caught e)) ;;;
  append_xml "</urlset>" ;;;
  get_xml.

Definition add_show (show : TVShow.t) : M unit :=
  let path := "/tv_show/" ++ ToString (TVShow.slug show) in
  let priority := calculatePriority (now env) (ITVShow show) in
  let changefreq := calculateChangefreq (now env) (ITVShow show) in
  for_each
    (fun lang =>
       lastmod <~ lift (lastmod_of (TVShow.updated_at show)) ;;
       add_url {| SitemapUrl.loc := VString (baseUrl ++ "/" ++ lang ++ path);
                  SitemapUrl.lastmod := VString lastmod;
                  SitemapUrl.changefreq := Some changefreq;
                  SitemapUrl.priority := Some priority;
                  SitemapUrl.alternates := Some (generateAlternates path) |})
    SUPPORTED_LANGUAGES.

Definition generateTVShowsSitemap (limit : Z) : M string :=
  set_xml urlset_open ;;;
  try_catch
    (let answer :=
       select_by_popularity TVShow.slug TVShow.popularity limit (tv_shows env) in
     match data answer with
     | Some rows => for_each add_show rows
     | None => ret tt
     end)
    (fun e => console_error "Error generating TV shows sitemap:" (caught e)) ;;;
  append_xml "</urlset>" ;;;
  get_xml.

Definition generateSitemapIndex : M string :=
  set_xml ("<?xml version=" ++ q ++ "1.0" ++ q ++ " encoding=" ++ q ++ "UTF-8"
           ++ q ++ "?>" ++ nl
           ++ "<sitemapindex xmlns=" ++ q
           ++ "http://www.sitemaps.org/schemas/sitemap/0.9" ++ q ++ ">" ++ nl) ;;;
  sitemaps <~
    lift (for_of
            (fun acc name =>
               lastmod <- today ;;
               Returned (List.app acc [(baseUrl ++ name, lastmod)]))
            ["/sitemap-main.xml"; "/sitemap-movies.xml"; "/sitemap-tvshows.xml";
             "/sitemap-people.xml"] []) ;;
  for_each
    (fun sitemap : string * string =>
       loc <~ lift (escapeXml (VString (fst sitemap))) ;;
       append_xml ("  <sitemap>" ++ nl) ;;;
       append_xml ("    <loc>" ++ loc ++ "</loc>" ++ nl) ;;;
       append_xml ("    <lastmod>" ++ snd sitemap ++ "</lastmod>" ++ nl) ;;;
       append_xml ("  </sitemap>" ++ nl))
    sitemaps ;;;
  append_xml "</sitemapindex>" ;;;
  get_xml.

End Generator.

End Browser.

(* ================================================================== *)
(** * Records of the specification's examples *)
(* ================================================================== *)

Module Examples.

Local Open Scope string_scope.

(** Noon UTC of 3 November 2026, as a time value. *)
Definition noon_2026_11_03 : Z := 1793707200000.

Definition movie (popularity vote_average : float) (release_date : Value)
  : Item :=
  IMovie {| Movie.id := VNumber 42;
            Movie.slug := VString "42-title";
            Movie.title := VString "Title";
            Movie.original_title := VString "Title";
            Movie.popularity := VNumber popularity;
            Movie.vote_average := VNumber vote_average;
            Movie.release_date := release_date;
            Movie.updated_at := VNull;
            Movie.poster_path := VNull;
            Movie.backdrop_path := VNull |}.

Definition tv_show (in_production : bool) (first_air_date : Value) : Item :=
  ITVShow {| TVShow.id := VNumber 7;
             TVShow.slug := VString "7-show";
             TVShow.name := VString "Show";
             TVShow.original_name := VString "Show";
             TVShow.popularity := VNumber 12;
             TVShow.vote_average := VNumber 7;
             TVShow.first_air_date := first_air_date;
             TVShow.in_production := VBool in_production;
             TVShow.updated_at := VNull;
             TVShow.poster_path := VNull;
             TVShow.backdrop_path := VNull |}.

(** An entry with neither location nor image texts. *)
Definition bare_url : SitemapUrl.t :=
  {| SitemapUrl.loc := VNull;
     SitemapUrl.lastmod := VUndefined;
     SitemapUrl.changefreq := None;
     SitemapUrl.priority := Some 0.5%float;
     SitemapUrl.alternates := None;
     SitemapUrl.images :=
       Some [ {| Image.loc := VUndefined; Image.title := VNull;
                 Image.caption := VString EmptyString |} ] |}.

(** A person of the external API's list. *)
Definition person : Person.t :=
  {| Person.id := VNumber 31;
     Person.name := VString "Tom  HANKS-Jr.";
     Person.profile_path := VString "/x.jpg";
     Person.popularity := VNumber 10;
     Person.known_for_department := VNull |}.

Definition film : Movie.t :=
  {| Movie.id := VNumber 42;
     Movie.slug := VString "42-title";
     Movie.title := VString "Tom & Jerry";
     Movie.original_title := VNull;
     Movie.popularity := VNumber 150;
     Movie.vote_average := VNumber 8.5;
     Movie.release_date := VString "2026-10-03";
     Movie.updated_at := VString "2026-10-30";
     Movie.poster_path := VString "/p.jpg";
     Movie.backdrop_path := VNull |}.

(** The answer of the external API with one person on it, and its answer
    when it is out of service. *)
Definition one_person : Outcome Response.t :=
  Returned {| Response.ok := true; Response.statusText := "OK";
              Response.results := Returned (Some [person]) |}.

Definition out_of_service : Outcome Response.t :=
  Returned {| Response.ok := false;
              Response.statusText := "Service Unavailable";
              Response.results := Thrown (SyntaxError "Unexpected token") |}.

(** [createClient] as the client library has it for an address or a key
    that is empty. *)
Definition supabase_createClient (supabaseUrl supabaseKey : string)
  : Outcome unit :=
  if String.eqb supabaseUrl "" then Thrown (Error "supabaseUrl is required.")
  else if String.eqb supabaseKey "" then Thrown (Error "supabaseKey is required.")
  else Returned tt.

(** A store with one film and a table of shows that fails; an external
    API with one page of people and out of service from the second
    page on. *)
Definition env : Env :=
  {| movies := Rows [film];
     tv_shows := Failing "connection refused" true;
     api := fun url =>
              if String.eqb url (Server.people_url "key" 1) then one_person
              else out_of_service;
     now := noon_2026_11_03;
     SUPABASE_URL := Some "https://project.supabase.co";
     SUPABASE_SERVICE_ROLE_KEY := Some "service-role-key";
     createClient := supabase_createClient;
     TMDB_API_KEY := Some "key" |}.

(** The same with the external API out of service on every page and the
    table of films failing too. *)
Definition env_down : Env :=
  {| movies := Failing "connection refused" true;
     tv_shows := Failing "connection refused" true;
     api := fun _ => out_of_service;
     now := noon_2026_11_03;
     SUPABASE_URL := Some "https://project.supabase.co";
     SUPABASE_SERVICE_ROLE_KEY := Some "service-role-key";
     createClient := supabase_createClient;
     TMDB_API_KEY := Some "key" |}.

Definition show : TVShow.t :=
  {| TVShow.id := VNumber 7;
     TVShow.slug := VString "7-show";
     TVShow.name := VString "Show";
     TVShow.original_name := VString "Show";
     TVShow.popularity := VNumber 12;
     TVShow.vote_average := VNumber 7;
     TVShow.first_air_date := VString "2021-11-03";
     TVShow.in_production := VBool true;
     TVShow.updated_at := VNull;
     TVShow.poster_path := VNull;
     TVShow.backdrop_path := VString "/b.jpg" |}.

(** A film whose [updated_at] is no date. *)
Definition undated_film : Movie.t :=
  {| Movie.id := VNumber 43;
     Movie.slug := VString "43-undated";
     Movie.title := VString "Undated";
     Movie.original_title := VNull;
     Movie.popularity := VNumber 3;
     Movie.vote_average := VNumber 5;
     Movie.release_date := VNull;
     Movie.updated_at := VString "yesterday";
     Movie.poster_path := VNull;
     Movie.backdrop_path := VNull |}.

Definition empty_page : Outcome Response.t :=
  Returned {| Response.ok := true; Response.statusText := "OK";
              Response.results := Returned (Some []) |}.

(** A store with one film and one show; an external API with one page of
    people and an empty second page. *)
Definition env_up : Env :=
  {| movies := Rows [film];
     tv_shows := Rows [show];
     api := fun url =>
              if String.eqb url (Server.people_url "key" 1) then one_person
              else empty_page;
     now := noon_2026_11_03;
     SUPABASE_URL := Some "https://project.supabase.co";
     SUPABASE_SERVICE_ROLE_KEY := Some "service-role-key";
     createClient := supabase_createClient;
     TMDB_API_KEY := Some "key" |}.

(** The same store with the undated film after the first. *)
Definition env_undated : Env :=
  {| movies := Rows [film; undated_film];
     tv_shows := Rows [show];
     api := fun _ => empty_page;
     now := noon_2026_11_03;
     SUPABASE_URL := Some "https://project.supabase.co";
     SUPABASE_SERVICE_ROLE_KEY := Some "service-role-key";
     createClient := supabase_createClient;
     TMDB_API_KEY := Some "key" |}.

(** The first store without the key of the external API. *)
Definition env_without_key : Env :=
  {| movies := Rows [film];
     tv_shows := Rows [show];
     api := fun _ => empty_page;
     now := noon_2026_11_03;
     SUPABASE_URL := Some "https://project.supabase.co";
     SUPABASE_SERVICE_ROLE_KEY := Some "service-role-key";
     createClient := supabase_createClient;
     TMDB_API_KEY := None |}.

(** The same with an external API that answers the first page and
    cannot be reached from the second on. *)
Definition env_flaky : Env :=
  {| movies := Rows [film];
     tv_shows := Rows [show];
     api := fun url =>
              if String.eqb url (Server.people_url "key" 1) then one_person
              else Thrown (TypeError "fetch failed");
     now := noon_2026_11_03;
     SUPABASE_URL := Some "https://project.supabase.co";
     SUPABASE_SERVICE_ROLE_KEY := Some "service-role-key";
     createClient := supabase_createClient;
     TMDB_API_KEY := Some "key" |}.

(** The first store with neither the address of the store nor the key
    of the external API. *)
Definition env_without_address : Env :=
  {| movies := Rows [film];
     tv_shows := Rows [show];
     api := fun _ => empty_page;
     now := noon_2026_11_03;
     SUPABASE_URL := None;
     SUPABASE_SERVICE_ROLE_KEY := Some "service-role-key";
     createClient := supabase_createClient;
     TMDB_API_KEY := None |}.

Definition get_request (type : string) : Request.t :=
  {| Request.method := "GET"; Request.type := Some type |}.

End Examples.

(* ================================================================== *)
(** * Notions the statements below use *)
(* ================================================================== *)

(** A computation that returns from every world. *)
Definition Returns {A} (m : M A) : Prop :=
  forall w, exists a w', m w = (Returned a, w').

(** A value that is a string. *)
Definition is_string (v : Value) : bool :=
  match v with VString _ => true | _ => false end.

(** The [<priority>] element as the browser-side serializer writes it. *)
Definition browser_priority_element (p : option float) : string :=
  match p with
  | Some x => ("    <priority>" ++ Number_toString x ++ "</priority>" ++ nl)%string
  | None => ""%string
  end.

(** The sitemap index of a day: the four sitemaps of the site, each
    stamped with the day. *)
Local Open Scope string_scope.

Definition index_entry (name day : string) : string :=
  "  <sitemap>" ++ nl
  ++ "    <loc>" ++ Server.BASE_URL ++ name ++ "</loc>" ++ nl
  ++ "    <lastmod>" ++ day ++ "</lastmod>" ++ nl
  ++ "  </sitemap>" ++ nl.

Definition index_document (day : string) : string :=
  Server.xml_declaration
  ++ "<sitemapindex xmlns=" ++ q
  ++ "http://www.sitemaps.org/schemas/sitemap/0.9" ++ q ++ ">" ++ nl
  ++ index_entry "/sitemap-main.xml" day
  ++ index_entry "/sitemap-movies.xml" day
  ++ index_entry "/sitemap-tvshows.xml" day
  ++ index_entry "/sitemap-people.xml" day
  ++ "</sitemapindex>".

Local Close Scope string_scope.

Local Open Scope string_scope.

(** A console line of each kind. *)
Definition logged (message : string) : Line :=
  {| level := log; message := message; detail := no_detail |}.
Definition failed (message : string) (e : Exn) : Line :=
  {| level := error_level; message := message; detail := caught e |}.

(** The reply to a failure. *)
Definition failure_reply (e : Exn) : Reply.t :=
  {| Reply.status := 500;
     Reply.content_type := Some "application/json";
     Reply.cache_control := None;
     Reply.body := json_body "Failed to generate sitemap" (Server.message_of e) |}.

(** The reply with a document. *)
Definition document_reply (document : string) : Reply.t :=
  {| Reply.status := 200;
     Reply.content_type := Some "application/xml";
     Reply.cache_control := Some "public, max-age=3600";
     Reply.body := xml_body document |}.

Local Close Scope string_scope.

Section HandlerNotions.
Local Open Scope string_scope.
Context `{Host}.
Variable env : Env.

(** The generator the handler picks for a [type]. *)
Definition generator_of (type key : string) : M string :=
  if String.eqb type "main" then Server.generateMainSitemap env
  else if String.eqb type "movies" then Server.generateMoviesSitemap env
  else if String.eqb type "tvshows" then Server.generateTVShowsSitemap env
  else if String.eqb type "people" then Server.generatePersonSitemap env key
  else Server.generateSitemapIndex env.

(** [url.searchParams.get('type') || 'index'] *)
Definition type_of (req : Request.t) : string :=
  match Request.type req with
  | Some t => if String.eqb t "" then "index" else t
  | None => "index"
  end.

End HandlerNotions.

Section SlugNotions.
Local Open Scope string_scope.

(** Every character of a string passes a test. *)
Fixpoint every (p : ascii -> bool) (s : string) : bool :=
  match s with
  | EmptyString => true
  | String a s' => p a && every p s'
  end.

(** A character of a slug: a lower-case letter, a digit, an underscore
    or a hyphen. *)
Definition is_slug_char (a : ascii) : bool :=
  let n := code a in
  (((48 <=? n) && (n <=? 57)) || ((97 <=? n) && (n <=? 122))
   || (n =? 95) || (n =? 45))%Z.

(** No hyphen follows a hyphen, the string coming after a hyphen when
    [after_hyphen] is set. *)
Fixpoint single_hyphens (after_hyphen : bool) (s : string) : bool :=
  match s with
  | EmptyString => true
  | String a s' =>
      if Ascii.eqb a "-" then negb after_hyphen && single_hyphens true s'
      else single_hyphens false s'
  end.

End SlugNotions.

(** A page of the external API that cannot be read: the request is
    rejected, or the answer is [ok] and reading its body throws. *)
Definition unreadable (env : Env) (key : string) (page : Z) (e : Exn) : Prop :=
  api env (Server.people_url key page) = Thrown e \/
  exists resp, api env (Server.people_url key page) = Returned resp /\
               Response.ok resp = true /\ Response.results resp = Thrown e.

Section CountingNotions.
Local Open Scope string_scope.

(** [s.startsWith(p)] *)
Fixpoint starts_with (p s : string) : bool :=
  match p with
  | EmptyString => true
  | String x p' =>
      match s with
      | EmptyString => false
      | String y s' => Ascii.eqb x y && starts_with p' s'
      end
  end.

(** The number of places of a text at which a pattern starts. *)
Fixpoint occurrences (p s : string) : nat :=
  match s with
  | EmptyString => 0
  | String _ s' => (if starts_with p s then 1 else 0) + occurrences p s'
  end.

(** The number of [<url>] tags of a document. *)
Definition url_elements (document : string) : nat :=
  occurrences "<url>" document.

(** A text without a less-than sign. *)
Definition angle_free (s : string) : bool :=
  every (fun a => negb (Ascii.eqb a "<")) s.

(** A text after whose end no [<url>] tag can be completed, and one at
    whose start none can be. *)
Fixpoint ends_clear (s : string) : bool :=
  match s with
  | EmptyString => true
  | String a s' =>
      match s' with
      | EmptyString => negb (Ascii.eqb a "<" || Ascii.eqb a "u"
                             || Ascii.eqb a "r" || Ascii.eqb a "l")
      | String _ _ => ends_clear s'
      end
  end.

Definition starts_clear (s : string) : bool :=
  match s with
  | EmptyString => true
  | String a _ => negb (Ascii.eqb a "u" || Ascii.eqb a "r"
                        || Ascii.eqb a "l" || Ascii.eqb a ">")
  end.

Definition nonempty (s : string) : bool :=
  match s with
  | EmptyString => false
  | String _ _ => true
  end.

(** A piece of a document with no [<url>] tag, and one with one: a
    single [<url>] element. *)
Definition no_url (s : string) : Prop :=
  url_elements s = 0%nat /\ ends_clear s = true.

Definition one_url (s : string) : Prop :=
  url_elements s = 1%nat /\ ends_clear s = true.

(** An entry whose texts that are written as they are hold no less-than
    sign: the date, the priority as each side prints it, and the
    language of each link. *)
Definition tidy_links (alternates : option (list Alternate.t)) : bool :=
  match alternates with
  | Some l => forallb (fun a => angle_free (ToString (Alternate.hreflang a))) l
  | None => true
  end.

Definition server_tidy (url : SitemapUrl.t) : bool :=
  angle_free (ToString (SitemapUrl.lastmod url))
  && match SitemapUrl.priority url with
     | Some p => angle_free (toFixed p 1)
     | None => true
     end
  && tidy_links (SitemapUrl.alternates url).

Definition browser_tidy (url : Browser.SitemapUrl.t) : bool :=
  angle_free (ToString (Browser.SitemapUrl.lastmod url))
  && match Browser.SitemapUrl.priority url with
     | Some p => angle_free (Number_toString p)
     | None => true
     end
  && tidy_links (Browser.SitemapUrl.alternates url).

End CountingNotions.

Section PeopleNotions.
Local Open Scope string_scope.

(** The rows of a page of the external API that is [ok] and has rows
    that can be read. *)
Definition page_rows (env : Env) (key : string) (page : Z) : list Person.t :=
  match api env (Server.people_url key page) with
  | Returned response =>
      if Response.ok response then
        match Response.results response with
        | Returned (Some rows) => rows
        | _ => []
        end
      else []
  | Thrown _ => []
  end.

End PeopleNotions.
(* ================================================================== *)
(** * Facts about ranking and classification *)
(* ================================================================== *)

(** ** Numbers that count as false *)

Section FloatFacts.
Local Open Scope float_scope.

Lemma SFcompare_refl_finite s m e :
  SFcompare (S754_finite s m e) (S754_finite s m e) = Some Eq.
Proof.
  simpl. rewrite Z.compare_refl, Pos.compare_cont_refl.
  destruct s; reflexivity.
Qed.

Lemma falsy_number_cases (x : float) :
  truthy_number x = false ->
  Prim2SF x = S754_nan \/ exists s, Prim2SF x = S754_zero s.
Proof.
  unfold truthy_number, PrimFloat.is_zero, PrimFloat.is_nan.
  rewrite !eqb_spec.
  change (Prim2SF 0) with (S754_zero false).
  destruct (Prim2SF x) as [s | s | | s m e] eqn:E; intros Hx.
  - right. exists s. reflexivity.
  - destruct s; discriminate Hx.
  - left. reflexivity.
  - unfold SFeqb in Hx. rewrite SFcompare_refl_finite in Hx.
    destruct s; discriminate Hx.
Qed.

(** A number that counts as false is not above a positive constant. *)
Lemma falsy_not_above (c x : float) :
  truthy_number x = false ->
  PrimFloat.ltb c 0 = false ->
  PrimFloat.leb c 0 = false ->
  PrimFloat.ltb c x = false /\ PrimFloat.leb c x = false.
Proof.
  intros Hx. rewrite !ltb_spec, !leb_spec.
  change (Prim2SF 0) with (S754_zero false).
  destruct (falsy_number_cases x Hx) as [-> | [s ->]].
  - intros _ _. unfold SFltb, SFleb.
    destruct (Prim2SF c); simpl; auto.
  - unfold SFltb, SFleb.
    destruct (Prim2SF c) as [s' | s' | | s' m e]; simpl; auto.
Qed.

Lemma ltb_number_or (c x : float) :
  PrimFloat.ltb c 0 = false -> PrimFloat.leb c 0 = false ->
  PrimFloat.ltb c (number_or x 0) = PrimFloat.ltb c x.
Proof.
  intros H1 H2. unfold number_or.
  destruct (truthy_number x) eqn:Hx; [reflexivity|].
  destruct (falsy_not_above c x Hx H1 H2) as [-> _]. exact H1.
Qed.

Lemma leb_number_or (c x : float) :
  PrimFloat.ltb c 0 = false -> PrimFloat.leb c 0 = false ->
  PrimFloat.leb c (number_or x 0) = PrimFloat.leb c x.
Proof.
  intros H1 H2. unfold number_or.
  destruct (truthy_number x) eqn:Hx; [reflexivity|].
  destruct (falsy_not_above c x Hx H1 H2) as [_ ->]. exact H2.
Qed.

Lemma base_priority_number_or (x : float) :
  Spec.base_priority (number_or x 0) = Spec.base_priority x.
Proof.
  unfold Spec.base_priority.
  rewrite !ltb_number_or by reflexivity. reflexivity.
Qed.

End FloatFacts.

Section RankerFacts.
Local Open Scope float_scope.
Context `{Host}.
Variable now : Z.

(** The number the program reads from a column and the number the
    specification reads from it rank alike. *)
Lemma ToNumber_falsy (v : Value) :
  ToBoolean v = false -> truthy_number (ToNumber v) = false.
Proof.
  destruct v as [ | | [|] | x | [|c s]]; simpl; intros Hv;
    try discriminate Hv; try reflexivity.
  exact Hv.
Qed.

Lemma base_priority_column (v : Value) :
  Spec.base_priority (number_or (ToNumber v) 0)
  = Spec.base_priority (Spec.or_zero v).
Proof.
  rewrite base_priority_number_or.
  unfold Spec.or_zero, Spec.missing.
  destruct (ToBoolean v) eqn:Hv; simpl; [reflexivity|].
  rewrite <- (base_priority_number_or (ToNumber v)).
  unfold number_or. rewrite (ToNumber_falsy v Hv). reflexivity.
Qed.

Lemma rated_column (v : Value) :
  PrimFloat.leb 8.0 (number_or (ToNumber v) 0)
  = PrimFloat.leb 8.0 (Spec.or_zero v).
Proof.
  rewrite leb_number_or by reflexivity.
  unfold Spec.or_zero, Spec.missing.
  destruct (ToBoolean v) eqn:Hv; simpl; [reflexivity|].
  rewrite <- (leb_number_or 8.0 (ToNumber v)) by reflexivity.
  unfold number_or. rewrite (ToNumber_falsy v Hv). reflexivity.
Qed.

(** The program's intermediate [Math.min(1.0, _)] change nothing: the
    final clamp alone gives the same number. *)
Lemma clamp_steps (b : float) (rated recent : bool) :
  In b [0.9; 0.85; 0.75; 0.65; 0.6] ->
  Math_min 1.0 (Math_max 0.5
    (let p := if rated then Math_min 1.0 (b + 0.05) else b in
     if recent then Math_min 1.0 (p + 0.05) else p))
  = Spec.clamp (let p := if rated then b + 0.05 else b in
                if recent then p + 0.05 else p).
Proof.
  simpl. intros [<- | [<- | [<- | [<- | [<- | []]]]]];
    destruct rated, recent; vm_compute; reflexivity.
Qed.

Lemma base_priority_values (p : float) :
  In (Spec.base_priority p) [0.9; 0.85; 0.75; 0.65; 0.6].
Proof.
  unfold Spec.base_priority.
  destruct (PrimFloat.ltb 100 p); [simpl; auto|].
  destruct (PrimFloat.ltb 50 p); [simpl; auto|].
  destruct (PrimFloat.ltb 20 p); [simpl; auto|].
  destruct (PrimFloat.ltb 10 p); simpl; auto 6.
Qed.

Lemma server_release_date (item : Item) :
  (if has release_date item then get item release_date
   else get item first_air_date) = Spec.primary_date item.
Proof. destruct item; reflexivity. Qed.

(** The recency test of both implementations is the specification's. *)
Lemma server_recency (k : Z) (item : Item) :
  ToBoolean (if has release_date item then get item release_date
             else get item first_air_date)
  && date_gt (Date_new (if has release_date item then get item release_date
                        else get item first_air_date)) (months_ago now k)
  = Spec.within_last_months now k item.
Proof.
  rewrite server_release_date.
  unfold Spec.within_last_months, Spec.missing.
  destruct (ToBoolean (Spec.primary_date item)); reflexivity.
Qed.

Lemma browser_recency (k : Z) (item : Item) :
  ToBoolean (or_else (get item release_date) (get item first_air_date))
  && date_gt (Date_new (or_else (get item release_date) (get item first_air_date)))
             (months_ago now k)
  = Spec.within_last_months now k item.
Proof.
  unfold Spec.within_last_months, Spec.missing, or_else.
  destruct item as [m | s]; simpl.
  - destruct (ToBoolean (Movie.release_date m)) eqn:E; simpl.
    + rewrite E. reflexivity.
    + reflexivity.
  - destruct (ToBoolean (TVShow.first_air_date s)); reflexivity.
Qed.

Lemma if_andb {A} (a b : bool) (x y : A) :
  (if a then (if b then x else y) else y) = if a && b then x else y.
Proof. destruct a, b; reflexivity. Qed.

Lemma server_ranker_refines (item : Item) :
  Server.calculatePriority now item = Spec.Ranker now item.
Proof.
  unfold Server.calculatePriority, Spec.Ranker. cbv zeta.
  rewrite if_andb.
  rewrite (server_recency 6 item).
  rewrite rated_column.
  fold (Spec.base_priority (number_or (ToNumber (get item popularity)) 0)).
  rewrite base_priority_column.
  apply (clamp_steps _ _ _ (base_priority_values _)).
Qed.

Lemma browser_ranker_refines (item : Item) :
  Browser.calculatePriority now item = Spec.Ranker now item.
Proof.
  unfold Browser.calculatePriority, Spec.Ranker. cbv zeta.
  rewrite if_andb.
  rewrite (browser_recency 6 item).
  rewrite rated_column.
  fold (Spec.base_priority (number_or (ToNumber (get item popularity)) 0)).
  rewrite base_priority_column.
  apply (clamp_steps _ _ _ (base_priority_values _)).
Qed.

Lemma server_classifier_refines (item : Item) :
  Server.calculateChangefreq now item = Spec.Classifier now item.
Proof.
  unfold Server.calculateChangefreq, Spec.Classifier.
  rewrite (server_recency 3 item).
  destruct item as [m | s]; reflexivity.
Qed.

Lemma browser_classifier_refines (item : Item) :
  Browser.calculateChangefreq now item = Spec.Classifier now item.
Proof.
  unfold Browser.calculateChangefreq, Spec.Classifier.
  rewrite (browser_recency 3 item).
  destruct item as [m | s]; reflexivity.
Qed.

(** The specification's ranker stays within [0.5, 1.0]. *)
Lemma spec_ranker_range (item : Item) :
  PrimFloat.leb 0.5 (Spec.Ranker now item) = true /\
  PrimFloat.leb (Spec.Ranker now item) 1.0 = true.
Proof.
  unfold Spec.Ranker. cbv zeta.
  generalize (base_priority_values (Spec.or_zero (get item popularity))).
  generalize (Spec.base_priority (Spec.or_zero (get item popularity))).
  intros b Hb.
  destruct (PrimFloat.leb 8.0 (Spec.or_zero (get item vote_average)));
    destruct (Spec.within_last_months now 6 item);
    simpl in Hb;
    destruct Hb as [<- | [<- | [<- | [<- | [<- | []]]]]];
    split; vm_compute; reflexivity.
Qed.

(** Its values at the popularities 150, 60, 25, 15 and 5, the other
    columns left as they are, do not increase. *)
Lemma spec_ranker_steps (item : Item) :
  let R p := Spec.Ranker now (with_popularity (VNumber p) item) in
  PrimFloat.leb (R 60) (R 150) = true /\
  PrimFloat.leb (R 25) (R 60) = true /\
  PrimFloat.leb (R 15) (R 25) = true /\
  PrimFloat.leb (R 5) (R 15) = true.
Proof.
  assert (Hpop : forall v, get (with_popularity v item) popularity = v)
    by (intros v; destruct item; reflexivity).
  assert (Hvote : forall v, get (with_popularity v item) vote_average
                            = get item vote_average)
    by (intros v; destruct item; reflexivity).
  assert (Hdate : forall v, Spec.within_last_months now 6 (with_popularity v item)
                            = Spec.within_last_months now 6 item)
    by (intros v; destruct item; reflexivity).
  cbv zeta. unfold Spec.Ranker. cbv zeta.
  rewrite !Hpop, !Hvote, !Hdate.
  destruct (PrimFloat.leb 8.0 (Spec.or_zero (get item vote_average)));
    destruct (Spec.within_last_months now 6 item);
    repeat split; vm_compute; reflexivity.
Qed.

End RankerFacts.

(* ================================================================== *)
(** * Facts about escaping and serialization *)
(* ================================================================== *)

Section StringFacts.
Local Open Scope string_scope.

Lemma append_assoc (a b c : string) : (a ++ b) ++ c = a ++ (b ++ c).
Proof. induction a as [|x a IH]; simpl; [reflexivity|]. rewrite IH. reflexivity. Qed.

Lemma append_nil_r (a : string) : a ++ "" = a.
Proof. induction a as [|x a IH]; simpl; [reflexivity|]. rewrite IH. reflexivity. Qed.

Lemma length_append (a b : string) :
  String.length (a ++ b) = (String.length a + String.length b)%nat.
Proof. induction a as [|x a IH]; simpl; [reflexivity|]. rewrite IH. reflexivity. Qed.

Lemma replace_char_append (c : ascii) (by_ a b : string) :
  replace_char c by_ (a ++ b) = replace_char c by_ a ++ replace_char c by_ b.
Proof.
  induction a as [|x a IH]; simpl; [reflexivity|].
  destruct (Ascii.eqb x c); rewrite IH; [rewrite append_assoc|]; reflexivity.
Qed.

(** The four later replacements of [escapeXml], and all five. *)
Definition later (s : string) : string :=
  replace_char "'" "&apos;"
    (replace_char quote "&quot;"
      (replace_char ">" "&gt;" (replace_char "<" "&lt;" s))).

Lemma later_append (a b : string) : later (a ++ b) = later a ++ later b.
Proof. unfold later. rewrite !replace_char_append. reflexivity. Qed.

Lemma later_one (x : ascii) :
  Ascii.eqb x "&" = false -> later (String x "") = Spec.entity x.
Proof.
  intros Hx. unfold later, Spec.entity. rewrite Hx. simpl.
  destruct (Ascii.eqb x "<") eqn:E1; simpl.
  { reflexivity. }
  destruct (Ascii.eqb x ">") eqn:E2; simpl.
  { reflexivity. }
  destruct (Ascii.eqb x quote) eqn:E3; simpl.
  { reflexivity. }
  destruct (Ascii.eqb x "'") eqn:E4; simpl; reflexivity.
Qed.

Lemma five_replacements (s : string) :
  later (replace_char "&" "&amp;" s) = Spec.escape s.
Proof.
  induction s as [|x s IH]; [reflexivity|].
  cbn [replace_char Spec.escape].
  destruct (Ascii.eqb x "&") eqn:E.
  - rewrite later_append, IH. unfold Spec.entity. rewrite E. reflexivity.
  - change (String x (replace_char "&" "&amp;" s))
      with (String x "" ++ replace_char "&" "&amp;" s).
    rewrite later_append, IH, (later_one x E). reflexivity.
Qed.


Lemma append_split (a b p r : string) (c : ascii) :
  a ++ b = p ++ String c r ->
  (exists r', a = p ++ String c r' /\ r = r' ++ b) \/
  (exists p', p = a ++ p' /\ b = p' ++ String c r).
Proof.
  revert p. induction a as [|x a IH]; intros p Heq.
  - right. exists p. split; [reflexivity | exact Heq].
  - destruct p as [|y p]; simpl in Heq; inversion Heq; subst.
    + left. exists a. split; reflexivity.
    + destruct (IH p H1) as [(r' & -> & ->) | (p' & -> & ->)].
      * left. exists r'. split; reflexivity.
      * right. exists p'. split; reflexivity.
Qed.

Lemma all_plain_at (s p r : string) (c : ascii) :
  Spec.all_plain s = true -> s = p ++ String c r -> Spec.plain c = true.
Proof.
  revert s. induction p as [|y p IH]; intros s Hs ->; simpl in Hs;
    apply andb_prop in Hs; destruct Hs as [Hc Hs].
  - exact Hc.
  - exact (IH _ Hs eq_refl).
Qed.

Lemma escape_Escaped (s : string) : Spec.Escaped (Spec.escape s).
Proof.
  induction s as [|x s IH]; [constructor|].
  cbn [Spec.escape]. unfold Spec.entity.
  destruct (Ascii.eqb x "&") eqn:E1.
  { apply (Spec.Escaped_entity "amp;"); [simpl; auto | exact IH]. }
  destruct (Ascii.eqb x "<") eqn:E2.
  { apply (Spec.Escaped_entity "lt;"); [simpl; auto | exact IH]. }
  destruct (Ascii.eqb x ">") eqn:E3.
  { apply (Spec.Escaped_entity "gt;"); [simpl; auto | exact IH]. }
  destruct (Ascii.eqb x quote) eqn:E4.
  { apply (Spec.Escaped_entity "quot;"); [simpl; auto 6 | exact IH]. }
  destruct (Ascii.eqb x "'") eqn:E5.
  { apply (Spec.Escaped_entity "apos;"); [simpl; auto 6 | exact IH]. }
  apply Spec.Escaped_plain; [|exact IH].
  unfold Spec.plain. rewrite E1, E2, E3, E4, E5. reflexivity.
Qed.

Lemma entity_names_plain (e : string) :
  In e Spec.entity_names -> Spec.all_plain e = true.
Proof.
  simpl. intros [<- | [<- | [<- | [<- | [<- | []]]]]]; reflexivity.
Qed.

(** In such a text every character is plain, or is the ampersand of an
    entity. *)
Lemma Escaped_at (t : string) :
  Spec.Escaped t ->
  forall (p r : string) (c : ascii), t = p ++ String c r ->
  Spec.plain c = true \/
  (c = "&"%char /\ exists e rest, In e Spec.entity_names /\ r = e ++ rest).
Proof.
  induction 1 as [| a s Ha Hs IH | e s He Hs IH]; intros p r c Heq.
  - destruct p; discriminate Heq.
  - destruct p as [|y p]; simpl in Heq; inversion Heq; subst.
    + left. exact Ha.
    + exact (IH p r c eq_refl).
  - destruct p as [|y p]; simpl in Heq; inversion Heq; subst.
    + right. split; [reflexivity|]. exists e, s. split; [exact He | reflexivity].
    + destruct (append_split _ _ _ _ _ H1) as [(r' & He' & _) | (p' & _ & Hs')].
      * left. exact (all_plain_at e p r' c (entity_names_plain e He) He').
      * exact (IH p' r c Hs').
Qed.

End StringFacts.

Section SerializerFacts.
Local Open Scope string_scope.

Lemma server_escapeXml_escaped (v : Value) :
  Server.escapeXml v = Spec.escaped v.
Proof.
  unfold Server.escapeXml, Spec.escaped, Spec.missing.
  destruct (ToBoolean v) eqn:Hv; simpl; [|reflexivity].
  destruct v as [ | | b | x | s]; simpl; try reflexivity; try discriminate Hv.
  fold (later (replace_char "&" "&amp;" s)).
  rewrite five_replacements. reflexivity.
Qed.

Lemma bind_Returned {A B} (a : A) (k : A -> Outcome B) :
  bind (Returned a) k = k a.
Proof. reflexivity. Qed.

Lemma server_add_alternate (xml : string) (alt : Alternate.t) :
  Server.add_alternate xml alt
  = (l <- Spec.link alt ;; Returned (xml ++ l)).
Proof.
  unfold Server.add_alternate, Spec.link.
  rewrite server_escapeXml_escaped.
  destruct (Spec.escaped (Alternate.href alt)) as [href | e]; cbn [bind];
    [|reflexivity].
  rewrite ?append_assoc; reflexivity.
Qed.

Lemma for_of_all {A} (step : string -> A -> Outcome string)
    (f : A -> Outcome string) :
  (forall xml x, step xml x = (s <- f x ;; Returned (xml ++ s))) ->
  forall l xml,
    for_of step l xml = (s <- Spec.all f l ;; Returned (xml ++ s)).
Proof.
  intros Hstep. induction l as [|x l IH]; intros xml; cbn [for_of Spec.all bind].
  - rewrite append_nil_r. reflexivity.
  - rewrite Hstep. destruct (f x) as [s | e]; cbn [bind]; [|reflexivity].
    rewrite IH. destruct (Spec.all f l) as [rest | e]; cbn [bind]; [|reflexivity].
    rewrite append_assoc. reflexivity.
Qed.

Lemma server_add_image (xml : string) (img : Image.t) :
  Server.add_image xml img
  = (b <- Spec.image_block img ;; Returned (xml ++ b)).
Proof.
  unfold Server.add_image, Spec.image_block, Spec.optional_text, Spec.missing,
    Spec.element.
  rewrite !server_escapeXml_escaped.
  destruct (Spec.escaped (Image.loc img)) as [loc | e]; cbn [bind]; [|reflexivity].
  destruct (ToBoolean (Image.title img)); cbn [negb bind].
  - destruct (Spec.escaped (Image.title img)) as [title | e]; cbn [bind];
      [|reflexivity].
    destruct (ToBoolean (Image.caption img)); cbn [negb bind].
    + destruct (Spec.escaped (Image.caption img)) as [caption | e]; cbn [bind];
        [|reflexivity].
      rewrite ?append_assoc; reflexivity.
    + rewrite ?append_assoc; reflexivity.
  - destruct (ToBoolean (Image.caption img)); cbn [negb bind].
    + destruct (Spec.escaped (Image.caption img)) as [caption | e]; cbn [bind];
        [|reflexivity].
      rewrite ?append_assoc; reflexivity.
    + rewrite ?append_assoc; reflexivity.
Qed.

Lemma server_serializer_refines (url : SitemapUrl.t) :
  Server.generateXmlUrl url = Spec.url_element url.
Proof.
  unfold Server.generateXmlUrl, Spec.url_element.
  rewrite server_escapeXml_escaped.
  destruct (Spec.escaped (SitemapUrl.loc url)) as [loc | e]; cbn [bind];
    [|reflexivity].
  assert (Halt : forall xml,
    match SitemapUrl.alternates url with
    | Some alternates => for_of Server.add_alternate alternates xml
    | None => Returned xml
    end = (s <- Spec.all Spec.link (Spec.some_or_none (SitemapUrl.alternates url)) ;;
           Returned (xml ++ s))).
  { intros xml. destruct (SitemapUrl.alternates url) as [l|]; cbn [Spec.some_or_none Spec.all bind].
    - apply for_of_all. apply server_add_alternate.
    - rewrite append_nil_r. reflexivity. }
  assert (Himg : forall xml,
    match SitemapUrl.images url with
    | Some images => for_of Server.add_image images xml
    | None => Returned xml
    end = (s <- Spec.all Spec.image_block (Spec.some_or_none (SitemapUrl.images url)) ;;
           Returned (xml ++ s))).
  { intros xml. destruct (SitemapUrl.images url) as [l|]; cbn [Spec.some_or_none Spec.all bind].
    - apply for_of_all. apply server_add_image.
    - rewrite append_nil_r. reflexivity. }
  rewrite Halt.
  destruct (Spec.all Spec.link _) as [links | e]; cbn [bind]; [|reflexivity].
  rewrite Himg.
  destruct (Spec.all Spec.image_block _) as [images | e]; cbn [bind]; [|reflexivity].
  unfold Spec.lastmod_element, Spec.changefreq_element, Spec.priority_element,
    Spec.element, Spec.missing.
  destruct (ToBoolean (SitemapUrl.lastmod url));
    destruct (SitemapUrl.changefreq url);
    destruct (SitemapUrl.priority url); cbn [negb];
    rewrite ?append_assoc; reflexivity.
Qed.

End SerializerFacts.

(* ================================================================== *)
(** * Facts about fixed-point notation *)
(* ================================================================== *)

Section FixedFacts.
Local Open Scope string_scope.

Lemma all_digits_append (a b : string) :
  all_digits (a ++ b) = all_digits a && all_digits b.
Proof.
  induction a as [|x a IH]; simpl; [reflexivity|].
  rewrite IH, andb_assoc. reflexivity.
Qed.

Lemma all_digits_zeros (k : nat) : all_digits (zeros k) = true.
Proof. induction k as [|k IH]; simpl; [reflexivity | exact IH]. Qed.

Lemma length_zeros (k : nat) : String.length (zeros k) = k.
Proof. induction k as [|k IH]; simpl; [reflexivity | rewrite IH; reflexivity]. Qed.

Lemma all_digits_substring (s : string) :
  all_digits s = true -> forall n m, all_digits (substring n m s) = true.
Proof.
  induction s as [|x s IH]; intros Hs n m.
  - destruct n, m; reflexivity.
  - simpl in Hs. apply andb_prop in Hs. destruct Hs as [Hx Hs].
    destruct n as [|n]; simpl.
    + destruct m as [|m]; [reflexivity|]. simpl. rewrite Hx. apply IH, Hs.
    + apply IH, Hs.
Qed.

Lemma length_substring (s : string) :
  forall n m, (n + m <= String.length s)%nat ->
              String.length (substring n m s) = m.
Proof.
  induction s as [|x s IH]; intros n m Hle; simpl in Hle.
  - destruct n, m; simpl; try reflexivity; lia.
  - destruct n as [|n]; simpl.
    + destruct m as [|m]; [reflexivity|]. simpl. rewrite (IH 0%nat m); [reflexivity | lia].
    + apply IH. lia.
Qed.

Lemma string_of_uint_digits (d : Decimal.uint) :
  all_digits (NilEmpty.string_of_uint d) = true.
Proof. induction d; simpl; auto. Qed.

Lemma digits_all_digits (n : Z) : all_digits (digits n) = true.
Proof.
  unfold digits, NilZero.string_of_uint.
  destruct (N.to_uint (Z.to_N n)) eqn:E; try reflexivity;
    rewrite <- E; apply string_of_uint_digits.
Qed.

Lemma digits_nonempty (n : Z) : (1 <= String.length (digits n))%nat.
Proof.
  unfold digits, NilZero.string_of_uint.
  destruct (N.to_uint (Z.to_N n)); simpl; lia.
Qed.

Lemma digit_is_no_minus (a : ascii) :
  is_digit a = true -> Ascii.eqb a "-" = false.
Proof.
  intros Ha. destruct (Ascii.eqb_spec a "-") as [-> | _]; [|reflexivity].
  discriminate Ha.
Qed.

Lemma digits_then_point_digit (a : string) (d : ascii) :
  all_digits a = true -> (1 <= String.length a)%nat -> is_digit d = true ->
  digits_point_digit (a ++ String "." (String d "")) = true.
Proof.
  intros Ha Hlen Hd. induction a as [|x a IH]; simpl in *; [lia|].
  apply andb_prop in Ha. destruct Ha as [Hx Ha]. rewrite Hx. simpl.
  destruct a as [|y a].
  - simpl. rewrite Hd. reflexivity.
  - rewrite IH; [apply orb_true_r | exact Ha | simpl; lia].
Qed.

Lemma fixed_digits_one (n : Z) :
  digits_point_digit (fixed_digits n 1) = true /\
  exists x rest, fixed_digits n 1 = String x rest /\ is_digit x = true.
Proof.
  unfold fixed_digits. cbn [Nat.eqb].
  set (m := if Nat.leb (String.length (digits n)) 1
            then zeros (1 + 1 - String.length (digits n)) ++ digits n
            else digits n).
  assert (Hm : all_digits m = true).
  { unfold m. destruct (Nat.leb _ 1);
      [rewrite all_digits_append, all_digits_zeros|]; simpl;
      apply digits_all_digits. }
  assert (Hlen : (2 <= String.length m)%nat).
  { unfold m. pose proof (digits_nonempty n).
    destruct (Nat.leb (String.length (digits n)) 1) eqn:E.
    - apply Nat.leb_le in E. rewrite length_append, length_zeros. lia.
    - apply Nat.leb_gt in E. lia. }
  set (k := String.length m) in *.
  pose proof (all_digits_substring m Hm 0 (k - 1)) as Ha.
  pose proof (length_substring m 0 (k - 1) ltac:(fold k; lia)) as Hla.
  pose proof (all_digits_substring m Hm (k - 1) 1) as Hb.
  pose proof (length_substring m (k - 1) 1 ltac:(fold k; lia)) as Hlb.
  destruct (substring (k - 1) 1 m) as [|d [|? ?]] eqn:Eb; try discriminate Hlb.
  simpl in Hb. rewrite andb_true_r in Hb.
  split.
  - apply digits_then_point_digit; [exact Ha | lia | exact Hb].
  - destruct (substring 0 (k - 1) m) as [|x rest] eqn:Ea; [simpl in Hla; lia|].
    simpl in Ha. apply andb_prop in Ha. destruct Ha as [Hx _].
    exists x, (rest ++ "." ++ String d ""). split; [reflexivity | exact Hx].
Qed.

(** In fixed-point range [toFixed(1)] writes a decimal with one digit
    after the point. *)
Lemma toFixed_one_decimal (x : float) :
  in_fixed_range x = true -> one_decimal (toFixed x 1) = true.
Proof.
  unfold in_fixed_range, toFixed.
  destruct (Prim2SF x) as [s | s | | s m e]; try discriminate.
  - intros _. reflexivity.
  - intros Hr. apply negb_true_iff in Hr. rewrite Hr.
    destruct (fixed_digits_one (nearest_scaled (Z.pos m) e 1))
      as [Hd (a & rest & Heq & Ha)].
    destruct s.
    + cbn [append one_decimal]. change (Ascii.eqb "-" "-") with true.
      cbv iota. exact Hd.
    + cbn [append]. rewrite Heq in *. cbn [one_decimal].
      rewrite (digit_is_no_minus a Ha). exact Hd.
Qed.

End FixedFacts.

(* ================================================================== *)
(** * Facts about the assemblers *)
(* ================================================================== *)

Section EmitFacts.
Local Open Scope string_scope.

Lemma Returned_eq {A} (a b : A) : Returned a = Returned b -> a = b.
Proof. intros Heq. injection Heq as Hab. exact Hab. Qed.


Lemma joined_app (a b : list string) :
  joined (a ++ b)%list = joined a ++ joined b.
Proof.
  induction a as [|x a IH]; simpl; [reflexivity|].
  rewrite IH, append_assoc. reflexivity.
Qed.

Lemma emits_ret (P : string -> Prop) : Emits P 0 (ret tt).
Proof.
  intros w r w' Hrun. inversion Hrun; subst.
  exists []. simpl. rewrite append_nil_r. repeat split; auto.
Qed.

Lemma emits_throw (P : string -> Prop) (n : nat) (e : Exn) :
  Emits P n (throw e).
Proof.
  intros w r w' Hrun. inversion Hrun; subst.
  exists []. simpl. rewrite append_nil_r.
  repeat split; auto; [lia | discriminate].
Qed.

Lemma emits_console_log (P : string -> Prop) (message : string) :
  Emits P 0 (console_log message).
Proof.
  intros w r w' Hrun. inversion Hrun; subst.
  exists []. simpl. rewrite append_nil_r. repeat split; auto.
Qed.

Lemma emits_console_error (P : string -> Prop) (message : string) (d : Detail) :
  Emits P 0 (console_error message d).
Proof.
  intros w r w' Hrun. inversion Hrun; subst.
  exists []. simpl. rewrite append_nil_r. repeat split; auto.
Qed.

Lemma emits_seq (P : string -> Prop) (n k : nat) (m1 m2 : M unit) :
  Emits P n m1 -> Emits P k m2 -> Emits P (n + k) (m1 ;;; m2).
Proof.
  intros H1 H2 w r w' Hrun. unfold and_then in Hrun.
  destruct (m1 w) as [[[] | e] w1] eqn:E1.
  - destruct (H1 _ _ _ E1) as (urls1 & HP1 & Hx1 & Hle1 & Hn1).
    destruct (H2 _ _ _ Hrun) as (urls2 & HP2 & Hx2 & Hle2 & Hn2).
    exists (urls1 ++ urls2)%list. repeat split.
    + apply Forall_app. split; assumption.
    + rewrite Hx2, Hx1, joined_app, append_assoc. reflexivity.
    + rewrite length_app. lia.
    + intros Hr. rewrite length_app, (Hn1 eq_refl), (Hn2 Hr). reflexivity.
  - inversion Hrun; subst.
    destruct (H1 _ _ _ E1) as (urls1 & HP1 & Hx1 & Hle1 & Hn1).
    exists urls1. repeat split; try assumption; [lia | discriminate].
Qed.

Lemma emits_for_each {A} (P : string -> Prop) (n : nat) (body : A -> M unit)
    (l : list A) :
  (forall x, In x l -> Emits P n (body x)) ->
  Emits P (n * List.length l) (for_each body l).
Proof.
  induction l as [|x l IH]; intros Hbody; simpl.
  - rewrite Nat.mul_0_r. apply emits_ret.
  - replace (n * S (List.length l))%nat with (n + n * List.length l)%nat by lia.
    apply emits_seq.
    + apply Hbody. left. reflexivity.
    + apply IH. intros y Hy. apply Hbody. right. exact Hy.
Qed.

(** A step that throws before it reaches [xml] emits nothing. *)
Lemma emits_lift {A} (P : string -> Prop) (n : nat) (o : Outcome A)
    (k : A -> M unit) :
  (forall a, o = Returned a -> Emits P n (k a)) ->
  Emits P n (a <~ lift o ;; k a).
Proof.
  intros Hk w r w' Hrun. unfold and_then, lift in Hrun.
  destruct o as [a | e].
  - exact (Hk a eq_refl _ _ _ Hrun).
  - inversion Hrun; subst.
    exists []. simpl. rewrite append_nil_r.
    repeat split; auto; [lia | discriminate].
Qed.

Lemma emits_append (P : string -> Prop) (s : string) :
  P s -> Emits P 1 (append_xml s).
Proof.
  intros Hs w r w' Hrun. inversion Hrun; subst. simpl.
  exists [s]. simpl. rewrite append_nil_r. repeat split; auto.
Qed.

(** A document: the opening, what a body in a [try] appends when it
    returns, and the closing tag, when the [catch] throws again. *)
Lemma document_emitted (R : list string -> Prop) (opening : string)
    (body : M unit) (handler : Exn -> M unit)
    (w : World) (doc : string) (w' : World) :
  (forall w1 w2, body w1 = (Returned tt, w2) ->
     exists urls, R urls /\ xml w2 = xml w1 ++ joined urls) ->
  (forall e w1, exists e' w2, handler e w1 = (Thrown e', w2)) ->
  (set_xml opening ;;; try_catch body handler ;;;
   append_xml "</urlset>" ;;; get_xml) w = (Returned doc, w') ->
  exists urls, R urls /\ doc = opening ++ joined urls ++ "</urlset>".
Proof.
  intros Hbody Hhandler Hrun.
  unfold and_then, set_xml, try_catch in Hrun.
  match type of Hrun with context [body ?w0] =>
    destruct (body w0) as [[[] | e] w1] eqn:E1 end.
  - destruct (Hbody _ _ E1) as (urls & HR & Hx). simpl in Hx.
    unfold append_xml, get_xml in Hrun. simpl in Hrun.
    apply (f_equal fst) in Hrun. simpl in Hrun. apply Returned_eq in Hrun.
    exists urls. split; [exact HR|].
    rewrite <- Hrun, Hx, append_assoc. reflexivity.
  - destruct (Hhandler e w1) as (e' & w2 & Eh). rewrite Eh in Hrun.
    discriminate Hrun.
Qed.

Lemma and_then_returned {A B} (m : M A) (k : A -> M B) (w1 w2 : World) (b : B) :
  and_then m k w1 = (Returned b, w2) ->
  exists a w3, m w1 = (Returned a, w3) /\ k a w3 = (Returned b, w2).
Proof.
  unfold and_then. destruct (m w1) as [[a | e] w3]; [|discriminate].
  intros Hk. exists a, w3. split; [reflexivity | exact Hk].
Qed.

Lemma emits_returned (P : string -> Prop) (n : nat) (m : M unit)
    (w1 w2 : World) :
  Emits P n m -> m w1 = (Returned tt, w2) ->
  exists urls, (Forall P urls /\ List.length urls = n)
               /\ xml w2 = xml w1 ++ joined urls.
Proof.
  intros Hm Hrun. destruct (Hm _ _ _ Hrun) as (urls & HP & Hx & _ & Hn).
  exists urls. repeat split; auto.
Qed.

End EmitFacts.



Section QuietFacts.
Local Open Scope string_scope.

Lemma quiet_pure {A} (m : M A) :
  (forall w, fetched (snd (m w)) = fetched w) -> Quiet m.
Proof. intros Hm w r w' Hrun. rewrite <- (Hm w), Hrun. reflexivity. Qed.

Lemma quiet_and_then {A B} (m : M A) (k : A -> M B) :
  Quiet m -> (forall a, Quiet (k a)) -> Quiet (and_then m k).
Proof.
  intros Hm Hk w r w' Hrun. unfold and_then in Hrun.
  destruct (m w) as [[a | e] w1] eqn:E.
  - rewrite (Hk a _ _ _ Hrun). exact (Hm _ _ _ E).
  - inversion Hrun; subst. exact (Hm _ _ _ E).
Qed.

Lemma quiet_try_catch {A} (m : M A) (h : Exn -> M A) :
  Quiet m -> (forall e, Quiet (h e)) -> Quiet (try_catch m h).
Proof.
  intros Hm Hh w r w' Hrun. unfold try_catch in Hrun.
  destruct (m w) as [[a | e] w1] eqn:E.
  - inversion Hrun; subst. exact (Hm _ _ _ E).
  - rewrite (Hh e _ _ _ Hrun). exact (Hm _ _ _ E).
Qed.

Lemma quiet_for_each {A} (body : A -> M unit) (l : list A) :
  (forall x, Quiet (body x)) -> Quiet (for_each body l).
Proof.
  intros Hb. induction l as [|x l IH]; simpl.
  - apply quiet_pure. reflexivity.
  - apply quiet_and_then; [apply Hb | intros _; exact IH].
Qed.

Lemma fetches_then_quiet {A B} (Q : list string -> Prop) (m : M A) (k : A -> M B) :
  Fetches Q m -> (forall a, Quiet (k a)) -> Fetches Q (and_then m k).
Proof.
  intros Hm Hk w r w' Hrun. unfold and_then in Hrun.
  destruct (m w) as [[a | e] w1] eqn:E.
  - rewrite (Hk a _ _ _ Hrun). exact (Hm _ _ _ E).
  - inversion Hrun; subst. exact (Hm _ _ _ E).
Qed.

Lemma fetches_after_quiet {A B} (Q : list string -> Prop) (m : M A) (k : A -> M B) :
  Quiet m -> (forall a, Fetches Q (k a)) ->
  (forall w, exists a w1, m w = (Returned a, w1)) ->
  Fetches Q (and_then m k).
Proof.
  intros Hm Hk Hret w r w' Hrun. unfold and_then in Hrun.
  destruct (Hret w) as (a & w1 & E). rewrite E in Hrun.
  rewrite <- (Hm _ _ _ E). exact (Hk a _ _ _ Hrun).
Qed.

Lemma fetches_try_catch {A} (Q : list string -> Prop) (m : M A) (h : Exn -> M A) :
  Fetches Q m -> (forall e, Quiet (h e)) -> Fetches Q (try_catch m h).
Proof.
  intros Hm Hh w r w' Hrun. unfold try_catch in Hrun.
  destruct (m w) as [[a | e] w1] eqn:E.
  - inversion Hrun; subst. exact (Hm _ _ _ E).
  - rewrite (Hh e _ _ _ Hrun). exact (Hm _ _ _ E).
Qed.

End QuietFacts.

Ltac quiet :=
  repeat first
    [ apply quiet_and_then; [|intros ?]
    | apply quiet_try_catch; [|intros ?]
    | apply quiet_for_each; intros ?
    | apply quiet_pure; intros ?; reflexivity ].
(* ================================================================== *)
(** * The ranker and the classifier: the specification's claims *)
(* ================================================================== *)

Section RankingClaims.
Local Open Scope float_scope.

(** When the specification counts a record's date as within the last [k]
    months: the record has a date, it reads as a time value, and that
    time value is strictly after the one of [now] set back [k] months. *)
Lemma within_last_months_iff `{Host} (now k : Z) (item : Item) :
  Spec.within_last_months now k item = true <->
  ToBoolean (Spec.primary_date item) = true /\
  exists t t0, Date_new (Spec.primary_date item) = Some t /\
               months_ago now k = Some t0 /\ (t0 < t)%Z.
Proof.
  unfold Spec.within_last_months, Spec.missing, date_gt.
  destruct (ToBoolean (Spec.primary_date item)); cbn [negb].
  - destruct (Date_new (Spec.primary_date item)) as [t|];
      destruct (months_ago now k) as [t0|]; split.
    + intros Hlt. split; [reflexivity|]. exists t, t0.
      repeat split. apply Z.ltb_lt. exact Hlt.
    + intros [_ (t' & t0' & Ht & Ht0 & Hlt)].
      inversion Ht; inversion Ht0; subst. apply Z.ltb_lt. exact Hlt.
    + discriminate.
    + intros [_ (t' & t0' & _ & Ht0 & _)]. discriminate Ht0.
    + discriminate.
    + intros [_ (t' & t0' & Ht & _)]. discriminate Ht.
    + discriminate.
    + intros [_ (t' & t0' & Ht & _)]. discriminate Ht.
  - split; [discriminate|]. intros [Hf _]. discriminate Hf.
Qed.

(** C2.  For every record, whatever its popularity, rating and date, the
    priority of both implementations lies in [0.5, 1.0]; and with rating
    and date held fixed, the priorities at the popularities 150, 60, 25,
    15 and 5 do not increase. *)
Theorem priority_in_range_and_stepwise_monotone :
  forall `{Host} (now : Z) (item : Item),
  (PrimFloat.leb 0.5 (Server.calculatePriority now item) = true /\
   PrimFloat.leb (Server.calculatePriority now item) 1.0 = true) /\
  (PrimFloat.leb 0.5 (Browser.calculatePriority now item) = true /\
   PrimFloat.leb (Browser.calculatePriority now item) 1.0 = true) /\
  (let R p := Server.calculatePriority now (with_popularity (VNumber p) item) in
   PrimFloat.leb (R 60) (R 150) = true /\
   PrimFloat.leb (R 25) (R 60) = true /\
   PrimFloat.leb (R 15) (R 25) = true /\
   PrimFloat.leb (R 5) (R 15) = true) /\
  (let R p := Browser.calculatePriority now (with_popularity (VNumber p) item) in
   PrimFloat.leb (R 60) (R 150) = true /\
   PrimFloat.leb (R 25) (R 60) = true /\
   PrimFloat.leb (R 15) (R 25) = true /\
   PrimFloat.leb (R 5) (R 15) = true).
Proof.
  intros H now item. cbv zeta.
  rewrite !server_ranker_refines, !browser_ranker_refines.
  pose proof (spec_ranker_range now item) as Hr.
  pose proof (spec_ranker_steps now item) as Hs. cbv zeta in Hs.
  repeat split; tauto.
Qed.

(** C3.  Both implementations compute the specification's ranker: the
    base priority from the popularity steps, plus 0.05 for a rating of at
    least 8.0, plus 0.05 for a date strictly after now minus six months,
    clamped to [0.5, 1.0]; a missing popularity or rating counts as 0
    and a missing date earns no bonus.  The date earns the bonus exactly
    when it reads as a time value strictly greater than the one of now
    set back six months.  At noon of 3 November 2026 a film of
    popularity 150 and rating 8.5 released on 3 October 2026 has
    priority exactly 1.0.  At that noon, now minus six months is noon of
    3 May 2026: a film of rating 7 dated 4 May has the bonus, and one
    dated 3 May, 3 April, on that very instant, with no date or with a
    text that is no date has none; at the midnight before, a film dated
    3 May, the very instant of now minus six months, has none.  At noon
    of 31 August 2026, now minus six months is noon of 3 March 2026, the
    31st of February counted on into March: a film dated 4 March has
    the bonus and one dated 3 March or 1 March has none. *)
Theorem priority_is_the_specified_ranker :
  (forall `{Host} (now : Z) (item : Item),
     Server.calculatePriority now item = Spec.Ranker now item /\
     Browser.calculatePriority now item = Spec.Ranker now item) /\
  (forall `{Host} (now : Z) (item : Item),
     Server.calculatePriority now (with_popularity VNull item)
     = Server.calculatePriority now (with_popularity (VNumber 0) item) /\
     Server.calculatePriority now (with_popularity VUndefined item)
     = Server.calculatePriority now (with_popularity (VNumber 0) item)) /\
  (let item := Examples.movie 150 8.5 (VString "2026-10-03") in
   Spec.within_last_months (H := utc_host) Examples.noon_2026_11_03 6 item = true /\
   Server.calculatePriority (H := utc_host) Examples.noon_2026_11_03 item = 1.0 /\
   Browser.calculatePriority (H := utc_host) Examples.noon_2026_11_03 item = 1.0 /\
   (0.9 + 0.05 + 0.05 = 1.0)) /\
  (forall `{Host} (now : Z) (item : Item),
     Spec.within_last_months now 6 item = true <->
     ToBoolean (Spec.primary_date item) = true /\
     exists t t0, Date_new (Spec.primary_date item) = Some t /\
                  months_ago now 6 = Some t0 /\ (t0 < t)%Z) /\
  (let noon := Examples.noon_2026_11_03 in
   let priority now date :=
     Server.calculatePriority (H := utc_host) now (Examples.movie 150 7 date) in
   months_ago (H := utc_host) noon 6 = Some 1777809600000%Z /\
   toISOString (Some 1777809600000%Z) = Returned "2026-05-03T12:00:00.000Z"%string /\
   priority noon (VString "2026-05-04") = 0.9 + 0.05 /\
   priority noon (VString "2026-05-03") = 0.9 /\
   priority noon (VString "2026-04-03") = 0.9 /\
   priority noon (VNumber 1777809600001) = 0.9 + 0.05 /\
   priority noon (VNumber 1777809600000) = 0.9 /\
   priority noon VNull = 0.9 /\
   priority noon (VString "not a date") = 0.9 /\
   Date_new (H := utc_host) (VString "2026-05-03")
   = months_ago (H := utc_host) (noon - 43200000)%Z 6 /\
   priority (noon - 43200000)%Z (VString "2026-05-03") = 0.9 /\
   priority (noon - 43200000)%Z (VString "2026-05-04") = 0.9 + 0.05) /\
  (let noon_of_31_august := 1788177600000%Z in
   let priority date :=
     Server.calculatePriority (H := utc_host) noon_of_31_august
       (Examples.movie 150 7 date) in
   toISOString (Some noon_of_31_august) = Returned "2026-08-31T12:00:00.000Z"%string /\
   (t <- Returned (months_ago (H := utc_host) noon_of_31_august 6) ;; toISOString t)
   = Returned "2026-03-03T12:00:00.000Z"%string /\
   priority (VString "2026-03-04") = 0.9 + 0.05 /\
   priority (VString "2026-03-03") = 0.9 /\
   priority (VString "2026-03-01") = 0.9).
Proof.
  split; [|split; [|split; [|split; [|split]]]].
  - intros H now item. split.
    + apply server_ranker_refines.
    + apply browser_ranker_refines.
  - intros H now item. rewrite !server_ranker_refines.
    destruct item; split; reflexivity.
  - cbv zeta. repeat split; vm_compute; reflexivity.
  - intros H now item. apply within_last_months_iff.
  - cbv zeta. repeat split; vm_compute; reflexivity.
  - cbv zeta. repeat split; vm_compute; reflexivity.
Qed.

(** C4.  Both implementations classify as the specification does: a record
    whose in-production flag is set changes weekly whatever its date;
    any other record changes weekly exactly when its date is strictly
    after now minus three months, and monthly otherwise, in particular
    when it has no date.  A show in production first aired on
    3 November 2021 is weekly on 3 November 2026. *)
Theorem changefreq_is_the_specified_classifier :
  (forall `{Host} (now : Z) (item : Item),
     let weekly_or_monthly :=
       if Spec.in_production_flag item then weekly
       else if Spec.within_last_months now 3 item then weekly
       else monthly in
     Server.calculateChangefreq now item = weekly_or_monthly /\
     Browser.calculateChangefreq now item = weekly_or_monthly) /\
  (forall `{Host} (now : Z) (item : Item),
     Spec.within_last_months now 3 item = true <->
     ToBoolean (Spec.primary_date item) = true /\
     exists t t0, Date_new (Spec.primary_date item) = Some t /\
                  months_ago now 3 = Some t0 /\ (t0 < t)%Z) /\
  (let now := Examples.noon_2026_11_03 in
   Server.calculateChangefreq (H := utc_host) now
     (Examples.tv_show true (VString "2021-11-03")) = weekly /\
   Server.calculateChangefreq (H := utc_host) now
     (Examples.tv_show false (VString "2021-11-03")) = monthly /\
   Server.calculateChangefreq (H := utc_host) now
     (Examples.tv_show false VNull) = monthly /\
   Server.calculateChangefreq (H := utc_host) now
     (Examples.movie 30 7 (VString "2026-07-03")) = monthly /\
   Server.calculateChangefreq (H := utc_host) now
     (Examples.movie 30 7 (VString "2026-10-03")) = weekly).
Proof.
  split; [|split].
  - intros H now item. cbv zeta.
    rewrite server_classifier_refines, browser_classifier_refines.
    split; reflexivity.
  - intros H now item. apply within_last_months_iff.
  - cbv zeta. repeat split; vm_compute; reflexivity.
Qed.

(** C9.  On every record the browser-side ranker and classifier give what
    their counterparts of the edge function give. *)
Theorem browser_and_server_rank_alike :
  forall `{Host} (now : Z) (item : Item),
  Browser.calculatePriority now item = Server.calculatePriority now item /\
  Browser.calculateChangefreq now item = Server.calculateChangefreq now item.
Proof.
  intros H now item. split.
  - rewrite browser_ranker_refines, server_ranker_refines. reflexivity.
  - rewrite browser_classifier_refines, server_classifier_refines.
    reflexivity.
Qed.

End RankingClaims.

(* ================================================================== *)
(** * Alternates, escaping and serialization: the specification's claims *)
(* ================================================================== *)

Section SerializerClaims.
Local Open Scope string_scope.

(** A list of one item per language and a last one. *)
Lemma map_then_last {A B} (f : A -> B) (l : list A) (d : B) :
  List.length (map f l ++ [d]) = (List.length l + 1)%nat /\
  (forall i x, nth_error l i = Some x ->
               nth_error (map f l ++ [d]) i = Some (f x)) /\
  nth_error (map f l ++ [d]) (List.length l) = Some d.
Proof.
  split; [|split].
  - rewrite length_app, length_map. reflexivity.
  - intros i x Hi. rewrite nth_error_app1.
    + rewrite nth_error_map, Hi. reflexivity.
    + rewrite length_map. apply nth_error_Some. rewrite Hi. discriminate.
  - rewrite nth_error_app2; rewrite length_map; [|lia].
    rewrite Nat.sub_diag. reflexivity.
Qed.

Lemma escaped_text (v : Value) :
  is_text v = true -> exists s, Spec.escaped v = Returned s.
Proof.
  unfold Spec.escaped, Spec.missing.
  destruct v as [ | | b | x | s]; simpl; try discriminate; intros _.
  - exists "". reflexivity.
  - exists "". reflexivity.
  - destruct (negb (negb (s =? ""))); eexists; reflexivity.
Qed.

Lemma escaped_missing (v : Value) :
  ToBoolean v = false -> Spec.escaped v = Returned "".
Proof. unfold Spec.escaped, Spec.missing. intros ->. reflexivity. Qed.

Lemma all_returns {A} (f : A -> Outcome string) (l : list A) :
  (forall x, In x l -> exists s, f x = Returned s) ->
  exists s, Spec.all f l = Returned s.
Proof.
  induction l as [|x l IH]; intros Hf; simpl.
  - exists "". reflexivity.
  - destruct (Hf x (or_introl eq_refl)) as [s ->].
    destruct (IH (fun y Hy => Hf y (or_intror Hy))) as [rest ->].
    simpl. eexists. reflexivity.
Qed.

Lemma optional_text_returns (name : string) (v : Value) :
  is_text v = true -> exists s, Spec.optional_text name v = Returned s.
Proof.
  intros Hv. unfold Spec.optional_text.
  destruct (Spec.missing v); [eexists; reflexivity|].
  destruct (escaped_text v Hv) as [s ->]. simpl. eexists. reflexivity.
Qed.

Lemma url_element_returns (url : SitemapUrl.t) :
  text_fields url = true ->
  exists loc links images,
    Spec.escaped (SitemapUrl.loc url) = Returned loc /\
    Spec.url_element url
    = Returned ("  <url>" ++ nl
                ++ Spec.element "    " "loc" loc
                ++ Spec.lastmod_element (SitemapUrl.lastmod url)
                ++ Spec.changefreq_element (SitemapUrl.changefreq url)
                ++ Spec.priority_element (SitemapUrl.priority url)
                ++ links ++ images
                ++ "  </url>" ++ nl).
Proof.
  unfold text_fields. intros Ht.
  apply andb_prop in Ht. destruct Ht as [Ht Himg].
  apply andb_prop in Ht. destruct Ht as [Hloc Halt].
  destruct (escaped_text _ Hloc) as [loc Eloc].
  assert (Hl : exists links,
    Spec.all Spec.link (Spec.some_or_none (SitemapUrl.alternates url))
    = Returned links).
  { apply all_returns. intros a Ha.
    destruct (SitemapUrl.alternates url) as [l|]; [|destruct Ha].
    simpl in Ha. rewrite forallb_forall in Halt.
    unfold Spec.link. destruct (escaped_text _ (Halt a Ha)) as [h ->].
    simpl. eexists. reflexivity. }
  assert (Hi : exists images,
    Spec.all Spec.image_block (Spec.some_or_none (SitemapUrl.images url))
    = Returned images).
  { apply all_returns. intros i Hin.
    destruct (SitemapUrl.images url) as [l|]; [|destruct Hin].
    simpl in Hin. rewrite forallb_forall in Himg.
    specialize (Himg i Hin).
    apply andb_prop in Himg. destruct Himg as [Himg Hc].
    apply andb_prop in Himg. destruct Himg as [Hl' Ht'].
    unfold Spec.image_block.
    destruct (escaped_text _ Hl') as [x ->].
    destruct (optional_text_returns "image:title" _ Ht') as [y ->].
    destruct (optional_text_returns "image:caption" _ Hc) as [z ->].
    simpl. eexists. reflexivity. }
  destruct Hl as [links El]. destruct Hi as [images Ei].
  exists loc, links, images. split; [exact Eloc|].
  unfold Spec.url_element. rewrite Eloc, El, Ei. reflexivity.
Qed.


(** C5.  For every path and every list of [L] supported languages the
    alternates are [L + 1] entries: one per language, in the order of the
    list, at [baseUrl/language/path], then one tagged [x-default] at the
    English address [baseUrl/en/path]; the address of each ends with the
    path.  The edge function builds them from its own eleven languages
    and base address, so it returns twelve. *)
Theorem alternates_one_per_language_then_default :
  forall (langs : list string) (baseUrl path : string),
    let alternates := Browser.generateAlternates langs baseUrl path in
    let entry (tag url : string) :=
      {| Alternate.hreflang := VString tag; Alternate.href := VString url |} in
    List.length alternates = (List.length langs + 1)%nat /\
    (forall i lang, nth_error langs i = Some lang ->
       nth_error alternates i
       = Some (entry lang (baseUrl ++ "/" ++ lang ++ path))) /\
    nth_error alternates (List.length langs)
    = Some (entry "x-default" (baseUrl ++ "/en" ++ path)) /\
    (forall a, In a alternates ->
       exists front, Alternate.href a = VString (front ++ path)) /\
    Server.generateAlternates path
    = Browser.generateAlternates Server.SUPPORTED_LANGUAGES Server.BASE_URL path /\
    List.length (Server.generateAlternates path) = 12%nat.
Proof.
  intros langs baseUrl path. cbv zeta. unfold Browser.generateAlternates.
  pose proof (map_then_last
    (fun lang => {| Alternate.hreflang := VString lang;
                    Alternate.href := VString (baseUrl ++ "/" ++ lang ++ path) |})
    langs
    {| Alternate.hreflang := VString "x-default";
       Alternate.href := VString (baseUrl ++ "/en" ++ path) |})
    as (Hlen & Hnth & Hlast).
  repeat split.
  - exact Hlen.
  - exact Hnth.
  - exact Hlast.
  - intros a Ha. apply in_app_or in Ha. destruct Ha as [Ha | [<- | []]].
    + apply in_map_iff in Ha. destruct Ha as (lang & <- & _).
      exists (baseUrl ++ "/" ++ lang). simpl.
      rewrite !append_assoc. reflexivity.
    + exists (baseUrl ++ "/en"). simpl. rewrite !append_assoc. reflexivity.
Qed.

(** C7.  For every string the escape helper returns the string with each
    of the five characters replaced by its entity; in the result no
    less-than, greater-than, double quote or apostrophe is left, and every
    ampersand is followed by the name of one of the five entities.  The
    serializer writes the location, the address of each alternate and the
    location, title and caption of each image through this helper, as the
    specification's [<url>] element has them. *)
Theorem escaping_of_the_five_characters :
  forall s : string,
    Server.escapeXml (VString s) = Returned (Spec.escape s) /\
    (Spec.entity "&" = "&amp;" /\ Spec.entity "<" = "&lt;" /\
     Spec.entity ">" = "&gt;" /\ Spec.entity quote = "&quot;" /\
     Spec.entity "'" = "&apos;") /\
    (forall (front rest : string) (c : ascii),
       Spec.escape s = front ++ String c rest ->
       c <> "<"%char /\ c <> ">"%char /\ c <> quote /\ c <> "'"%char /\
       (c = "&"%char ->
        exists name rest', In name ["amp;"; "lt;"; "gt;"; "quot;"; "apos;"]
                           /\ rest = name ++ rest')) /\
    (forall url : SitemapUrl.t,
       Server.generateXmlUrl url = Spec.url_element url).
Proof.
  intros s. split; [|split; [|split]].
  - rewrite server_escapeXml_escaped. unfold Spec.escaped, Spec.missing.
    destruct s as [|x s]; reflexivity.
  - repeat split; reflexivity.
  - intros front rest c Heq.
    destruct (Escaped_at _ (escape_Escaped s) front rest c Heq)
      as [Hplain | (-> & name & rest' & Hin & ->)].
    + unfold Spec.plain in Hplain. apply negb_true_iff in Hplain.
      repeat (apply orb_false_elim in Hplain;
              let H := fresh "H" in destruct Hplain as [Hplain H]).
      repeat split; try (intros ->; discriminate).
    + repeat split; try discriminate.
      intros _. exists name, rest'. split; [exact Hin | reflexivity].
  - exact server_serializer_refines.
Qed.

(** C10.  The serializer of the edge function returns for every entry
    whose text fields hold strings or nothing: its escape helper gives
    the empty string for every value that counts as false, so that an
    entry without a location has the empty element [<loc></loc>]. *)
Theorem server_serializer_is_total :
  forall url : SitemapUrl.t,
    text_fields url = true ->
    (exists xml, Server.generateXmlUrl url = Returned xml) /\
    (forall v, ToBoolean v = false -> Server.escapeXml v = Returned "") /\
    (ToBoolean (SitemapUrl.loc url) = false ->
     exists rest,
       Server.generateXmlUrl url
       = Returned ("  <url>" ++ nl ++ "    <loc></loc>" ++ nl ++ rest)).
Proof.
  intros url Ht.
  destruct (url_element_returns url Ht) as (loc & links & images & Eloc & E).
  rewrite server_serializer_refines, E. split; [|split].
  - eexists. reflexivity.
  - intros v Hv. rewrite server_escapeXml_escaped. apply escaped_missing, Hv.
  - intros Hloc. rewrite (escaped_missing _ Hloc) in Eloc.
    inversion Eloc; subst. eexists. reflexivity.
Qed.

(** An entry with neither location nor image texts. *)
Lemma server_serializer_is_total_witness :
  text_fields Examples.bare_url = true /\
  ((exists xml, Server.generateXmlUrl Examples.bare_url = Returned xml) /\
   (forall v, ToBoolean v = false -> Server.escapeXml v = Returned "") /\
   (ToBoolean (SitemapUrl.loc Examples.bare_url) = false ->
    exists rest,
      Server.generateXmlUrl Examples.bare_url
      = Returned ("  <url>" ++ nl ++ "    <loc></loc>" ++ nl ++ rest))).
Proof.
  split; [reflexivity|].
  apply (server_serializer_is_total Examples.bare_url). reflexivity.
Defined.

Example server_serializer_on_bare_entry :
  Server.generateXmlUrl Examples.bare_url
  = Returned ("  <url>" ++ nl ++ "    <loc></loc>" ++ nl
              ++ "    <priority>0.5</priority>" ++ nl
              ++ "    <image:image>" ++ nl
              ++ "      <image:loc></image:loc>" ++ nl
              ++ "    </image:image>" ++ nl ++ "  </url>" ++ nl).
Proof. vm_compute. reflexivity. Qed.

End SerializerClaims.

(* ================================================================== *)
(** * The priority element *)
(* ================================================================== *)

Section PriorityClaims.
Local Open Scope string_scope.

(** C6.  With a priority of 1.0 or of 0.85 the serializer of the edge
    function writes the priority in fixed-point notation with one digit
    after the point, and the browser-side serializer writes the number's
    default string, [1] and [0.85], which is no decimal with one digit
    after the point; without a priority neither writes the element. *)
Theorem browser_priority_is_not_formatted :
  let server p :=
    Server.generateXmlUrl
      {| SitemapUrl.loc := VString "https://www.tvshowup.com/en/";
         SitemapUrl.lastmod := VUndefined; SitemapUrl.changefreq := None;
         SitemapUrl.priority := p; SitemapUrl.alternates := None;
         SitemapUrl.images := None |} in
  let browser p :=
    Browser.generateXmlUrl
      {| Browser.SitemapUrl.loc := VString "https://www.tvshowup.com/en/";
         Browser.SitemapUrl.lastmod := VUndefined;
         Browser.SitemapUrl.changefreq := None;
         Browser.SitemapUrl.priority := p;
         Browser.SitemapUrl.alternates := None |} in
  let entry priority :=
    Returned ("  <url>" ++ nl
              ++ "    <loc>https://www.tvshowup.com/en/</loc>" ++ nl
              ++ priority ++ "  </url>" ++ nl) in
  server (Some 1.0%float) = entry ("    <priority>1.0</priority>" ++ nl) /\
  browser (Some 1.0%float) = entry ("    <priority>1</priority>" ++ nl) /\
  server (Some 0.85%float) = entry ("    <priority>0.8</priority>" ++ nl) /\
  browser (Some 0.85%float) = entry ("    <priority>0.85</priority>" ++ nl) /\
  server None = entry "" /\
  browser None = entry "" /\
  one_decimal "1.0" = true /\ one_decimal "0.8" = true /\
  one_decimal "1" = false /\ one_decimal "0.85" = false.
Proof. cbv zeta. repeat split; vm_compute; reflexivity. Qed.

(** The priorities the ranker gives are in the range where [toFixed]
    writes fixed-point notation. *)
Lemma ranker_in_fixed_range `{Host} (now : Z) (item : Item) :
  in_fixed_range (Spec.Ranker now item) = true.
Proof.
  unfold Spec.Ranker. cbv zeta.
  generalize (base_priority_values (Spec.or_zero (get item popularity))).
  generalize (Spec.base_priority (Spec.or_zero (get item popularity))).
  intros b Hb.
  destruct (PrimFloat.leb 8.0 (Spec.or_zero (get item vote_average)));
    destruct (Spec.within_last_months now 6 item);
    simpl in Hb;
    destruct Hb as [<- | [<- | [<- | [<- | [<- | []]]]]];
    vm_compute; reflexivity.
Qed.

(** X1.  The serializer of the edge function writes a priority, when
    there is one, as [toFixed(1)] has it, which in fixed-point range is a decimal
    with one digit after the point; and writes no element when there is
    none.  The priorities of the ranker are in that range. *)
Theorem server_priority_has_one_decimal :
  forall (url : SitemapUrl.t) (xml : string),
    Server.generateXmlUrl url = Returned xml ->
    exists front rest,
      xml = front ++ Spec.priority_element (SitemapUrl.priority url) ++ rest /\
      Server.generateXmlUrl
        {| SitemapUrl.loc := SitemapUrl.loc url;
           SitemapUrl.lastmod := SitemapUrl.lastmod url;
           SitemapUrl.changefreq := SitemapUrl.changefreq url;
           SitemapUrl.priority := None;
           SitemapUrl.alternates := SitemapUrl.alternates url;
           SitemapUrl.images := SitemapUrl.images url |}
      = Returned (front ++ rest) /\
      Spec.priority_element None = "" /\
      (forall p, SitemapUrl.priority url = Some p ->
         Spec.priority_element (SitemapUrl.priority url)
         = "    <priority>" ++ toFixed p 1 ++ "</priority>" ++ nl /\
         (in_fixed_range p = true -> one_decimal (toFixed p 1) = true)) /\
      (forall (H : Host) (now : Z) (item : Item),
         one_decimal (toFixed (Server.calculatePriority now item) 1) = true).
Proof.
  intros url xml. rewrite !server_serializer_refines.
  unfold Spec.url_element. cbn [SitemapUrl.loc SitemapUrl.lastmod
    SitemapUrl.changefreq SitemapUrl.priority SitemapUrl.alternates
    SitemapUrl.images].
  destruct (Spec.escaped (SitemapUrl.loc url)) as [loc|e]; [|discriminate].
  destruct (Spec.all Spec.link _) as [links|e]; [|discriminate].
  destruct (Spec.all Spec.image_block _) as [images|e]; [|discriminate].
  cbn [bind]. intros Hxml. apply Returned_eq in Hxml. subst xml.
  unfold Spec.element.
  exists ("  <url>" ++ nl ++ ("    " ++ "<" ++ "loc" ++ ">" ++ loc ++ "</" ++ "loc" ++ ">" ++ nl)
          ++ Spec.lastmod_element (SitemapUrl.lastmod url)
          ++ Spec.changefreq_element (SitemapUrl.changefreq url)),
         (links ++ images ++ "  </url>" ++ nl).
  split; [|split; [|split; [|split]]].
  - rewrite !append_assoc. reflexivity.
  - rewrite !append_assoc. reflexivity.
  - reflexivity.
  - intros p ->. split; [reflexivity|]. apply toFixed_one_decimal.
  - intros H now item. apply toFixed_one_decimal.
    rewrite server_ranker_refines. apply ranker_in_fixed_range.
Qed.

Lemma server_priority_has_one_decimal_witness :
  exists xml,
    Server.generateXmlUrl Examples.bare_url = Returned xml /\
    exists front rest,
      xml = front ++ "    <priority>0.5</priority>" ++ nl ++ rest.
Proof.
  eexists. split; [vm_compute; reflexivity|].
  destruct (server_priority_has_one_decimal Examples.bare_url _
              server_serializer_on_bare_entry)
    as (front & rest & Hxml & _).
  exists front, rest. exact Hxml.
Defined.

End PriorityClaims.

(* ================================================================== *)
(** * Facts about returning, the browser-side serializer and the index *)
(* ================================================================== *)

Section ReturnFacts.
Local Open Scope string_scope.

Lemma returns_and_then {A B} (m : M A) (k : A -> M B) :
  Returns m -> (forall a, Returns (k a)) -> Returns (and_then m k).
Proof.
  intros Hm Hk w. destruct (Hm w) as (a & w1 & E).
  destruct (Hk a w1) as (b & w2 & E2).
  exists b, w2. unfold and_then. rewrite E. exact E2.
Qed.

Lemma returns_for_each {A} (body : A -> M unit) (l : list A) :
  (forall x, In x l -> Returns (body x)) -> Returns (for_each body l).
Proof.
  induction l as [|x l IH]; intros Hb; simpl.
  - intros w. exists tt, w. reflexivity.
  - apply returns_and_then; [apply Hb; left; reflexivity|].
    intros _. apply IH. intros y Hy. apply Hb. right. exact Hy.
Qed.

Lemma returns_lift {A} (a : A) : Returns (lift (Returned a)).
Proof. intros w. exists a, w. reflexivity. Qed.

Lemma returns_append (s : string) : Returns (append_xml s).
Proof. intros w. eexists. eexists. reflexivity. Qed.

Lemma returns_try_catch {A} (body : M A) (handler : Exn -> M A) :
  (forall e, Returns (handler e)) -> Returns (try_catch body handler).
Proof.
  intros Hh w. unfold try_catch.
  destruct (body w) as [[a | e] w1].
  - exists a, w1. reflexivity.
  - apply Hh.
Qed.

(** What [try { body } catch { handler }] returns, the body or the
    handler returned. *)
Lemma try_catch_returned {A} (body : M A) (handler : Exn -> M A)
    (w : World) (a : A) (w' : World) :
  try_catch body handler w = (Returned a, w') ->
  body w = (Returned a, w') \/
  exists e w1, body w = (Thrown e, w1) /\ handler e w1 = (Returned a, w').
Proof.
  unfold try_catch. destruct (body w) as [[b | e] w1]; intros Hrun.
  - left. exact Hrun.
  - right. exists e, w1. split; [reflexivity | exact Hrun].
Qed.

(** A document without a [try]: the opening, what the body emits, the
    closing tag. *)
Lemma plain_document (P : string -> Prop) (n : nat) (opening closing : string)
    (body : M unit) (w : World) :
  Emits P n body -> Returns body ->
  exists urls w',
    (set_xml opening ;;; body ;;; append_xml closing ;;; get_xml) w
    = (Returned (opening ++ joined urls ++ closing), w') /\
    Forall P urls /\ List.length urls = n.
Proof.
  intros Hem Hret.
  destruct (Hret (snd (set_xml opening w))) as ([] & w1 & E).
  destruct (Hem _ _ _ E) as (urls & HP & Hx & _ & Hn).
  cbn [set_xml snd xml] in E, Hx.
  exists urls,
    {| console := console w1; fetched := fetched w1;
       xml := opening ++ joined urls ++ closing |}.
  split; [|split; [exact HP | exact (Hn eq_refl)]].
  unfold and_then at 1. cbn [set_xml]. unfold and_then at 1. rewrite E.
  unfold and_then, append_xml, get_xml. cbn [xml console fetched].
  rewrite Hx, append_assoc. reflexivity.
Qed.

End ReturnFacts.

Section BrowserSerializerFacts.
Local Open Scope string_scope.

Lemma browser_escapeXml_string (s : string) :
  Browser.escapeXml (VString s) = Returned (Spec.escape s).
Proof.
  unfold Browser.escapeXml. cbn [replace bind].
  fold (later (replace_char "&" "&amp;" s)).
  rewrite five_replacements. reflexivity.
Qed.

Lemma escaped_string (s : string) :
  Spec.escaped (VString s) = Returned (Spec.escape s).
Proof. destruct s; reflexivity. Qed.

Lemma for_of_all_in {A} (step : string -> A -> Outcome string)
    (f : A -> Outcome string) (l : list A) :
  (forall xml x, In x l -> step xml x = (s <- f x ;; Returned (xml ++ s))) ->
  forall xml,
    for_of step l xml = (s <- Spec.all f l ;; Returned (xml ++ s)).
Proof.
  induction l as [|x l IH]; intros Hstep xml; cbn [for_of Spec.all bind].
  - rewrite append_nil_r. reflexivity.
  - rewrite (Hstep xml x (or_introl eq_refl)).
    destruct (f x) as [s | e]; cbn [bind]; [|reflexivity].
    rewrite (IH (fun xml y Hy => Hstep xml y (or_intror Hy))).
    destruct (Spec.all f l) as [rest | e]; cbn [bind]; [|reflexivity].
    rewrite append_assoc. reflexivity.
Qed.

Lemma browser_add_alternate (xml : string) (alt : Alternate.t) :
  is_string (Alternate.href alt) = true ->
  Browser.add_alternate xml alt
  = (l <- Spec.link alt ;; Returned (xml ++ l)).
Proof.
  intros Hs. unfold Browser.add_alternate, Spec.link.
  destruct (Alternate.href alt) as [ | | b | x | s]; try discriminate Hs.
  rewrite browser_escapeXml_string, escaped_string. reflexivity.
Qed.

Lemma links_return (l : list Alternate.t) :
  forallb (fun a => is_string (Alternate.href a)) l = true ->
  exists links, Spec.all Spec.link l = Returned links.
Proof.
  intros Hl. apply all_returns. intros a Ha.
  rewrite forallb_forall in Hl. specialize (Hl a Ha).
  unfold Spec.link.
  destruct (Alternate.href a) as [ | | b | x | s]; try discriminate Hl.
  rewrite escaped_string. eexists. reflexivity.
Qed.

(** The two serializers write the same element but for the text of the
    priority. *)
Lemma serializers_agree (loc : string) (lastmod : Value)
    (changefreq : option Changefreq) (alternates : option (list Alternate.t)) :
  match alternates with
  | Some l => forallb (fun a => is_string (Alternate.href a)) l
  | None => true
  end = true ->
  exists front rest,
    forall priority : option float,
      Browser.generateXmlUrl
        {| Browser.SitemapUrl.loc := VString loc;
           Browser.SitemapUrl.lastmod := lastmod;
           Browser.SitemapUrl.changefreq := changefreq;
           Browser.SitemapUrl.priority := priority;
           Browser.SitemapUrl.alternates := alternates |}
      = Returned (front ++ browser_priority_element priority ++ rest) /\
      Server.generateXmlUrl
        {| SitemapUrl.loc := VString loc;
           SitemapUrl.lastmod := lastmod;
           SitemapUrl.changefreq := changefreq;
           SitemapUrl.priority := priority;
           SitemapUrl.alternates := alternates;
           SitemapUrl.images := None |}
      = Returned (front ++ Spec.priority_element priority ++ rest).
Proof.
  intros Halt.
  assert (Hl : exists links,
    Spec.all Spec.link (Spec.some_or_none alternates) = Returned links).
  { destruct alternates as [l|]; [apply links_return, Halt|].
    exists "". reflexivity. }
  destruct Hl as [links El].
  exists ("  <url>" ++ nl
          ++ ("    " ++ "<" ++ "loc" ++ ">" ++ Spec.escape loc ++ "</" ++ "loc" ++ ">" ++ nl)
          ++ Spec.lastmod_element lastmod
          ++ Spec.changefreq_element changefreq),
         (links ++ "  </url>" ++ nl).
  intros priority. split.
  - unfold Browser.generateXmlUrl.
    cbn [Browser.SitemapUrl.loc Browser.SitemapUrl.lastmod
         Browser.SitemapUrl.changefreq Browser.SitemapUrl.priority
         Browser.SitemapUrl.alternates].
    rewrite browser_escapeXml_string. cbn [bind].
    assert (Hfor : forall xml,
      match alternates with
      | Some l => for_of Browser.add_alternate l xml
      | None => Returned xml
      end = Returned (xml ++ links)).
    { intros xml. destruct alternates as [l|]; cbn [Spec.some_or_none] in El.
      - rewrite (for_of_all_in Browser.add_alternate Spec.link l).
        + rewrite El. reflexivity.
        + intros x a Ha. apply browser_add_alternate.
          rewrite forallb_forall in Halt. exact (Halt a Ha).
      - cbn [Spec.all] in El. apply Returned_eq in El. subst links.
        rewrite append_nil_r. reflexivity. }
    rewrite Hfor. cbn [bind].
    unfold Spec.lastmod_element, Spec.changefreq_element,
      browser_priority_element, Spec.element, Spec.missing.
    destruct (ToBoolean lastmod); destruct changefreq; destruct priority;
      cbn [negb]; rewrite ?append_assoc; reflexivity.
  - rewrite server_serializer_refines. unfold Spec.url_element.
    cbn [SitemapUrl.loc SitemapUrl.lastmod SitemapUrl.changefreq
         SitemapUrl.priority SitemapUrl.alternates SitemapUrl.images].
    rewrite escaped_string, El. cbn [bind Spec.some_or_none Spec.all].
    unfold Spec.element. rewrite ?append_assoc. reflexivity.
Qed.

End BrowserSerializerFacts.

Section IndexFacts.
Local Open Scope string_scope.
Context `{Host}.
Variable env : Env.

Lemma today_returns : exists day, Server.today env = Returned day.
Proof.
  unfold Server.today, iso_day, toISOString.
  destruct (civil_from_days (Day (now env))) as [[y m] d].
  eexists. reflexivity.
Qed.

Lemma browser_today : Browser.today env = Server.today env.
Proof. reflexivity. Qed.

Lemma server_index (day : string) (w : World) :
  Server.today env = Returned day ->
  Server.generateSitemapIndex env w
  = (Returned (index_document day),
     {| console := console w; fetched := fetched w; xml := index_document day |}).
Proof.
  intros Hday. unfold Server.generateSitemapIndex.
  unfold and_then at 1 2. cbn [set_xml]. unfold lift. rewrite Hday.
  vm_compute. repeat (rewrite !append_assoc; vm_compute). reflexivity.
Qed.

End IndexFacts.

(* ================================================================== *)
(** * Counting the [<url>] elements of a document *)
(* ================================================================== *)

Section CountingFacts.
Local Open Scope string_scope.

Lemma starts_with_url_app (a b : string) :
  ends_clear a = true \/ starts_clear b = true ->
  nonempty a = true ->
  starts_with "<url>" (a ++ b) = starts_with "<url>" a.
Proof.
  intros Hc Ha.
  destruct a as [|c1 [|c2 [|c3 [|c4 [|c5 a]]]]]; try discriminate Ha;
    cbn [append starts_with]; try reflexivity;
    destruct Hc as [Hc | Hc];
    try (destruct b as [|d b]; cbn [starts_with starts_clear] in *);
    cbn [ends_clear] in *;
    repeat match goal with
           | |- context [Ascii.eqb ?x ?y] =>
               destruct (Ascii.eqb_spec x y); subst; cbn [andb]
           end;
    try reflexivity; try discriminate Hc.
Qed.

Lemma occurrences_app (a b : string) :
  ends_clear a = true \/ starts_clear b = true ->
  url_elements (a ++ b) = (url_elements a + url_elements b)%nat.
Proof.
  unfold url_elements. intros Hc.
  induction a as [|c a IH]; [reflexivity|].
  change (occurrences "<url>" (String c a ++ b))
    with ((if starts_with "<url>" (String c a ++ b) then 1 else 0)
          + occurrences "<url>" (a ++ b))%nat.
  change (occurrences "<url>" (String c a))
    with ((if starts_with "<url>" (String c a) then 1 else 0)
          + occurrences "<url>" a)%nat.
  rewrite (starts_with_url_app (String c a) b Hc eq_refl).
  rewrite IH; [lia|].
  destruct Hc as [Hc | Hc]; [left | right; exact Hc].
  destruct a; [reflexivity | exact Hc].
Qed.

Lemma angle_free_no_tag (s : string) :
  angle_free s = true -> url_elements s = 0%nat.
Proof.
  unfold angle_free, url_elements.
  induction s as [|a s IH]; [reflexivity|].
  cbn [every]. intros Hs. apply andb_true_iff in Hs. destruct Hs as [Ha Hs].
  change (occurrences "<url>" (String a s))
    with ((if starts_with "<url>" (String a s) then 1 else 0)
          + occurrences "<url>" s)%nat.
  rewrite (IH Hs). cbn [starts_with].
  rewrite Ascii.eqb_sym. apply negb_true_iff in Ha. rewrite Ha. reflexivity.
Qed.

Lemma ends_clear_app (a b : string) :
  nonempty b = true -> ends_clear (a ++ b) = ends_clear b.
Proof.
  intros Hb. induction a as [|c a IH]; [reflexivity|].
  cbn [append ends_clear]. rewrite IH.
  destruct (a ++ b) eqn:E; [|reflexivity].
  destruct a; cbn [append] in E; [subst b; discriminate Hb | discriminate E].
Qed.

Lemma ends_clear_both (a b : string) :
  ends_clear a = true -> ends_clear b = true -> ends_clear (a ++ b) = true.
Proof.
  intros Ha Hb. destruct b as [|c b].
  - rewrite append_nil_r. exact Ha.
  - rewrite ends_clear_app by reflexivity. exact Hb.
Qed.

Lemma no_url_nil : no_url "".
Proof. split; reflexivity. Qed.

Lemma no_url_app (a b : string) : no_url a -> no_url b -> no_url (a ++ b).
Proof.
  intros [Ha Hae] [Hb Hbe]. split.
  - rewrite occurrences_app by (left; exact Hae). lia.
  - apply ends_clear_both; assumption.
Qed.

Lemma no_url_wrapped (a t b : string) :
  no_url a -> angle_free t = true ->
  starts_clear b = true -> nonempty b = true -> no_url b ->
  no_url (a ++ t ++ b).
Proof.
  intros [Ha Hae] Ht Hbs Hbn [Hb Hbe]. split.
  - rewrite occurrences_app by (left; exact Hae).
    rewrite occurrences_app by (right; exact Hbs).
    rewrite (angle_free_no_tag t Ht). lia.
  - rewrite ends_clear_app.
    + rewrite ends_clear_app; assumption.
    + destruct t; [exact Hbn | reflexivity].
Qed.

Lemma one_url_joined (urls : list string) :
  Forall one_url urls ->
  url_elements (joined urls) = List.length urls /\
  ends_clear (joined urls) = true.
Proof.
  induction 1 as [|u urls [Hu Hue] _ [IHn IHe]]; [split; reflexivity|].
  cbn [joined fold_right List.length]. fold (joined urls). split.
  - rewrite occurrences_app by (left; exact Hue). lia.
  - apply ends_clear_both; assumption.
Qed.

(** The [<url>] tags of a document are those of its elements. *)
Lemma document_count (opening : string) (urls : list string) :
  no_url opening -> Forall one_url urls ->
  url_elements (opening ++ joined urls ++ "</urlset>") = List.length urls.
Proof.
  intros [Ho Hoe] Hurls. destruct (one_url_joined urls Hurls) as [Hn He].
  rewrite occurrences_app by (left; exact Hoe).
  rewrite occurrences_app by (left; exact He).
  rewrite Ho, Hn. change (url_elements "</urlset>") with 0%nat. lia.
Qed.

Lemma angle_free_append (a b : string) :
  angle_free (a ++ b) = angle_free a && angle_free b.
Proof.
  unfold angle_free. induction a as [|c a IH]; [reflexivity|].
  cbn [append every]. rewrite IH, andb_assoc. reflexivity.
Qed.

Lemma escape_angle_free (s : string) : angle_free (Spec.escape s) = true.
Proof.
  induction s as [|a s IH]; [reflexivity|].
  cbn [Spec.escape]. rewrite angle_free_append, IH, andb_true_r.
  unfold Spec.entity.
  repeat match goal with
         | |- context [Ascii.eqb ?x ?y] =>
             destruct (Ascii.eqb_spec x y); [reflexivity|]
         end.
  unfold angle_free. cbn [every]. rewrite andb_true_r.
  apply negb_true_iff. apply Ascii.eqb_neq. assumption.
Qed.

Lemma escaped_angle_free (v : Value) (t : string) :
  Spec.escaped v = Returned t -> angle_free t = true.
Proof.
  unfold Spec.escaped. destruct (Spec.missing v).
  - intros E. apply Returned_eq in E. subst t. reflexivity.
  - destruct v; try discriminate. intros E. apply Returned_eq in E. subst t.
    apply escape_angle_free.
Qed.

Lemma no_url_element_loc (t : string) :
  angle_free t = true -> no_url (Spec.element "    " "loc" t).
Proof.
  intros Ht.
  apply (no_url_wrapped "    <loc>" t ("</loc>" ++ nl)); trivial;
    split; reflexivity.
Qed.

Lemma no_url_lastmod (v : Value) :
  angle_free (ToString v) = true -> no_url (Spec.lastmod_element v).
Proof.
  intros Ht. unfold Spec.lastmod_element.
  destruct (Spec.missing v); [apply no_url_nil|].
  apply (no_url_wrapped "    <lastmod>" (ToString v) ("</lastmod>" ++ nl)); trivial;
    split; reflexivity.
Qed.

Lemma no_url_changefreq (c : option Changefreq) :
  no_url (Spec.changefreq_element c).
Proof. destruct c as [[]|]; split; reflexivity. Qed.

Lemma no_url_priority_text (t : string) :
  angle_free t = true -> no_url (Spec.element "    " "priority" t).
Proof.
  intros Ht.
  apply (no_url_wrapped "    <priority>" t ("</priority>" ++ nl)); trivial;
    split; reflexivity.
Qed.

Lemma no_url_all {A} (f : A -> Outcome string) (l : list A) :
  (forall x s, In x l -> f x = Returned s -> no_url s) ->
  forall s, Spec.all f l = Returned s -> no_url s.
Proof.
  induction l as [|x l IH]; intros Hf s; cbn [Spec.all].
  - intros E. apply Returned_eq in E. subst s. apply no_url_nil.
  - destruct (f x) as [a|e] eqn:Ea; [|discriminate]. cbn [bind].
    destruct (Spec.all f l) as [rest|e] eqn:Er; [|discriminate]. cbn [bind].
    intros E. apply Returned_eq in E. subst s. apply no_url_app.
    + apply (Hf x a); [left; reflexivity | exact Ea].
    + apply IH; [|reflexivity]. intros y t Hy. apply Hf. right. exact Hy.
Qed.

Lemma no_url_link (alt : Alternate.t) (s : string) :
  angle_free (ToString (Alternate.hreflang alt)) = true ->
  Spec.link alt = Returned s -> no_url s.
Proof.
  intros Hl. unfold Spec.link.
  destruct (Spec.escaped (Alternate.href alt)) as [href|e] eqn:Eh; [|discriminate].
  cbn [bind]. intros E. apply Returned_eq in E. subst s.
  apply (no_url_wrapped ("    <xhtml:link rel=" ++ q ++ "alternate" ++ q
                         ++ " hreflang=" ++ q)
           (ToString (Alternate.hreflang alt))
           (q ++ " href=" ++ q ++ href ++ q ++ " />" ++ nl)); trivial;
    try (split; reflexivity).
  apply (no_url_wrapped (q ++ " href=" ++ q) href (q ++ " />" ++ nl)); trivial;
    try (split; reflexivity).
  exact (escaped_angle_free _ _ Eh).
Qed.

Lemma no_url_optional_text (name : string) (v : Value) (s : string) :
  name = "image:title" \/ name = "image:caption" ->
  Spec.optional_text name v = Returned s -> no_url s.
Proof.
  intros Hname. unfold Spec.optional_text. destruct (Spec.missing v).
  - intros E. apply Returned_eq in E. subst s. apply no_url_nil.
  - destruct (Spec.escaped v) as [t|e] eqn:Et; [|discriminate]. cbn [bind].
    intros E. apply Returned_eq in E. subst s.
    pose proof (escaped_angle_free _ _ Et) as Hf.
    destruct Hname as [-> | ->].
    + apply (no_url_wrapped "      <image:title>" t ("</image:title>" ++ nl));
        trivial; split; reflexivity.
    + apply (no_url_wrapped "      <image:caption>" t ("</image:caption>" ++ nl));
        trivial; split; reflexivity.
Qed.

Lemma no_url_image (img : Image.t) (s : string) :
  Spec.image_block img = Returned s -> no_url s.
Proof.
  unfold Spec.image_block.
  destruct (Spec.escaped (Image.loc img)) as [loc|e] eqn:El; [|discriminate].
  cbn [bind].
  destruct (Spec.optional_text "image:title" (Image.title img))
    as [title|e] eqn:Et; [|discriminate]. cbn [bind].
  destruct (Spec.optional_text "image:caption" (Image.caption img))
    as [caption|e] eqn:Ec; [|discriminate]. cbn [bind].
  intros E. apply Returned_eq in E. subst s.
  apply (no_url_app ("    <image:image>" ++ nl)); [split; reflexivity|].
  apply no_url_app.
  { apply (no_url_wrapped "      <image:loc>" loc ("</image:loc>" ++ nl)); trivial;
      try (split; reflexivity).
    exact (escaped_angle_free _ _ El). }
  apply no_url_app; [exact (no_url_optional_text _ _ _ (or_introl eq_refl) Et)|].
  apply no_url_app; [exact (no_url_optional_text _ _ _ (or_intror eq_refl) Ec)|].
  split; reflexivity.
Qed.

Lemma no_url_links (alternates : option (list Alternate.t)) (s : string) :
  tidy_links alternates = true ->
  Spec.all Spec.link (Spec.some_or_none alternates) = Returned s -> no_url s.
Proof.
  intros Ht. apply no_url_all. intros alt t Hin.
  destruct alternates as [l|]; [|destruct Hin].
  cbn [tidy_links Spec.some_or_none] in Ht, Hin.
  rewrite forallb_forall in Ht. apply no_url_link. exact (Ht alt Hin).
Qed.

(** What the serializer of the edge function returns for a tidy entry
    is a single [<url>] element. *)
Lemma server_one_url (url : SitemapUrl.t) (u : string) :
  server_tidy url = true ->
  Server.generateXmlUrl url = Returned u -> one_url u.
Proof.
  unfold server_tidy. intros Ht.
  apply andb_true_iff in Ht. destruct Ht as [Ht Hlinks].
  apply andb_true_iff in Ht. destruct Ht as [Hlastmod Hpriority].
  rewrite server_serializer_refines. unfold Spec.url_element.
  destruct (Spec.escaped (SitemapUrl.loc url)) as [loc|e] eqn:El; [|discriminate].
  cbn [bind].
  destruct (Spec.all Spec.link _) as [links|e] eqn:Ea; [|discriminate]. cbn [bind].
  destruct (Spec.all Spec.image_block _) as [images|e] eqn:Ei; [|discriminate].
  cbn [bind]. intros E. apply Returned_eq in E. subst u.
  assert (Hrest : no_url (Spec.element "    " "loc" loc
                          ++ Spec.lastmod_element (SitemapUrl.lastmod url)
                          ++ Spec.changefreq_element (SitemapUrl.changefreq url)
                          ++ Spec.priority_element (SitemapUrl.priority url)
                          ++ links ++ images ++ "  </url>" ++ nl)).
  { apply no_url_app; [apply no_url_element_loc; exact (escaped_angle_free _ _ El)|].
    apply no_url_app; [apply no_url_lastmod; exact Hlastmod|].
    apply no_url_app; [apply no_url_changefreq|].
    apply no_url_app.
    { unfold Spec.priority_element.
      destruct (SitemapUrl.priority url); [|apply no_url_nil].
      apply no_url_priority_text. exact Hpriority. }
    apply no_url_app; [exact (no_url_links _ _ Hlinks Ea)|].
    apply no_url_app.
    { revert Ei. apply no_url_all. intros img t _. apply no_url_image. }
    split; reflexivity. }
  destruct Hrest as [Hn He]. split.
  - change ("  <url>" ++ nl ++ ?r) with (("  <url>" ++ nl) ++ r).
    rewrite (occurrences_app ("  <url>" ++ nl)) by (left; reflexivity).
    rewrite Hn. reflexivity.
  - change ("  <url>" ++ nl ++ ?r) with (("  <url>" ++ nl) ++ r).
    apply ends_clear_both; [reflexivity | exact He].
Qed.

Lemma one_url_app (a b : string) : one_url a -> no_url b -> one_url (a ++ b).
Proof.
  intros [Ha Hae] [Hb Hbe]. split.
  - rewrite occurrences_app by (left; exact Hae). lia.
  - apply ends_clear_both; assumption.
Qed.

Lemma browser_escapeXml_angle_free (v : Value) (t : string) :
  Browser.escapeXml v = Returned t -> angle_free t = true.
Proof.
  destruct v as [ | | b | x | s]; try discriminate.
  rewrite browser_escapeXml_string. intros E. apply Returned_eq in E. subst t.
  apply escape_angle_free.
Qed.

Lemma browser_links_one_url (l : list Alternate.t) :
  forallb (fun a => angle_free (ToString (Alternate.hreflang a))) l = true ->
  forall xml u, one_url xml ->
    for_of Browser.add_alternate l xml = Returned u -> one_url u.
Proof.
  induction l as [|alt l IH]; intros Ht xml u Hxml; cbn [for_of].
  - intros E. apply Returned_eq in E. subst u. exact Hxml.
  - cbn [forallb] in Ht. apply andb_true_iff in Ht. destruct Ht as [Ha Hl].
    unfold Browser.add_alternate at 1.
    destruct (Browser.escapeXml (Alternate.href alt)) as [href|e] eqn:Eh;
      [|discriminate].
    cbn [bind]. apply (IH Hl). apply one_url_app; [exact Hxml|].
    apply (no_url_wrapped ("    <xhtml:link rel=" ++ q ++ "alternate" ++ q
                           ++ " hreflang=" ++ q)
             (ToString (Alternate.hreflang alt))
             (q ++ " href=" ++ q ++ href ++ q ++ " />" ++ nl)); trivial;
      try (split; reflexivity).
    apply (no_url_wrapped (q ++ " href=" ++ q) href (q ++ " />" ++ nl)); trivial;
      try (split; reflexivity).
    exact (browser_escapeXml_angle_free _ _ Eh).
Qed.

(** What the browser-side serializer returns for a tidy entry is a
    single [<url>] element. *)
Lemma browser_one_url (url : Browser.SitemapUrl.t) (u : string) :
  browser_tidy url = true ->
  Browser.generateXmlUrl url = Returned u -> one_url u.
Proof.
  unfold browser_tidy. intros Ht.
  apply andb_true_iff in Ht. destruct Ht as [Ht Hlinks].
  apply andb_true_iff in Ht. destruct Ht as [Hlastmod Hpriority].
  unfold Browser.generateXmlUrl.
  destruct (Browser.escapeXml (Browser.SitemapUrl.loc url)) as [loc|e] eqn:El;
    [|discriminate].
  cbn [bind].
  match goal with
  | |- (xml <- match _ with Some a => for_of _ a ?x | None => _ end ;; _) = _ -> _ =>
      assert (Hx : one_url x)
  end.
  { destruct (Browser.SitemapUrl.priority url) as [p|].
    - apply one_url_app; [|exact (no_url_priority_text _ Hpriority)].
      destruct (Browser.SitemapUrl.changefreq url) as [c|].
      + apply one_url_app; [|exact (no_url_changefreq (Some c))].
        destruct (ToBoolean (Browser.SitemapUrl.lastmod url)).
        * apply one_url_app.
          -- apply (one_url_app ("  <url>" ++ nl)); [split; reflexivity|].
             apply no_url_element_loc. exact (browser_escapeXml_angle_free _ _ El).
          -- apply (no_url_wrapped "    <lastmod>" _ ("</lastmod>" ++ nl)); trivial;
               split; reflexivity.
        * apply (one_url_app ("  <url>" ++ nl)); [split; reflexivity|].
          apply no_url_element_loc. exact (browser_escapeXml_angle_free _ _ El).
      + destruct (ToBoolean (Browser.SitemapUrl.lastmod url)).
        * apply one_url_app.
          -- apply (one_url_app ("  <url>" ++ nl)); [split; reflexivity|].
             apply no_url_element_loc. exact (browser_escapeXml_angle_free _ _ El).
          -- apply (no_url_wrapped "    <lastmod>" _ ("</lastmod>" ++ nl)); trivial;
               split; reflexivity.
        * apply (one_url_app ("  <url>" ++ nl)); [split; reflexivity|].
          apply no_url_element_loc. exact (browser_escapeXml_angle_free _ _ El).
    - destruct (Browser.SitemapUrl.changefreq url) as [c|].
      + apply one_url_app; [|exact (no_url_changefreq (Some c))].
        destruct (ToBoolean (Browser.SitemapUrl.lastmod url)).
        * apply one_url_app.
          -- apply (one_url_app ("  <url>" ++ nl)); [split; reflexivity|].
             apply no_url_element_loc. exact (browser_escapeXml_angle_free _ _ El).
          -- apply (no_url_wrapped "    <lastmod>" _ ("</lastmod>" ++ nl)); trivial;
               split; reflexivity.
        * apply (one_url_app ("  <url>" ++ nl)); [split; reflexivity|].
          apply no_url_element_loc. exact (browser_escapeXml_angle_free _ _ El).
      + destruct (ToBoolean (Browser.SitemapUrl.lastmod url)).
        * apply one_url_app.
          -- apply (one_url_app ("  <url>" ++ nl)); [split; reflexivity|].
             apply no_url_element_loc. exact (browser_escapeXml_angle_free _ _ El).
          -- apply (no_url_wrapped "    <lastmod>" _ ("</lastmod>" ++ nl)); trivial;
               split; reflexivity.
        * apply (one_url_app ("  <url>" ++ nl)); [split; reflexivity|].
          apply no_url_element_loc. exact (browser_escapeXml_angle_free _ _ El). }
  destruct (Browser.SitemapUrl.alternates url) as [l|]; cbn [tidy_links] in Hlinks.
  - match goal with |- context [for_of Browser.add_alternate l ?x] =>
      destruct (for_of Browser.add_alternate l x) as [xml|e] eqn:Ef end;
      [|discriminate].
    cbn [bind]. intros E. apply Returned_eq in E. subst u.
    apply one_url_app; [|split; reflexivity].
    exact (browser_links_one_url l Hlinks _ _ Hx Ef).
  - cbn [bind]. intros E. apply Returned_eq in E. subst u.
    apply one_url_app; [exact Hx | split; reflexivity].
Qed.

End CountingFacts.

Section TidyFacts.
Local Open Scope string_scope.

Lemma digit_no_angle (a : ascii) :
  is_digit a = true -> negb (Ascii.eqb a "<") = true.
Proof.
  destruct a as [[] [] [] [] [] [] [] []]; vm_compute; intros E;
    first [reflexivity | discriminate E].
Qed.

Lemma all_digits_angle_free (s : string) :
  all_digits s = true -> angle_free s = true.
Proof.
  unfold angle_free. induction s as [|a s IH]; [reflexivity|].
  cbn [all_digits every]. intros Hs. apply andb_true_iff in Hs.
  destruct Hs as [Ha Hs]. rewrite (digit_no_angle a Ha), (IH Hs). reflexivity.
Qed.

Lemma pad_angle_free (width : nat) (n : Z) : angle_free (pad width n) = true.
Proof.
  apply all_digits_angle_free. unfold pad.
  rewrite all_digits_append, all_digits_zeros, digits_all_digits. reflexivity.
Qed.

Lemma before_first_angle_free (c : ascii) (s : string) :
  angle_free s = true -> angle_free (before_first c s) = true.
Proof.
  unfold angle_free. induction s as [|a s IH]; [reflexivity|].
  cbn [every before_first]. intros Hs. apply andb_true_iff in Hs.
  destruct Hs as [Ha Hs]. destruct (Ascii.eqb a c); [reflexivity|].
  cbn [every]. rewrite Ha, (IH Hs). reflexivity.
Qed.

Lemma iso_day_angle_free `{Host} (t : option Z) (day : string) :
  iso_day t = Returned day -> angle_free day = true.
Proof.
  unfold iso_day, toISOString. destruct t as [t|]; [|discriminate].
  destruct (civil_from_days (Day t)) as [[y m] d]. cbn [bind].
  intros E. apply Returned_eq in E. subst day.
  apply before_first_angle_free.
  rewrite !angle_free_append, !pad_angle_free.
  destruct ((0 <=? y)%Z && (y <=? 9999)%Z).
  - rewrite pad_angle_free. reflexivity.
  - rewrite angle_free_append, pad_angle_free.
    destruct (y <? 0)%Z; reflexivity.
Qed.

Lemma digits_point_digit_angle_free (s : string) :
  digits_point_digit s = true -> angle_free s = true.
Proof.
  unfold angle_free. induction s as [|a s IH]; [discriminate|].
  cbn [digits_point_digit every]. intros Hs. apply andb_true_iff in Hs.
  destruct Hs as [Ha Hs]. rewrite (digit_no_angle a Ha). cbn [andb].
  apply orb_true_iff in Hs. destruct Hs as [Hs | Hs]; [|exact (IH Hs)].
  destruct s as [|p [|d [|x s]]]; try discriminate Hs.
  cbn [point_digit] in Hs. apply andb_true_iff in Hs. destruct Hs as [Hp Hd].
  apply Ascii.eqb_eq in Hp. subst p. cbn [every].
  rewrite (digit_no_angle d Hd). reflexivity.
Qed.

Lemma one_decimal_angle_free (s : string) :
  one_decimal s = true -> angle_free s = true.
Proof.
  destruct s as [|a s]; [discriminate|]. cbn [one_decimal].
  destruct (Ascii.eqb_spec a "-").
  - subst a. intros Hs. unfold angle_free. cbn [every].
    exact (digits_point_digit_angle_free s Hs).
  - apply digits_point_digit_angle_free.
Qed.

End TidyFacts.

Section TidyEntries.
Local Open Scope string_scope.
Context `{Host}.
Variable env : Env.

Lemma lastmod_of_angle_free (updated_at : Value) (day : string) :
  Server.lastmod_of env updated_at = Returned day -> angle_free day = true.
Proof.
  unfold Server.lastmod_of, Server.today.
  destruct (ToBoolean updated_at); apply iso_day_angle_free.
Qed.

Lemma today_angle_free (day : string) :
  Server.today env = Returned day -> angle_free day = true.
Proof. unfold Server.today. apply iso_day_angle_free. Qed.

Lemma server_priority_angle_free (now : Z) (item : Item) :
  angle_free (toFixed (Server.calculatePriority now item) 1) = true.
Proof.
  apply one_decimal_angle_free, toFixed_one_decimal.
  rewrite server_ranker_refines. apply ranker_in_fixed_range.
Qed.

Lemma ranker_values (now : Z) (item : Item) :
  In (Spec.Ranker now item)
     [0.6; 0.6 + 0.05; 0.6 + 0.05 + 0.05;
      0.65; 0.65 + 0.05; 0.65 + 0.05 + 0.05;
      0.75; 0.75 + 0.05; 0.75 + 0.05 + 0.05;
      0.85; 0.85 + 0.05; 0.85 + 0.05 + 0.05;
      0.9; 0.9 + 0.05; 1.0]%float.
Proof.
  unfold Spec.Ranker. cbv zeta.
  generalize (base_priority_values (Spec.or_zero (get item popularity))).
  generalize (Spec.base_priority (Spec.or_zero (get item popularity))).
  intros b Hb.
  destruct (PrimFloat.leb 8.0 (Spec.or_zero (get item vote_average)));
    destruct (Spec.within_last_months now 6 item);
    simpl in Hb;
    destruct Hb as [<- | [<- | [<- | [<- | [<- | []]]]]];
    vm_compute; tauto.
Qed.

Lemma browser_priority_angle_free (now : Z) (item : Item) :
  angle_free (Number_toString (Browser.calculatePriority now item)) = true.
Proof.
  rewrite browser_ranker_refines.
  pose proof (ranker_values now item) as Hv. simpl in Hv.
  repeat (destruct Hv as [<- | Hv]; [vm_compute; reflexivity|]). destruct Hv.
Qed.

(** The entries the assemblers of the edge function write are tidy. *)
Lemma server_entry_tidy (loc : Value) (lastmod : string)
    (changefreq : option Changefreq) (priority : float) (path : string)
    (images : option (list Image.t)) :
  angle_free lastmod = true -> angle_free (toFixed priority 1) = true ->
  server_tidy {| SitemapUrl.loc := loc;
                 SitemapUrl.lastmod := VString lastmod;
                 SitemapUrl.changefreq := changefreq;
                 SitemapUrl.priority := Some priority;
                 SitemapUrl.alternates := Some (Server.generateAlternates path);
                 SitemapUrl.images := images |} = true.
Proof.
  intros Hl Hp. unfold server_tidy.
  cbn [SitemapUrl.lastmod SitemapUrl.priority SitemapUrl.alternates ToString].
  rewrite Hl, Hp. reflexivity.
Qed.

End TidyEntries.
(* ================================================================== *)
(** * The documents of the edge function *)
(* ================================================================== *)

Section AddUrlFacts.
Local Open Scope string_scope.

Lemma emits_server_add_url (url : SitemapUrl.t) :
  server_tidy url = true -> Emits one_url 1 (Server.add_url url).
Proof.
  intros Ht. unfold Server.add_url. apply emits_lift. intros u Hu.
  apply emits_append. exact (server_one_url url u Ht Hu).
Qed.

Lemma emits_browser_add_url (url : Browser.SitemapUrl.t) :
  browser_tidy url = true -> Emits one_url 1 (Browser.add_url url).
Proof.
  intros Ht. unfold Browser.add_url. apply emits_lift. intros u Hu.
  apply emits_append. exact (browser_one_url url u Ht Hu).
Qed.

End AddUrlFacts.

Section ServerAssemblerFacts.
Local Open Scope string_scope.
Context `{Host}.
Variable env : Env.

Lemma languages_count : List.length Server.SUPPORTED_LANGUAGES = 11%nat.
Proof. reflexivity. Qed.

Lemma emits_add_movie (movie : Movie.t) :
  Emits one_url 11 (Server.add_movie env movie).
Proof.
  unfold Server.add_movie. cbv zeta.
  change 11%nat with (1 * List.length Server.SUPPORTED_LANGUAGES)%nat.
  apply emits_for_each. intros lang _.
  apply emits_lift. intros lastmod Hday. apply emits_server_add_url.
  apply server_entry_tidy.
  - exact (lastmod_of_angle_free env _ _ Hday).
  - apply server_priority_angle_free.
Qed.

Lemma emits_add_show (show : TVShow.t) :
  Emits one_url 11 (Server.add_show env show).
Proof.
  unfold Server.add_show. cbv zeta.
  change 11%nat with (1 * List.length Server.SUPPORTED_LANGUAGES)%nat.
  apply emits_for_each. intros lang _.
  apply emits_lift. intros lastmod Hday. apply emits_server_add_url.
  apply server_entry_tidy.
  - exact (lastmod_of_angle_free env _ _ Hday).
  - apply server_priority_angle_free.
Qed.

Lemma emits_add_person (person : Person.t) :
  Emits one_url 11 (Server.add_person env person).
Proof.
  unfold Server.add_person.
  apply emits_lift. intros slug _. cbv zeta.
  change 11%nat with (1 * List.length Server.SUPPORTED_LANGUAGES)%nat.
  apply emits_for_each. intros lang _.
  apply emits_lift. intros lastmod Hday. apply emits_server_add_url.
  apply server_entry_tidy.
  - exact (today_angle_free env _ Hday).
  - reflexivity.
Qed.

(** The store's answer holds at most as many rows as the limit. *)
Lemma select_bounded {A} (slug popularity : A -> Value) (limit : Z)
    (table : Store A) (rows : list A) :
  data (select_by_popularity slug popularity limit table) = Some rows ->
  (Z.of_nat (List.length rows) <= Z.max 0 limit)%Z.
Proof.
  destruct table as [m b | all]; simpl; [discriminate|].
  intros Heq. inversion Heq; subst. rewrite length_firstn. lia.
Qed.

Lemma select_answers {A} (slug popularity : A -> Value) (limit : Z)
    (table : Store A) :
  (exists e, error (select_by_popularity slug popularity limit table) = Some e
             /\ data (select_by_popularity slug popularity limit table) = None)
  \/ (exists rows,
        error (select_by_popularity slug popularity limit table) = None
        /\ data (select_by_popularity slug popularity limit table) = Some rows).
Proof.
  destruct table as [m b | all]; simpl.
  - left. eexists. split; reflexivity.
  - right. eexists. split; reflexivity.
Qed.

Lemma handler_throws (message : string) (e : Exn) (w1 : World) :
  exists e' w2,
    (console_error message (caught e) ;;; throw (A := unit) e) w1 = (Thrown e', w2).
Proof. eexists. eexists. reflexivity. Qed.

Lemma emits_rows {A} (message : string) (add : A -> M unit) (rows : list A) :
  (forall x, Emits one_url 11 (add x)) ->
  Emits one_url (11 * List.length rows)
    match rows with
    | _ :: _ => console_log message ;;; for_each add rows
    | [] => ret tt
    end.
Proof.
  intros Hadd. destruct rows as [|x l].
  - apply emits_ret.
  - change (11 * List.length (x :: l))%nat
      with (0 + 11 * List.length (x :: l))%nat.
    apply emits_seq; [apply emits_console_log|].
    apply emits_for_each. intros y _. apply Hadd.
Qed.

Lemma movies_document (w : World) (doc : string) (w' : World) :
  Server.generateMoviesSitemap env w = (Returned doc, w') ->
  exists rows urls,
    data (select_by_popularity Movie.slug Movie.popularity
            Server.MAX_URLS_PER_SITEMAP (movies env)) = Some rows /\
    (Z.of_nat (List.length rows) <= 50000)%Z /\
    Forall one_url urls /\
    List.length urls = (11 * List.length rows)%nat /\
    doc = Server.urlset_open_with_images ++ joined urls ++ "</urlset>".
Proof.
  unfold Server.generateMoviesSitemap. intros Hrun.
  destruct (movies env) as [m b | all] eqn:Et.
  - discriminate Hrun.
  - cbn [select_by_popularity error data] in *.
    set (rows := firstn (Z.to_nat Server.MAX_URLS_PER_SITEMAP)
                   (order_desc Movie.popularity
                      (filter (fun r => negb (is_null (Movie.slug r))) all))) in *.
    eapply (document_emitted
              (fun urls => Forall one_url urls /\
                           List.length urls = (11 * List.length rows)%nat))
      in Hrun.
    + destruct Hrun as (urls & [HP Hlen] & Hdoc).
      exists rows, urls. repeat split; try assumption.
      unfold rows. rewrite length_firstn.
      unfold Server.MAX_URLS_PER_SITEMAP. lia.
    + intros w1 w2. apply emits_returned.
      apply (emits_rows _ _ rows). apply emits_add_movie.
    + intros e w1. apply handler_throws.
Qed.

Lemma tv_shows_document (w : World) (doc : string) (w' : World) :
  Server.generateTVShowsSitemap env w = (Returned doc, w') ->
  exists rows urls,
    data (select_by_popularity TVShow.slug TVShow.popularity
            Server.MAX_URLS_PER_SITEMAP (tv_shows env)) = Some rows /\
    (Z.of_nat (List.length rows) <= 50000)%Z /\
    Forall one_url urls /\
    List.length urls = (11 * List.length rows)%nat /\
    doc = Server.urlset_open_with_images ++ joined urls ++ "</urlset>".
Proof.
  unfold Server.generateTVShowsSitemap. intros Hrun.
  destruct (tv_shows env) as [m b | all] eqn:Et.
  - discriminate Hrun.
  - cbn [select_by_popularity error data] in *.
    set (rows := firstn (Z.to_nat Server.MAX_URLS_PER_SITEMAP)
                   (order_desc TVShow.popularity
                      (filter (fun r => negb (is_null (TVShow.slug r))) all))) in *.
    eapply (document_emitted
              (fun urls => Forall one_url urls /\
                           List.length urls = (11 * List.length rows)%nat))
      in Hrun.
    + destruct Hrun as (urls & [HP Hlen] & Hdoc).
      exists rows, urls. repeat split; try assumption.
      unfold rows. rewrite length_firstn.
      unfold Server.MAX_URLS_PER_SITEMAP. lia.
    + intros w1 w2. apply emits_returned.
      apply (emits_rows _ _ rows). apply emits_add_show.
    + intros e w1. apply handler_throws.
Qed.

(** The loop over the pages: it leaves [xml] alone and fetches the first
    [k] of the pages it was given, and each of them but the last came
    with [ok] and with rows. *)
Lemma fetch_people_trace (key : string) :
  forall (pages : list Z) (people : list Person.t) (w : World)
         (r : Outcome (list Person.t)) (w' : World),
    Server.fetch_people env key pages people w = (r, w') ->
    xml w' = xml w /\
    exists k, (k <= List.length pages)%nat /\
      fetched w'
      = (fetched w ++ map (Server.people_url key) (firstn k pages))%list /\
      (forall i page, (i + 1 < k)%nat -> nth_error pages i = Some page ->
         exists resp rows,
           api env (Server.people_url key page) = Returned resp /\
           Response.ok resp = true /\
           Response.results resp = Returned (Some rows) /\ rows <> []).
Proof.
  induction pages as [|page pages IH]; intros people w r w' Hrun.
  - inversion Hrun; subst. split; [reflexivity|]. exists 0%nat.
    simpl. rewrite app_nil_r. repeat split; [lia|]. intros i p Hi. lia.
  - cbn [Server.fetch_people] in Hrun. unfold and_then, fetch in Hrun.
    assert (Hone : forall w1,
      xml w1 = xml w ->
      fetched w1 = (fetched w ++ [Server.people_url key page])%list ->
      xml w1 = xml w /\
      exists k, (k <= List.length (page :: pages))%nat /\
        fetched w1
        = (fetched w ++ map (Server.people_url key) (firstn k (page :: pages)))%list /\
        (forall i p, (i + 1 < k)%nat -> nth_error (page :: pages) i = Some p ->
           exists resp rows,
             api env (Server.people_url key p) = Returned resp /\
             Response.ok resp = true /\
             Response.results resp = Returned (Some rows) /\ rows <> [])).
    { intros w1 Hx Hf. split; [exact Hx|]. exists 1%nat. simpl.
      repeat split; [lia | exact Hf |]. intros i p Hi. lia. }
    destruct (api env (Server.people_url key page)) as [resp | e] eqn:Eapi.
    + destruct (Response.ok resp) eqn:Eok; cbn [negb] in Hrun.
      * unfold lift in Hrun.
        destruct (Response.results resp) as [[[|x rows] | ] | e] eqn:Eres;
          try (inversion Hrun; subst; apply Hone; reflexivity).
        destruct (2000 <=? Z.of_nat (List.length (people ++ x :: rows)))%Z.
        { inversion Hrun; subst; apply Hone; reflexivity. }
        destruct (IH _ _ _ _ Hrun) as (Hx & k & Hk & Hf & Hgood).
        cbn [xml fetched] in Hx, Hf.
        split; [exact Hx|]. exists (S k). repeat split.
        -- simpl. lia.
        -- rewrite Hf, <- app_assoc. reflexivity.
        -- intros i p Hi Hnth. destruct i as [|i].
           ++ simpl in Hnth. inversion Hnth; subst.
              exists resp, (x :: rows). repeat split; auto. discriminate.
           ++ simpl in Hnth. apply (Hgood i p); [lia | exact Hnth].
      * inversion Hrun; subst. apply Hone; reflexivity.
    + inversion Hrun; subst. apply Hone; reflexivity.
Qed.

End ServerAssemblerFacts.

Section PeopleTrace.
Local Open Scope string_scope.
Context `{Host}.
Variable env : Env.

Lemma quiet_add_person (person : Person.t) : Quiet (Server.add_person env person).
Proof. unfold Server.add_person, Server.add_url. quiet. Qed.

(** The people assembler fetches the first [k] of the ten pages, for a
    [k] up to 10, and every page but the last one fetched came with [ok]
    and with rows. *)
Lemma people_trace (key : string) (w : World) (r : Outcome string) (w' : World) :
  Server.generatePersonSitemap env key w = (r, w') ->
  exists k, (k <= 10)%nat /\
    fetched w'
    = (fetched w ++ map (Server.people_url key) (firstn k Server.ten_pages))%list /\
    (forall i page, (i + 1 < k)%nat -> nth_error Server.ten_pages i = Some page ->
       exists resp rows,
         api env (Server.people_url key page) = Returned resp /\
         Response.ok resp = true /\
         Response.results resp = Returned (Some rows) /\ rows <> []).
Proof.
  intros Hrun.
  assert (Hf : Fetches
    (fun l => exists k, (k <= 10)%nat /\
       l = map (Server.people_url key) (firstn k Server.ten_pages) /\
       (forall i page, (i + 1 < k)%nat -> nth_error Server.ten_pages i = Some page ->
          exists resp rows,
            api env (Server.people_url key page) = Returned resp /\
            Response.ok resp = true /\
            Response.results resp = Returned (Some rows) /\ rows <> []))
    (Server.generatePersonSitemap env key)).
  { unfold Server.generatePersonSitemap.
    apply fetches_after_quiet;
      [quiet | intros _ | intros w0; eexists; eexists; reflexivity].
    apply fetches_then_quiet; [|intros _; quiet].
    apply fetches_try_catch; [|intros e; quiet].
    apply fetches_then_quiet;
      [|intros people; apply quiet_and_then;
        [quiet | intros _; apply quiet_for_each; apply quiet_add_person]].
    intros w0 r0 w1 Ef.
    destruct (fetch_people_trace env key _ _ _ _ _ Ef) as (_ & k & Hk & Hfe & Hgood).
    eexists. split; [exact Hfe|]. exists k. repeat split; assumption. }
  destruct (Hf _ _ _ Hrun) as (l & Hl & k & Hk & -> & Hgood).
  exists k. repeat split; assumption.
Qed.

End PeopleTrace.

Section PeopleCount.
Local Open Scope string_scope.
Context `{Host}.
Variable env : Env.

(** The people the loop returns are those it had and the rows of the
    pages it fetched. *)
Lemma fetch_people_rows (key : string) :
  forall (pages : list Z) (people : list Person.t) (w : World)
         (out : list Person.t) (w' : World),
    Server.fetch_people env key pages people w = (Returned out, w') ->
    exists k, (k <= List.length pages)%nat /\
      fetched w'
      = (fetched w ++ map (Server.people_url key) (firstn k pages))%list /\
      out = (people ++ flat_map (page_rows env key) (firstn k pages))%list /\
      xml w' = xml w.
Proof.
  induction pages as [|page pages IH]; intros people w out w' Hrun.
  - cbn [Server.fetch_people ret] in Hrun. injection Hrun as <- <-.
    exists 0%nat. cbn [firstn map flat_map]. rewrite !app_nil_r.
    repeat split. lia.
  - cbn [Server.fetch_people] in Hrun. unfold and_then at 1 in Hrun.
    cbn [fetch] in Hrun.
    assert (Hone : forall rows,
              page_rows env key page = rows ->
              out = (people ++ rows)%list ->
              w' = {| console := console w';
                      fetched := fetched w ++ [Server.people_url key page];
                      xml := xml w |} ->
              exists k, (k <= List.length (page :: pages))%nat /\
                fetched w'
                = (fetched w ++ map (Server.people_url key)
                                  (firstn k (page :: pages)))%list /\
                out = (people ++ flat_map (page_rows env key)
                                  (firstn k (page :: pages)))%list /\
                xml w' = xml w).
    { intros rows Hrows -> Hw. exists 1%nat.
      cbn [firstn map flat_map List.length]. rewrite Hrows, app_nil_r.
      rewrite Hw. cbn [fetched xml]. repeat split. lia. }
    unfold page_rows in Hone.
    destruct (api env (Server.people_url key page)) as [resp | e0] eqn:Hapi;
      [|discriminate Hrun].
    destruct (Response.ok resp) eqn:Hok; cbn [negb] in Hrun.
    + unfold and_then at 1, lift in Hrun.
      destruct (Response.results resp) as [results | e0] eqn:Hres;
        [|discriminate Hrun].
      destruct results as [[|x rows]|].
      * cbn [ret] in Hrun. injection Hrun as <- <-.
        apply (Hone []); [reflexivity | rewrite app_nil_r; reflexivity | reflexivity].
      * destruct (2000 <=? Z.of_nat (List.length (people ++ x :: rows)))%Z.
        -- cbn [ret] in Hrun. injection Hrun as <- <-.
           apply (Hone (x :: rows)); reflexivity.
        -- destruct (IH _ _ _ _ Hrun) as (k & Hk & Hf & Hout & Hx).
           exists (S k). cbn [firstn map flat_map List.length].
           cbn [fetched xml] in Hf, Hx. rewrite <- app_assoc in Hf.
           unfold page_rows at 1. rewrite Hapi, Hok, Hres.
           rewrite <- app_assoc in Hout.
           repeat split; try assumption. lia.
      * cbn [ret] in Hrun. injection Hrun as <- <-.
        apply (Hone []); [reflexivity | rewrite app_nil_r; reflexivity | reflexivity].
    + unfold and_then, console_error in Hrun. cbn [ret] in Hrun.
      injection Hrun as <- <-.
      apply (Hone []); [reflexivity | rewrite app_nil_r; reflexivity | reflexivity].
Qed.

Lemma quiet_rest (people : list Person.t) :
  Quiet (console_log ("Generating sitemap for " ++ Server.count_string people
                      ++ " people") ;;;
         for_each (Server.add_person env) (firstn 2000 people)).
Proof.
  apply quiet_and_then; [quiet | intros _; apply quiet_for_each; apply quiet_add_person].
Qed.

Lemma no_url_server_opening : no_url Server.urlset_open_with_images.
Proof. split; reflexivity. Qed.

(** A document of people: eleven elements for each of the first 2,000
    of the rows of the pages fetched. *)
Lemma people_count (key : string) (w : World) (doc : string) (w' : World) :
  Server.generatePersonSitemap env key w = (Returned doc, w') ->
  exists k, (k <= 10)%nat /\
    fetched w'
    = (fetched w ++ map (Server.people_url key) (firstn k Server.ten_pages))%list /\
    url_elements doc
    = (11 * Nat.min 2000
              (List.length (flat_map (page_rows env key)
                              (firstn k Server.ten_pages))))%nat.
Proof.
  unfold Server.generatePersonSitemap. intros Hrun.
  unfold and_then at 1 in Hrun. cbn [set_xml] in Hrun.
  unfold and_then at 1 in Hrun. unfold try_catch in Hrun.
  unfold and_then at 1 in Hrun.
  match type of Hrun with context [Server.fetch_people env key ?ps ?pp ?w0] =>
    destruct (Server.fetch_people env key ps pp w0) as [[people | e0] w1] eqn:E end.
  - destruct (fetch_people_rows key _ _ _ _ _ E) as (k & Hk & Hf & Hout & Hx).
    cbn [fetched xml app] in Hf, Hx, Hout.
    match type of Hrun with context [and_then ?m ?c w1] =>
      assert (Hem : Emits one_url
                      (0 + 11 * List.length (firstn 2000 people))
                      (and_then m c));
      [|destruct (and_then m c w1) as [[[] | e1] w2] eqn:E2]
    end.
    + apply emits_seq; [apply emits_console_log|].
      apply emits_for_each. intros p _. apply emits_add_person.
    + destruct (emits_returned _ _ _ _ _ Hem E2) as (urls & [HP Hlen] & Hxml).
      pose proof (quiet_rest people _ _ _ E2) as Hq.
      unfold and_then, append_xml, get_xml in Hrun. cbn [xml] in Hrun.
      injection Hrun as <- <-. cbn [fetched].
      exists k. split; [exact Hk|]. split; [rewrite Hq; exact Hf|].
      rewrite Hxml, Hx, append_assoc.
      rewrite (document_count _ urls no_url_server_opening HP).
      rewrite Hlen, length_firstn, <- Hout. reflexivity.
    + unfold and_then, console_error, throw in Hrun. discriminate Hrun.
  - unfold and_then, console_error, throw in Hrun. discriminate Hrun.
Qed.

End PeopleCount.
(* ================================================================== *)
(** * More facts about the assemblers *)
(* ================================================================== *)

Section MainFacts.
Local Open Scope string_scope.
Context `{Host}.
Variable env : Env.

Lemma returns_server_add_url (url : SitemapUrl.t) :
  text_fields url = true -> Returns (Server.add_url url).
Proof.
  intros Ht. destruct (url_element_returns url Ht) as (loc & links & images & _ & E).
  unfold Server.add_url. rewrite server_serializer_refines, E.
  apply returns_and_then; [apply returns_lift | intros u; apply returns_append].
Qed.

Lemma returns_dated {A} (k : string -> M A) :
  (forall day, Returns (k day)) ->
  Returns (lastmod <~ lift (Server.today env) ;; k lastmod).
Proof.
  intros Hk. destruct (today_returns env) as [day ->].
  apply returns_and_then; [apply returns_lift | exact Hk].
Qed.

Lemma emits_dated (k : string -> M unit) :
  (forall day, angle_free day = true -> Emits one_url 1 (k day)) ->
  Emits one_url 1 (lastmod <~ lift (Server.today env) ;; k lastmod).
Proof.
  intros Hk. apply emits_lift. intros day Hday. apply Hk.
  exact (today_angle_free env day Hday).
Qed.

Lemma server_static_priorities (page : string * float * Changefreq) :
  In page Server.staticPages ->
  angle_free (toFixed (snd (fst page)) 1) = true.
Proof.
  intros Hin. simpl in Hin.
  repeat (destruct Hin as [<- | Hin]; [vm_compute; reflexivity|]). destruct Hin.
Qed.

Lemma browser_static_priorities (page : string * float * Changefreq) :
  In page Browser.staticPages ->
  angle_free (Number_toString (snd (fst page))) = true.
Proof.
  intros Hin. simpl in Hin.
  repeat (destruct Hin as [<- | Hin]; [vm_compute; reflexivity|]). destruct Hin.
Qed.

(** The sitemap of the static pages of the edge function: it always
    returns, with 77 elements. *)
Lemma server_main_document (w : World) :
  exists urls w',
    Server.generateMainSitemap env w
    = (Returned (Server.urlset_open ++ joined urls ++ "</urlset>"), w') /\
    Forall one_url urls /\ List.length urls = 77%nat.
Proof.
  unfold Server.generateMainSitemap.
  apply (plain_document one_url
           (11 * List.length Server.staticPages)).
  - apply emits_for_each. intros [[path priority] changefreq] Hpage.
    change 11%nat with (1 * List.length Server.SUPPORTED_LANGUAGES)%nat.
    apply emits_for_each. intros lang _.
    apply emits_dated. intros day Hday. apply emits_server_add_url.
    apply server_entry_tidy; [exact Hday|].
    exact (server_static_priorities _ Hpage).
  - apply returns_for_each. intros [[path priority] changefreq] _.
    apply returns_for_each. intros lang _.
    apply returns_dated. intros day.
    apply returns_server_add_url. reflexivity.
Qed.


(** ** The browser-side assemblers *)

Variable langs : list string.
Variable baseUrl : string.

Lemma browser_alternates_strings (path : string) :
  forallb (fun a => is_string (Alternate.href a))
          (Browser.generateAlternates langs baseUrl path) = true.
Proof.
  unfold Browser.generateAlternates. rewrite forallb_app. apply andb_true_intro.
  split; [|reflexivity]. rewrite forallb_forall. intros a Ha.
  apply in_map_iff in Ha. destruct Ha as (lang & <- & _). reflexivity.
Qed.

Lemma returns_browser_add_url (loc : string) (lastmod : Value)
    (changefreq : option Changefreq) (priority : option float) (path : string) :
  Returns (Browser.add_url
    {| Browser.SitemapUrl.loc := VString loc;
       Browser.SitemapUrl.lastmod := lastmod;
       Browser.SitemapUrl.changefreq := changefreq;
       Browser.SitemapUrl.priority := priority;
       Browser.SitemapUrl.alternates :=
         Some (Browser.generateAlternates langs baseUrl path) |}).
Proof.
  destruct (serializers_agree loc lastmod changefreq
              (Some (Browser.generateAlternates langs baseUrl path))
              (browser_alternates_strings path)) as (front & rest & Hboth).
  destruct (Hboth priority) as [E _].
  unfold Browser.add_url. rewrite E.
  apply returns_and_then; [apply returns_lift | intros u; apply returns_append].
Qed.

Lemma browser_alternates_tidy (path : string) :
  forallb angle_free langs = true ->
  tidy_links (Some (Browser.generateAlternates langs baseUrl path)) = true.
Proof.
  intros Hlangs. unfold tidy_links, Browser.generateAlternates.
  rewrite forallb_app. apply andb_true_intro. split; [|reflexivity].
  rewrite forallb_forall. intros a Ha.
  apply in_map_iff in Ha. destruct Ha as (lang & <- & Hin).
  rewrite forallb_forall in Hlangs. exact (Hlangs lang Hin).
Qed.

(** The entries the browser-side assemblers write are tidy when the
    languages are. *)
Lemma browser_entry_tidy (loc : Value) (lastmod : string)
    (changefreq : option Changefreq) (priority : float) (path : string) :
  forallb angle_free langs = true ->
  angle_free lastmod = true -> angle_free (Number_toString priority) = true ->
  browser_tidy
    {| Browser.SitemapUrl.loc := loc;
       Browser.SitemapUrl.lastmod := VString lastmod;
       Browser.SitemapUrl.changefreq := changefreq;
       Browser.SitemapUrl.priority := Some priority;
       Browser.SitemapUrl.alternates :=
         Some (Browser.generateAlternates langs baseUrl path) |} = true.
Proof.
  intros Hlangs Hl Hp. unfold browser_tidy.
  cbn [Browser.SitemapUrl.lastmod Browser.SitemapUrl.priority
       Browser.SitemapUrl.alternates ToString].
  rewrite Hl, Hp, (browser_alternates_tidy path Hlangs). reflexivity.
Qed.

Lemma browser_lastmod_of_angle_free (updated_at : Value) (day : string) :
  Browser.lastmod_of env updated_at = Returned day -> angle_free day = true.
Proof.
  unfold Browser.lastmod_of, Browser.today.
  destruct (ToBoolean updated_at); apply iso_day_angle_free.
Qed.

Lemma browser_main_document (w : World) :
  forallb angle_free langs = true ->
  exists urls w',
    Browser.generateMainSitemap langs baseUrl env w
    = (Returned (Browser.urlset_open ++ joined urls ++ "</urlset>"), w') /\
    Forall one_url urls /\
    List.length urls = (7 * List.length langs)%nat.
Proof.
  intros Hlangs. unfold Browser.generateMainSitemap.
  replace (7 * List.length langs)%nat
    with (1 * List.length langs * List.length Browser.staticPages)%nat
    by (simpl; lia).
  apply (plain_document one_url).
  - apply emits_for_each. intros [[path priority] changefreq] Hpage.
    apply emits_for_each. intros lang _.
    apply emits_lift. intros day Hday. apply emits_browser_add_url.
    apply browser_entry_tidy; [exact Hlangs | |].
    + rewrite browser_today in Hday. exact (today_angle_free env day Hday).
    + exact (browser_static_priorities _ Hpage).
  - apply returns_for_each. intros [[path priority] changefreq] _.
    apply returns_for_each. intros lang _.
    rewrite browser_today. destruct (today_returns env) as [day ->].
    apply returns_and_then; [apply returns_lift | intros d].
    apply returns_browser_add_url.
Qed.

Lemma browser_main_returns :
  Returns (Browser.generateMainSitemap langs baseUrl env).
Proof.
  unfold Browser.generateMainSitemap.
  apply returns_and_then; [intros w; eexists; eexists; reflexivity | intros _].
  apply returns_and_then.
  - apply returns_for_each. intros [[path priority] changefreq] _.
    apply returns_for_each. intros lang _.
    rewrite browser_today. destruct (today_returns env) as [day ->].
    apply returns_and_then; [apply returns_lift | intros d].
    apply returns_browser_add_url.
  - intros _. apply returns_and_then; [apply returns_append | intros _].
    intros w. eexists. eexists. reflexivity.
Qed.

(** A document whose [catch] only writes to the console: it is closed
    after what the body emitted before it threw. *)
Lemma swallowing_document (P : string -> Prop) (n : nat) (opening : string)
    (body : M unit) (message : string) (w : World) :
  Emits P n body ->
  exists urls w',
    (set_xml opening ;;;
     try_catch body (fun e => console_error message (caught e)) ;;;
     append_xml "</urlset>" ;;; get_xml) w
    = (Returned (opening ++ joined urls ++ "</urlset>"), w') /\
    Forall P urls /\ (List.length urls <= n)%nat.
Proof.
  intros Hem.
  unfold and_then at 1. cbn [set_xml].
  unfold and_then at 1. unfold try_catch.
  match goal with |- context [body ?w0] =>
    destruct (body w0) as [[[] | e] w1] eqn:E end;
    destruct (Hem _ _ _ E) as (urls & HP & Hx & Hle & _); cbn [xml] in Hx;
    exists urls; eexists; (split; [|split; [exact HP | exact Hle]]).
  - unfold and_then, append_xml, get_xml. cbn [xml].
    rewrite Hx, append_assoc. reflexivity.
  - unfold and_then, console_error, append_xml, get_xml. cbn [xml].
    rewrite Hx, append_assoc. reflexivity.
Qed.

Lemma emits_browser_add_movie (movie : Movie.t) :
  forallb angle_free langs = true ->
  Emits one_url (List.length langs)
    (Browser.add_movie langs baseUrl env movie).
Proof.
  intros Hlangs. unfold Browser.add_movie. cbv zeta.
  replace (List.length langs) with (1 * List.length langs)%nat by lia.
  apply emits_for_each. intros lang _.
  apply emits_lift. intros lastmod Hday. apply emits_browser_add_url.
  apply browser_entry_tidy; [exact Hlangs | |].
  - exact (browser_lastmod_of_angle_free _ _ Hday).
  - apply browser_priority_angle_free.
Qed.

Lemma emits_browser_add_show (show : TVShow.t) :
  forallb angle_free langs = true ->
  Emits one_url (List.length langs)
    (Browser.add_show langs baseUrl env show).
Proof.
  intros Hlangs. unfold Browser.add_show. cbv zeta.
  replace (List.length langs) with (1 * List.length langs)%nat by lia.
  apply emits_for_each. intros lang _.
  apply emits_lift. intros lastmod Hday. apply emits_browser_add_url.
  apply browser_entry_tidy; [exact Hlangs | |].
  - exact (browser_lastmod_of_angle_free _ _ Hday).
  - apply browser_priority_angle_free.
Qed.

(** A document whose [catch] only writes to the console is returned
    whatever its body does. *)
Lemma swallowing_returns (opening : string) (body : M unit) (message : string) :
  Returns (set_xml opening ;;;
           try_catch body (fun e => console_error message (caught e)) ;;;
           append_xml "</urlset>" ;;; get_xml).
Proof.
  intros w. unfold and_then at 1. cbn [set_xml].
  unfold and_then at 1. unfold try_catch.
  match goal with |- context [body ?w0] =>
    destruct (body w0) as [[[] | e] w1] end;
    eexists; eexists; reflexivity.
Qed.

Lemma no_url_browser_opening : no_url Browser.urlset_open.
Proof. split; reflexivity. Qed.

Lemma browser_movies_document (limit : Z) (w : World) :
  exists doc w',
    Browser.generateMoviesSitemap langs baseUrl env limit w = (Returned doc, w') /\
    (forallb angle_free langs = true ->
     (url_elements doc <= List.length langs * Z.to_nat limit)%nat).
Proof.
  destruct (swallowing_returns Browser.urlset_open
              (match data (select_by_popularity Movie.slug Movie.popularity limit
                             (movies env)) with
               | Some rows => for_each (Browser.add_movie langs baseUrl env) rows
               | None => ret tt
               end) "Error generating movies sitemap:" w) as (doc & w' & E).
  exists doc, w'. split; [exact E|]. intros Hlangs.
  assert (Hdoc : exists urls,
            doc = Browser.urlset_open ++ joined urls ++ "</urlset>" /\
            Forall one_url urls /\
            (List.length urls <= List.length langs * Z.to_nat limit)%nat).
  { revert E. destruct (movies env) as [m b | all];
      cbn [select_by_popularity data]; intros E.
    - destruct (swallowing_document one_url 0 Browser.urlset_open
                  (ret tt) "Error generating movies sitemap:" w (emits_ret _))
        as (urls & w1 & E1 & HP & Hle).
      rewrite E in E1. injection E1 as -> _.
      exists urls. repeat split; [exact HP | lia].
    - set (rows := firstn (Z.to_nat limit) _) in *.
      destruct (swallowing_document one_url
                  (List.length langs * List.length rows) Browser.urlset_open
                  (for_each (Browser.add_movie langs baseUrl env) rows)
                  "Error generating movies sitemap:" w)
        as (urls & w1 & E1 & HP & Hle).
      + apply emits_for_each. intros x _. apply emits_browser_add_movie, Hlangs.
      + rewrite E in E1. injection E1 as -> _.
        exists urls. repeat split; [exact HP |].
        assert (List.length rows <= Z.to_nat limit)%nat
          by (unfold rows; rewrite length_firstn; lia).
        nia. }
  destruct Hdoc as (urls & -> & HP & Hle).
  rewrite (document_count _ urls no_url_browser_opening HP). exact Hle.
Qed.

Lemma browser_tv_shows_document (limit : Z) (w : World) :
  exists doc w',
    Browser.generateTVShowsSitemap langs baseUrl env limit w = (Returned doc, w') /\
    (forallb angle_free langs = true ->
     (url_elements doc <= List.length langs * Z.to_nat limit)%nat).
Proof.
  destruct (swallowing_returns Browser.urlset_open
              (match data (select_by_popularity TVShow.slug TVShow.popularity limit
                             (tv_shows env)) with
               | Some rows => for_each (Browser.add_show langs baseUrl env) rows
               | None => ret tt
               end) "Error generating TV shows sitemap:" w) as (doc & w' & E).
  exists doc, w'. split; [exact E|]. intros Hlangs.
  assert (Hdoc : exists urls,
            doc = Browser.urlset_open ++ joined urls ++ "</urlset>" /\
            Forall one_url urls /\
            (List.length urls <= List.length langs * Z.to_nat limit)%nat).
  { revert E. destruct (tv_shows env) as [m b | all];
      cbn [select_by_popularity data]; intros E.
    - destruct (swallowing_document one_url 0 Browser.urlset_open
                  (ret tt) "Error generating TV shows sitemap:" w (emits_ret _))
        as (urls & w1 & E1 & HP & Hle).
      rewrite E in E1. injection E1 as -> _.
      exists urls. repeat split; [exact HP | lia].
    - set (rows := firstn (Z.to_nat limit) _) in *.
      destruct (swallowing_document one_url
                  (List.length langs * List.length rows) Browser.urlset_open
                  (for_each (Browser.add_show langs baseUrl env) rows)
                  "Error generating TV shows sitemap:" w)
        as (urls & w1 & E1 & HP & Hle).
      + apply emits_for_each. intros x _. apply emits_browser_add_show, Hlangs.
      + rewrite E in E1. injection E1 as -> _.
        exists urls. repeat split; [exact HP |].
        assert (List.length rows <= Z.to_nat limit)%nat
          by (unfold rows; rewrite length_firstn; lia).
        nia. }
  destruct Hdoc as (urls & -> & HP & Hle).
  rewrite (document_count _ urls no_url_browser_opening HP). exact Hle.
Qed.

(** With a store that fails the browser-side assembler returns the empty
    document and writes nothing to the console. *)
Lemma browser_movies_store_failure (limit : Z) (w : World)
    (message : string) (b : bool) :
  movies env = Failing message b ->
  Browser.generateMoviesSitemap langs baseUrl env limit w
  = (Returned (Browser.urlset_open ++ "</urlset>"),
     {| console := console w; fetched := fetched w;
        xml := Browser.urlset_open ++ "</urlset>" |}).
Proof.
  intros Hm. unfold Browser.generateMoviesSitemap. rewrite Hm. reflexivity.
Qed.

Lemma browser_tv_shows_store_failure (limit : Z) (w : World)
    (message : string) (b : bool) :
  tv_shows env = Failing message b ->
  Browser.generateTVShowsSitemap langs baseUrl env limit w
  = (Returned (Browser.urlset_open ++ "</urlset>"),
     {| console := console w; fetched := fetched w;
        xml := Browser.urlset_open ++ "</urlset>" |}).
Proof.
  intros Hm. unfold Browser.generateTVShowsSitemap. rewrite Hm. reflexivity.
Qed.

End MainFacts.

(* ================================================================== *)
(** * Facts about the request handler *)
(* ================================================================== *)

Section HandlerFacts.
Local Open Scope string_scope.
Context `{Host}.
Variable env : Env.

Lemma server_movies_store_failure (w : World) (m : string) (b : bool) :
  movies env = Failing m b ->
  Server.generateMoviesSitemap env w
  = (Thrown (StoreError m b),
     {| console := console w
                   ++ [failed "Error fetching movies:" (StoreError m b);
                       failed "Error generating movies sitemap:" (StoreError m b)];
        fetched := fetched w;
        xml := Server.urlset_open_with_images |}).
Proof.
  intros Hm. unfold Server.generateMoviesSitemap. rewrite Hm.
  cbn [select_by_popularity error].
  unfold and_then, try_catch, set_xml, console_error, throw.
  cbn [console fetched xml]. rewrite <- app_assoc. reflexivity.
Qed.

Lemma server_tv_shows_store_failure (w : World) (m : string) (b : bool) :
  tv_shows env = Failing m b ->
  Server.generateTVShowsSitemap env w
  = (Thrown (StoreError m b),
     {| console := console w
                   ++ [failed "Error fetching TV shows:" (StoreError m b);
                       failed "Error generating TV shows sitemap:" (StoreError m b)];
        fetched := fetched w;
        xml := Server.urlset_open_with_images |}).
Proof.
  intros Hm. unfold Server.generateTVShowsSitemap. rewrite Hm.
  cbn [select_by_popularity error].
  unfold and_then, try_catch, set_xml, console_error, throw.
  cbn [console fetched xml]. rewrite <- app_assoc. reflexivity.
Qed.

(** The handler on a request that is no preflight, with the key set: what
    it replies follows what the generator of the type does. *)
Lemma serve_with_key (req : Request.t) (key : string) (w : World) :
  String.eqb (Request.method req) "OPTIONS" = false ->
  createClient env (or_empty (SUPABASE_URL env))
    (or_empty (SUPABASE_SERVICE_ROLE_KEY env)) = Returned tt ->
  TMDB_API_KEY env = Some key -> String.eqb key "" = false ->
  let w0 := {| console := console w
                          ++ [logged ("Generating sitemap type: " ++ type_of req)];
               fetched := fetched w; xml := xml w |} in
  Server.serve env req w
  = match generator_of env (type_of req) key w0 with
    | (Returned document, w1) =>
        (Returned (document_reply document),
         {| console := console w1
              ++ [logged ("Successfully generated " ++ type_of req ++ " sitemap ("
                          ++ integer_string (Z.of_nat (String.length document))
                          ++ " bytes)")];
            fetched := fetched w1; xml := xml w1 |})
    | (Thrown e, w1) =>
        (Returned (failure_reply e),
         {| console := console w1 ++ [failed "Error generating sitemap:" e];
            fetched := fetched w1; xml := xml w1 |})
    end.
Proof.
  intros Hmethod Hclient Hkey Hne. cbv zeta.
  unfold Server.serve. rewrite Hmethod, Hclient, Hkey. cbn [or_empty].
  rewrite Hne.
  fold (type_of req). fold (generator_of env (type_of req) key).
  unfold try_catch. unfold and_then at 1. cbn [lift].
  unfold and_then at 1. cbn [ret].
  unfold and_then at 1. cbn [console_log].
  unfold and_then at 1.
  destruct (generator_of env (type_of req) key _) as [[document | e] w1];
    reflexivity.
Qed.

End HandlerFacts.

(* ================================================================== *)
(** * Further properties of the generators *)
(* ================================================================== *)

Section RenderedPriority.
Local Open Scope string_scope.

(** X2.  The edge function writes the priority of a record as one of the
    five texts 0.6, 0.7, 0.8, 0.9 and 1.0, and the browser-side module as
    one of eleven texts, of which four have sixteen digits after the
    point.  In the edge function's document a record of popularity 30 and
    one of popularity 60, with neither bonus, carry the same text 0.8,
    though their priorities 0.75 and 0.85 differ. *)
Theorem rendered_priorities :
  forall `{Host} (now : Z) (item : Item),
    In (toFixed (Server.calculatePriority now item) 1)
       ["0.6"; "0.7"; "0.8"; "0.9"; "1.0"] /\
    In (Number_toString (Browser.calculatePriority now item))
       ["0.6"; "0.65"; "0.7000000000000001"; "0.7500000000000001"; "0.75";
        "0.8"; "0.8500000000000001"; "0.85"; "0.9"; "0.9500000000000001"; "1"] /\
    (PrimFloat.leb 8.0 (Spec.or_zero (get item vote_average)) = false ->
     Spec.within_last_months now 6 item = false ->
     Server.calculatePriority now (with_popularity (VNumber 30) item) = 0.75%float /\
     Server.calculatePriority now (with_popularity (VNumber 60) item) = 0.85%float /\
     toFixed 0.75 1 = "0.8" /\ toFixed 0.85 1 = "0.8").
Proof.
  intros H now item.
  rewrite server_ranker_refines, browser_ranker_refines.
  split; [|split].
  - pose proof (ranker_values now item) as Hv. simpl in Hv.
    repeat (destruct Hv as [<- | Hv]; [vm_compute; tauto|]). destruct Hv.
  - pose proof (ranker_values now item) as Hv. simpl in Hv.
    repeat (destruct Hv as [<- | Hv]; [vm_compute; tauto|]). destruct Hv.
  - intros Hrated Hrecent. rewrite !server_ranker_refines.
    assert (Hvote : forall v, get (with_popularity v item) vote_average
                              = get item vote_average)
      by (intros v; destruct item; reflexivity).
    assert (Hdate : forall v, Spec.within_last_months now 6 (with_popularity v item)
                              = Spec.within_last_months now 6 item)
      by (intros v; destruct item; reflexivity).
    assert (Hpop : forall v, get (with_popularity v item) popularity = v)
      by (intros v; destruct item; reflexivity).
    unfold Spec.Ranker. cbv zeta.
    rewrite !Hpop, !Hvote, !Hdate, Hrated, Hrecent.
    repeat split; vm_compute; reflexivity.
Qed.

Lemma rendered_priorities_witness :
  let item := Examples.movie 30 7 VNull in
  PrimFloat.leb 8.0 (Spec.or_zero (H := utc_host) (get item vote_average)) = false /\
  Spec.within_last_months (H := utc_host) Examples.noon_2026_11_03 6 item = false /\
  Server.calculatePriority (H := utc_host) Examples.noon_2026_11_03
    (with_popularity (VNumber 60) item) = 0.85%float.
Proof.
  cbv zeta. split; [reflexivity|]. split; [reflexivity|].
  apply (rendered_priorities (H := utc_host) Examples.noon_2026_11_03
           (Examples.movie 30 7 VNull)); reflexivity.
Defined.

End RenderedPriority.

Section DocumentExtras.
Local Open Scope string_scope.

(** X3.  A document the movies assembler or the TV-shows assembler of the
    edge function returns holds exactly eleven [<url>] tags, one for
    each language, for each row the one query answered: it is the
    opening of the urlset, that many pieces with a single [<url>] tag
    each, and the closing tag.  The query asks for at most 50,000
    rows. *)
Theorem server_documents_cover_the_rows_of_one_bounded_query :
  forall `{Host} (env : Env) (w : World) (doc : string) (w' : World),
    (Server.generateMoviesSitemap env w = (Returned doc, w') ->
     exists rows urls,
       data (select_by_popularity Movie.slug Movie.popularity 50000 (movies env))
       = Some rows /\
       (Z.of_nat (List.length rows) <= 50000)%Z /\
       url_elements doc = (11 * List.length rows)%nat /\
       doc = Server.urlset_open_with_images ++ joined urls ++ "</urlset>" /\
       Forall (fun u => url_elements u = 1%nat) urls) /\
    (Server.generateTVShowsSitemap env w = (Returned doc, w') ->
     exists rows urls,
       data (select_by_popularity TVShow.slug TVShow.popularity 50000 (tv_shows env))
       = Some rows /\
       (Z.of_nat (List.length rows) <= 50000)%Z /\
       url_elements doc = (11 * List.length rows)%nat /\
       doc = Server.urlset_open_with_images ++ joined urls ++ "</urlset>" /\
       Forall (fun u => url_elements u = 1%nat) urls).
Proof.
  intros H env w doc w'. split; intros Hrun.
  - destruct (movies_document env w doc w' Hrun)
      as (rows & urls & Hrows & Hle & HP & Hlen & ->).
    exists rows, urls. split; [exact Hrows|]. split; [exact Hle|].
    split; [|split; [reflexivity|]].
    + rewrite (document_count _ urls no_url_server_opening HP). exact Hlen.
    + eapply Forall_impl; [|exact HP]. intros u [Hu _]. exact Hu.
  - destruct (tv_shows_document env w doc w' Hrun)
      as (rows & urls & Hrows & Hle & HP & Hlen & ->).
    exists rows, urls. split; [exact Hrows|]. split; [exact Hle|].
    split; [|split; [reflexivity|]].
    + rewrite (document_count _ urls no_url_server_opening HP). exact Hlen.
    + eapply Forall_impl; [|exact HP]. intros u [Hu _]. exact Hu.
Qed.

Lemma server_documents_cover_the_rows_of_one_bounded_query_witness :
  exists doc w',
    Server.generateMoviesSitemap (H := utc_host) Examples.env_up start
    = (Returned doc, w') /\
    data (select_by_popularity Movie.slug Movie.popularity 50000
            (movies Examples.env_up)) = Some [Examples.film] /\
    url_elements doc = 11%nat.
Proof.
  destruct (Server.generateMoviesSitemap (H := utc_host) Examples.env_up start)
    as [r w'] eqn:E.
  assert (Hr : exists doc, r = Returned doc)
    by (change r with (fst (r, w')); rewrite <- E; vm_compute; eexists; reflexivity).
  destruct Hr as [doc ->]. exists doc, w'. split; [reflexivity|].
  split; [reflexivity|].
  destruct (proj1 (server_documents_cover_the_rows_of_one_bounded_query
                     (H := utc_host) Examples.env_up start doc w') E)
    as (rows & urls & Hrows & _ & Hn & _).
  vm_compute in Hrows. injection Hrows as <-. exact Hn.
Defined.

(** X4.  The people assembler fetches the first [k] of the ten pages of
    the external API, in order, for some [k] up to 10, whether it returns
    or throws; every page it fetched but the last came with [ok] and with
    at least one row, so that a page that is empty or not [ok] is the
    last one fetched. *)
Theorem people_assembler_fetches_a_prefix_of_ten_pages :
  forall `{Host} (env : Env) (key : string) (w : World)
         (r : Outcome string) (w' : World),
    Server.generatePersonSitemap env key w = (r, w') ->
    exists k, (k <= 10)%nat /\
      fetched w'
      = (fetched w
         ++ map (Server.people_url key)
                (firstn k [1; 2; 3; 4; 5; 6; 7; 8; 9; 10]%Z))%list /\
      (forall i page, (i + 1 < k)%nat ->
         nth_error [1; 2; 3; 4; 5; 6; 7; 8; 9; 10]%Z i = Some page ->
         exists resp rows,
           api env (Server.people_url key page) = Returned resp /\
           Response.ok resp = true /\
           Response.results resp = Returned (Some rows) /\ rows <> []).
Proof.
  intros H env key w r w' Hrun. exact (people_trace env key w r w' Hrun).
Qed.

Lemma people_assembler_fetches_a_prefix_of_ten_pages_witness :
  exists r w' k,
    Server.generatePersonSitemap (H := utc_host) Examples.env "key" start = (r, w') /\
    (k <= 10)%nat /\
    fetched w'
    = (fetched start
       ++ map (Server.people_url "key") (firstn k [1; 2; 3; 4; 5; 6; 7; 8; 9; 10]%Z))%list.
Proof.
  destruct (Server.generatePersonSitemap (H := utc_host) Examples.env "key" start)
    as [r w'] eqn:E.
  destruct (people_assembler_fetches_a_prefix_of_ten_pages
              (H := utc_host) Examples.env "key" start r w' E)
    as (k & Hk & Hf & _).
  exists r, w', k. split; [reflexivity|]. split; assumption.
Defined.

(** X5.  A document the people assembler returns covers the rows of the
    pages it fetched, the first [k] of the ten for a [k] up to 10, and
    no more than the first 2,000 of them: it holds exactly eleven
    [<url>] tags for each of these people, so at most 22,000. *)
Theorem people_document_covers_at_most_2000 :
  forall `{Host} (env : Env) (key : string) (w : World)
         (doc : string) (w' : World),
    Server.generatePersonSitemap env key w = (Returned doc, w') ->
    exists k, (k <= 10)%nat /\
      let pages := firstn k [1; 2; 3; 4; 5; 6; 7; 8; 9; 10]%Z in
      let people := flat_map (page_rows env key) pages in
      fetched w' = (fetched w ++ map (Server.people_url key) pages)%list /\
      url_elements doc = (11 * Nat.min 2000 (List.length people))%nat /\
      (url_elements doc <= 11 * 2000)%nat.
Proof.
  intros H env key w doc w' Hrun.
  destruct (people_count env key w doc w' Hrun) as (k & Hk & Hf & Hn).
  exists k. split; [exact Hk|]. cbv zeta.
  split; [exact Hf|]. split; [exact Hn|].
  unfold Server.ten_pages in Hn. rewrite Hn.
  apply Nat.mul_le_mono_l. apply Nat.le_min_l.
Qed.

Lemma people_document_covers_at_most_2000_witness :
  exists doc w',
    Server.generatePersonSitemap (H := utc_host) Examples.env_up "key" start
    = (Returned doc, w') /\
    (url_elements doc <= 11 * 2000)%nat.
Proof.
  destruct (Server.generatePersonSitemap (H := utc_host) Examples.env_up "key"
              start) as [r w'] eqn:E.
  assert (Hr : exists doc, r = Returned doc)
    by (change r with (fst (r, w')); rewrite <- E; vm_compute; eexists; reflexivity).
  destruct Hr as [doc ->]. exists doc, w'. split; [reflexivity|].
  destruct (people_document_covers_at_most_2000 (H := utc_host) Examples.env_up
              "key" start doc w' E) as (k & _ & _ & _ & Hle).
  exact Hle.
Defined.

End DocumentExtras.

Section HandlerExtras.
Local Open Scope string_scope.

Lemma serve_without_client `{Host} (env : Env) (req : Request.t) (w : World)
    (e : Exn) :
  String.eqb (Request.method req) "OPTIONS" = false ->
  createClient env (or_empty (SUPABASE_URL env))
    (or_empty (SUPABASE_SERVICE_ROLE_KEY env)) = Thrown e ->
  Server.serve env req w
  = (Returned (failure_reply e),
     {| console := console w ++ [failed "Error generating sitemap:" e];
        fetched := fetched w; xml := xml w |}).
Proof.
  intros Hmethod Hclient. unfold Server.serve.
  rewrite Hmethod, Hclient. reflexivity.
Qed.

Lemma serve_without_key `{Host} (env : Env) (req : Request.t) (w : World) :
  String.eqb (Request.method req) "OPTIONS" = false ->
  createClient env (or_empty (SUPABASE_URL env))
    (or_empty (SUPABASE_SERVICE_ROLE_KEY env)) = Returned tt ->
  TMDB_API_KEY env = None \/ TMDB_API_KEY env = Some "" ->
  Server.serve env req w
  = (Returned (failure_reply
                 (Error "TMDB_API_KEY environment variable is required")),
     {| console := console w
          ++ [failed "Error generating sitemap:"
                (Error "TMDB_API_KEY environment variable is required")];
        fetched := fetched w; xml := xml w |}).
Proof.
  intros Hmethod Hclient [Hkey | Hkey]; unfold Server.serve;
    rewrite Hmethod, Hclient, Hkey; reflexivity.
Qed.

Lemma serve_preflight `{Host} (env : Env) (req : Request.t) (w : World) :
  String.eqb (Request.method req) "OPTIONS" = true ->
  Server.serve env req w
  = (Returned {| Reply.status := 200; Reply.content_type := None;
                 Reply.cache_control := None; Reply.body := no_body |}, w).
Proof. intros Hmethod. unfold Server.serve. rewrite Hmethod. reflexivity. Qed.

(** X6.  When the client of the store is made and the key of the
    external API is set, and the table of films, or of shows, fails, the
    assembler of the edge function writes the store's error to the console twice and
    throws it, and the handler writes it a third time and answers the
    request for that sitemap with status 500 and a JSON body, whose
    message is the error's when the error is an [Error] and
    [Unknown error] otherwise; nothing is fetched. *)
Theorem store_failure_is_answered_with_500 :
  forall `{Host} (env : Env) (req : Request.t) (key : string) (w : World)
         (m : string) (b : bool),
    String.eqb (Request.method req) "OPTIONS" = false ->
    createClient env (or_empty (SUPABASE_URL env))
      (or_empty (SUPABASE_SERVICE_ROLE_KEY env)) = Returned tt ->
    TMDB_API_KEY env = Some key -> String.eqb key "" = false ->
    let e := StoreError m b in
    let reply :=
      {| Reply.status := 500;
         Reply.content_type := Some "application/json";
         Reply.cache_control := None;
         Reply.body := json_body "Failed to generate sitemap"
                         (if b then m else "Unknown error") |} in
    (movies env = Failing m b -> Request.type req = Some "movies" ->
     fst (Server.generateMoviesSitemap env w) = Thrown e /\
     fst (Server.serve env req w) = Returned reply /\
     console (snd (Server.serve env req w))
     = (console w
        ++ [logged "Generating sitemap type: movies";
            failed "Error fetching movies:" e;
            failed "Error generating movies sitemap:" e;
            failed "Error generating sitemap:" e])%list /\
     fetched (snd (Server.serve env req w)) = fetched w) /\
    (tv_shows env = Failing m b -> Request.type req = Some "tvshows" ->
     fst (Server.generateTVShowsSitemap env w) = Thrown e /\
     fst (Server.serve env req w) = Returned reply /\
     console (snd (Server.serve env req w))
     = (console w
        ++ [logged "Generating sitemap type: tvshows";
            failed "Error fetching TV shows:" e;
            failed "Error generating TV shows sitemap:" e;
            failed "Error generating sitemap:" e])%list /\
     fetched (snd (Server.serve env req w)) = fetched w).
Proof.
  intros H env req key w m b Hmethod Hclient Hkey Hne. cbv zeta.
  split; intros Hstore Htype.
  - split; [rewrite (server_movies_store_failure env w m b Hstore); reflexivity|].
    rewrite (serve_with_key env req key w Hmethod Hclient Hkey Hne).
    unfold type_of. rewrite Htype. cbn [String.eqb Ascii.eqb Bool.eqb generator_of].
    change (generator_of env "movies" key) with (Server.generateMoviesSitemap env).
    rewrite (server_movies_store_failure env _ m b Hstore).
    cbn [fst snd console fetched xml]. unfold failure_reply, Server.message_of.
    rewrite <- !app_assoc. destruct b; repeat split; reflexivity.
  - split; [rewrite (server_tv_shows_store_failure env w m b Hstore); reflexivity|].
    rewrite (serve_with_key env req key w Hmethod Hclient Hkey Hne).
    unfold type_of. rewrite Htype. cbn [String.eqb Ascii.eqb Bool.eqb generator_of].
    change (generator_of env "tvshows" key) with (Server.generateTVShowsSitemap env).
    rewrite (server_tv_shows_store_failure env _ m b Hstore).
    cbn [fst snd console fetched xml]. unfold failure_reply, Server.message_of.
    rewrite <- !app_assoc. destruct b; repeat split; reflexivity.
Qed.

Lemma store_failure_is_answered_with_500_witness :
  String.eqb (Request.method (Examples.get_request "tvshows")) "OPTIONS" = false /\
  createClient Examples.env (or_empty (SUPABASE_URL Examples.env))
    (or_empty (SUPABASE_SERVICE_ROLE_KEY Examples.env)) = Returned tt /\
  TMDB_API_KEY Examples.env = Some "key" /\ String.eqb "key" "" = false /\
  tv_shows Examples.env = Failing "connection refused" true /\
  fst (Server.serve (H := utc_host) Examples.env (Examples.get_request "tvshows") start)
  = Returned {| Reply.status := 500;
                Reply.content_type := Some "application/json";
                Reply.cache_control := None;
                Reply.body := json_body "Failed to generate sitemap"
                                "connection refused" |}.
Proof.
  repeat (split; [reflexivity|]).
  apply (proj2 (store_failure_is_answered_with_500 (H := utc_host)
                  Examples.env (Examples.get_request "tvshows") "key" start
                  "connection refused" true eq_refl eq_refl eq_refl eq_refl)
           eq_refl eq_refl).
Defined.

(** X8.  When the client of the store is made and the key of the
    external API is set, a request other than the pre-flight one whose
    [type] is none of main, movies, tvshows and people, or is empty or
    absent, is answered like one for the index:
    with the sitemap index of the day and status 200, without a request
    to the external API; the console names the type as it was given. *)
Theorem other_types_are_answered_with_the_index :
  forall `{Host} (env : Env) (req : Request.t) (key day : string) (w : World),
    String.eqb (Request.method req) "OPTIONS" = false ->
    createClient env (or_empty (SUPABASE_URL env))
      (or_empty (SUPABASE_SERVICE_ROLE_KEY env)) = Returned tt ->
    TMDB_API_KEY env = Some key -> String.eqb key "" = false ->
    Server.today env = Returned day ->
    existsb (String.eqb (type_of req)) ["main"; "movies"; "tvshows"; "people"]
    = false ->
    fst (Server.serve env req w)
    = Returned {| Reply.status := 200;
                  Reply.content_type := Some "application/xml";
                  Reply.cache_control := Some "public, max-age=3600";
                  Reply.body := xml_body (index_document day) |} /\
    fetched (snd (Server.serve env req w)) = fetched w /\
    console (snd (Server.serve env req w))
    = (console w
       ++ [logged ("Generating sitemap type: " ++ type_of req);
           logged ("Successfully generated " ++ type_of req ++ " sitemap ("
                   ++ integer_string (Z.of_nat (String.length (index_document day)))
                   ++ " bytes)")])%list.
Proof.
  intros H env req key day w Hmethod Hclient Hkey Hne Hday Htype.
  rewrite (serve_with_key env req key w Hmethod Hclient Hkey Hne).
  assert (Hother : generator_of env (type_of req) key = Server.generateSitemapIndex env).
  { cbn [existsb] in Htype. rewrite orb_false_r in Htype.
    apply orb_false_elim in Htype. destruct Htype as [H1 Htype].
    apply orb_false_elim in Htype. destruct Htype as [H2 Htype].
    apply orb_false_elim in Htype. destruct Htype as [H3 H4].
    unfold generator_of. rewrite H1, H2, H3, H4. reflexivity. }
  rewrite Hother, (server_index env day _ Hday).
  cbn [fst snd console fetched xml]. rewrite <- app_assoc.
  repeat split.
Qed.

Lemma other_types_are_answered_with_the_index_witness :
  String.eqb (Request.method (Examples.get_request "sitemap")) "OPTIONS" = false /\
  createClient Examples.env (or_empty (SUPABASE_URL Examples.env))
    (or_empty (SUPABASE_SERVICE_ROLE_KEY Examples.env)) = Returned tt /\
  TMDB_API_KEY Examples.env = Some "key" /\ String.eqb "key" "" = false /\
  Server.today (H := utc_host) Examples.env = Returned "2026-11-03" /\
  fst (Server.serve (H := utc_host) Examples.env (Examples.get_request "sitemap") start)
  = Returned {| Reply.status := 200;
                Reply.content_type := Some "application/xml";
                Reply.cache_control := Some "public, max-age=3600";
                Reply.body := xml_body (index_document "2026-11-03") |}.
Proof.
  split; [reflexivity|]. split; [reflexivity|]. split; [reflexivity|].
  split; [reflexivity|]. split; [vm_compute; reflexivity|].
  apply (other_types_are_answered_with_the_index (H := utc_host) Examples.env
           (Examples.get_request "sitemap") "key" "2026-11-03" start);
    vm_compute; reflexivity.
Defined.

(** X9.  The handler makes the client of the store before it reads the
    key of the external API.  When making the client throws, every
    request other than the pre-flight one is answered with status 500
    and the message of that error, whatever the key; when the client is
    made and the key is absent or empty, with status 500 and the message
    that the key is required, whatever the [type].  In both cases the
    handler writes one line to the console and neither announces the
    type nor reaches the external API. *)
Theorem no_sitemap_without_the_api_key :
  forall `{Host} (env : Env) (req : Request.t) (w : World),
    String.eqb (Request.method req) "OPTIONS" = false ->
    let reply message :=
      {| Reply.status := 500;
         Reply.content_type := Some "application/json";
         Reply.cache_control := None;
         Reply.body := json_body "Failed to generate sitemap" message |} in
    (forall e,
       createClient env (or_empty (SUPABASE_URL env))
         (or_empty (SUPABASE_SERVICE_ROLE_KEY env)) = Thrown e ->
       fst (Server.serve env req w) = Returned (reply (Server.message_of e)) /\
       fetched (snd (Server.serve env req w)) = fetched w /\
       console (snd (Server.serve env req w))
       = (console w ++ [failed "Error generating sitemap:" e])%list) /\
    (createClient env (or_empty (SUPABASE_URL env))
       (or_empty (SUPABASE_SERVICE_ROLE_KEY env)) = Returned tt ->
     TMDB_API_KEY env = None \/ TMDB_API_KEY env = Some "" ->
     fst (Server.serve env req w)
     = Returned (reply "TMDB_API_KEY environment variable is required") /\
     fetched (snd (Server.serve env req w)) = fetched w /\
     console (snd (Server.serve env req w))
     = (console w
        ++ [failed "Error generating sitemap:"
              (Error "TMDB_API_KEY environment variable is required")])%list).
Proof.
  intros H env req w Hmethod. cbv zeta. split.
  - intros e Hclient.
    rewrite (serve_without_client env req w e Hmethod Hclient). repeat split.
  - intros Hclient Hkey.
    rewrite (serve_without_key env req w Hmethod Hclient Hkey). repeat split.
Qed.

Lemma no_sitemap_without_the_api_key_witness :
  (TMDB_API_KEY Examples.env_without_key = None /\
   fst (Server.serve (H := utc_host) Examples.env_without_key
          (Examples.get_request "main") start)
   = Returned {| Reply.status := 500;
                 Reply.content_type := Some "application/json";
                 Reply.cache_control := None;
                 Reply.body := json_body "Failed to generate sitemap"
                                 "TMDB_API_KEY environment variable is required" |}) /\
  (SUPABASE_URL Examples.env_without_address = None /\
   fst (Server.serve (H := utc_host) Examples.env_without_address
          (Examples.get_request "main") start)
   = Returned {| Reply.status := 500;
                 Reply.content_type := Some "application/json";
                 Reply.cache_control := None;
                 Reply.body := json_body "Failed to generate sitemap"
                                 "supabaseUrl is required." |}).
Proof.
  split; (split; [reflexivity|]).
  - apply (proj2 (no_sitemap_without_the_api_key (H := utc_host)
                    Examples.env_without_key (Examples.get_request "main") start
                    eq_refl)).
    + reflexivity.
    + left. reflexivity.
  - apply (proj1 (no_sitemap_without_the_api_key (H := utc_host)
                    Examples.env_without_address (Examples.get_request "main")
                    start eq_refl)
             (Error "supabaseUrl is required.")).
    reflexivity.
Defined.

(** X10.  The handler never throws: whatever the stores and the external
    API do, it returns a reply, which is the empty pre-flight reply with
    status 200, or a document with status 200 and the XML content type,
    or status 500 with a JSON body that carries the error's message. *)
Theorem handler_always_replies :
  forall `{Host} (env : Env) (req : Request.t) (w : World),
    exists (reply : Reply.t) (w' : World),
      Server.serve env req w = (Returned reply, w') /\
      ((Request.method req = "OPTIONS" /\ w' = w /\
        Reply.status reply = 200%Z /\ Reply.body reply = no_body) \/
       (Request.method req <> "OPTIONS" /\
        Reply.status reply = 200%Z /\
        Reply.content_type reply = Some "application/xml" /\
        exists document, Reply.body reply = xml_body document) \/
       (Request.method req <> "OPTIONS" /\
        Reply.status reply = 500%Z /\
        Reply.content_type reply = Some "application/json" /\
        exists message,
          Reply.body reply = json_body "Failed to generate sitemap" message)).
Proof.
  intros H env req w.
  destruct (String.eqb (Request.method req) "OPTIONS") eqn:Hmethod.
  - rewrite (serve_preflight env req w Hmethod). eexists. eexists.
    split; [reflexivity|]. left. apply String.eqb_eq in Hmethod. repeat split; assumption.
  - assert (Hm : Request.method req <> "OPTIONS") by (apply String.eqb_neq; exact Hmethod).
    destruct (createClient env (or_empty (SUPABASE_URL env))
                (or_empty (SUPABASE_SERVICE_ROLE_KEY env))) as [[] | e0] eqn:Hclient.
    + destruct (TMDB_API_KEY env) as [key|] eqn:Hkey.
      * destruct (String.eqb key "") eqn:Hne.
        -- apply String.eqb_eq in Hne. subst key.
           rewrite (serve_without_key env req w Hmethod Hclient (or_intror Hkey)).
           eexists. eexists. split; [reflexivity|]. right. right.
           repeat split; try assumption. eexists. reflexivity.
        -- rewrite (serve_with_key env req key w Hmethod Hclient Hkey Hne).
           destruct (generator_of env (type_of req) key _) as [[document | e] w1].
           ++ eexists. eexists. split; [reflexivity|]. right. left.
              repeat split; try assumption. eexists. reflexivity.
           ++ eexists. eexists. split; [reflexivity|]. right. right.
              repeat split; try assumption. eexists. reflexivity.
      * rewrite (serve_without_key env req w Hmethod Hclient (or_introl Hkey)).
        eexists. eexists. split; [reflexivity|]. right. right.
        repeat split; try assumption. eexists. reflexivity.
    + rewrite (serve_without_client env req w e0 Hmethod Hclient).
      eexists. eexists. split; [reflexivity|]. right. right.
      repeat split; try assumption. eexists. reflexivity.
Qed.

End HandlerExtras.

Section PeopleExtras.
Local Open Scope string_scope.

Lemma people_first_page `{Host} (env : Env) (key : string) (w : World)
    (resp : Response.t) :
  api env (Server.people_url key 1) = Returned resp ->
  Response.ok resp = false \/
  (Response.ok resp = true /\
   (Response.results resp = Returned None \/
    Response.results resp = Returned (Some []))) ->
  Server.generatePersonSitemap env key w
  = (Returned (Server.urlset_open_with_images ++ "</urlset>"),
     {| console :=
          console w
          ++ (if Response.ok resp then []
              else [{| level := error_level;
                       message := "Error fetching popular people page 1:";
                       detail := text (Response.statusText resp) |}])
          ++ [logged "Generating sitemap for 0 people"];
        fetched := fetched w ++ [Server.people_url key 1];
        xml := Server.urlset_open_with_images ++ "</urlset>" |}).
Proof.
  intros Hapi Hpage.
  cbv [Server.generatePersonSitemap Server.fetch_people Server.ten_pages
       and_then try_catch fetch set_xml]. rewrite Hapi.
  destruct Hpage as [Hok | [Hok [Hres | Hres]]]; rewrite Hok; cbn [negb].
  - cbv [console_error console_log ret for_each firstn length Server.count_string
         append_xml get_xml console fetched xml].
    rewrite <- app_assoc. reflexivity.
  - cbv [lift]. rewrite Hres.
    cbv [console_error console_log ret for_each firstn length Server.count_string
         append_xml get_xml console fetched xml].
    reflexivity.
  - cbv [lift]. rewrite Hres.
    cbv [console_error console_log ret for_each firstn length Server.count_string
         append_xml get_xml console fetched xml].
    reflexivity.
Qed.

(** X7.  When the first page of the external API comes back not [ok],
    or [ok] without rows, the people assembler does not throw: it ends
    its loop after that one request and returns a urlset with no entry,
    which the handler, when the client of the store is made and the key
    is set, replies with status 200. *)
Theorem people_sitemap_is_empty_when_the_first_page_is :
  forall `{Host} (env : Env) (req : Request.t) (key : string) (w : World)
         (resp : Response.t),
    api env (Server.people_url key 1) = Returned resp ->
    Response.ok resp = false \/
    (Response.ok resp = true /\
     (Response.results resp = Returned None \/
      Response.results resp = Returned (Some []))) ->
    fst (Server.generatePersonSitemap env key w)
    = Returned (Server.urlset_open_with_images ++ "</urlset>") /\
    fetched (snd (Server.generatePersonSitemap env key w))
    = (fetched w ++ [Server.people_url key 1])%list /\
    (String.eqb (Request.method req) "OPTIONS" = false ->
     createClient env (or_empty (SUPABASE_URL env))
       (or_empty (SUPABASE_SERVICE_ROLE_KEY env)) = Returned tt ->
     TMDB_API_KEY env = Some key -> String.eqb key "" = false ->
     Request.type req = Some "people" ->
     fst (Server.serve env req w)
     = Returned {| Reply.status := 200;
                   Reply.content_type := Some "application/xml";
                   Reply.cache_control := Some "public, max-age=3600";
                   Reply.body :=
                     xml_body (Server.urlset_open_with_images ++ "</urlset>") |}).
Proof.
  intros H env req key w resp Hapi Hpage.
  rewrite (people_first_page env key w resp Hapi Hpage).
  split; [reflexivity|]. split; [reflexivity|].
  intros Hmethod Hclient Hkey Hne Htype.
  rewrite (serve_with_key env req key w Hmethod Hclient Hkey Hne).
  unfold type_of. rewrite Htype. cbn [String.eqb Ascii.eqb Bool.eqb].
  change (generator_of env "people" key) with (Server.generatePersonSitemap env key).
  rewrite (people_first_page env key _ resp Hapi Hpage). reflexivity.
Qed.

Lemma people_sitemap_is_empty_when_the_first_page_is_witness :
  api Examples.env_down (Server.people_url "key" 1) = Examples.out_of_service /\
  fst (Server.serve (H := utc_host) Examples.env_down
         (Examples.get_request "people") start)
  = Returned {| Reply.status := 200;
                Reply.content_type := Some "application/xml";
                Reply.cache_control := Some "public, max-age=3600";
                Reply.body :=
                  xml_body (Server.urlset_open_with_images ++ "</urlset>") |}.
Proof.
  split; [reflexivity|].
  apply (people_sitemap_is_empty_when_the_first_page_is (H := utc_host)
           Examples.env_down (Examples.get_request "people") "key" start
           {| Response.ok := false;
              Response.statusText := "Service Unavailable";
              Response.results := Thrown (SyntaxError "Unexpected token") |});
    first [reflexivity | left; reflexivity].
Defined.

End PeopleExtras.

Section DatedRows.
Local Open Scope string_scope.
Context `{Host}.
Variable env : Env.

Lemma for_each_returned {A} (body : A -> M unit) (l : list A) :
  forall (w w' : World),
    for_each body l w = (Returned tt, w') ->
    forall x, In x l -> exists w1 w2, body x w1 = (Returned tt, w2).
Proof.
  induction l as [|y l IH]; intros w w' Hrun x Hin; [destruct Hin|].
  cbn [for_each] in Hrun. unfold and_then at 1 in Hrun.
  destruct (body y w) as [[[] | e] w1] eqn:E; [|discriminate Hrun].
  destruct Hin as [<- | Hin].
  - exists w, w1. exact E.
  - exact (IH _ _ Hrun x Hin).
Qed.

Lemma dated_returned (updated_at : Value) (k : string -> M unit) (w1 w2 : World) :
  (lastmod <~ lift (Server.lastmod_of env updated_at) ;; k lastmod) w1
  = (Returned tt, w2) ->
  exists day, Server.lastmod_of env updated_at = Returned day.
Proof.
  unfold and_then, lift.
  destruct (Server.lastmod_of env updated_at) as [day | e]; intros Hrun.
  - exists day. reflexivity.
  - discriminate Hrun.
Qed.

Lemma first_language : In "en" Server.SUPPORTED_LANGUAGES.
Proof. left. reflexivity. Qed.

Lemma add_movie_returned (movie : Movie.t) (w1 w2 : World) :
  Server.add_movie env movie w1 = (Returned tt, w2) ->
  exists day, Server.lastmod_of env (Movie.updated_at movie) = Returned day.
Proof.
  unfold Server.add_movie. cbv zeta. intros Hrun.
  destruct (for_each_returned _ _ _ _ Hrun "en" first_language) as (w3 & w4 & E).
  exact (dated_returned _ _ _ _ E).
Qed.

Lemma add_show_returned (show : TVShow.t) (w1 w2 : World) :
  Server.add_show env show w1 = (Returned tt, w2) ->
  exists day, Server.lastmod_of env (TVShow.updated_at show) = Returned day.
Proof.
  unfold Server.add_show. cbv zeta. intros Hrun.
  destruct (for_each_returned _ _ _ _ Hrun "en" first_language) as (w3 & w4 & E).
  exact (dated_returned _ _ _ _ E).
Qed.

Lemma or_else_text (a b : Value) :
  is_text a = true -> is_text b = true -> is_text (or_else a b) = true.
Proof. unfold or_else. destruct (ToBoolean a); trivial. Qed.

Lemma movie_url_text (movie : Movie.t) (loc lastmod : Value)
    (changefreq : option Changefreq) (priority : option float) (path : string) :
  is_text loc = true ->
  is_text (Movie.title movie) = true ->
  is_text (Movie.original_title movie) = true ->
  text_fields {| SitemapUrl.loc := loc;
                 SitemapUrl.lastmod := lastmod;
                 SitemapUrl.changefreq := changefreq;
                 SitemapUrl.priority := priority;
                 SitemapUrl.alternates := Some (Server.generateAlternates path);
                 SitemapUrl.images :=
                   Server.some_images (Server.movie_images movie) |} = true.
Proof.
  intros Hloc Ht Ho. pose proof (or_else_text _ _ Ht Ho) as Hor.
  unfold text_fields, Server.movie_images.
  cbn [SitemapUrl.loc SitemapUrl.alternates SitemapUrl.images].
  rewrite Hloc.
  destruct (ToBoolean (Movie.poster_path movie)),
           (ToBoolean (Movie.backdrop_path movie));
    cbn [app Server.some_images forallb Image.loc Image.title Image.caption is_text];
    rewrite ?Hor; reflexivity.
Qed.

Lemma show_url_text (show : TVShow.t) (loc lastmod : Value)
    (changefreq : option Changefreq) (priority : option float) (path : string) :
  is_text loc = true ->
  is_text (TVShow.name show) = true ->
  is_text (TVShow.original_name show) = true ->
  text_fields {| SitemapUrl.loc := loc;
                 SitemapUrl.lastmod := lastmod;
                 SitemapUrl.changefreq := changefreq;
                 SitemapUrl.priority := priority;
                 SitemapUrl.alternates := Some (Server.generateAlternates path);
                 SitemapUrl.images :=
                   Server.some_images (Server.show_images show) |} = true.
Proof.
  intros Hloc Ht Ho. pose proof (or_else_text _ _ Ht Ho) as Hor.
  unfold text_fields, Server.show_images.
  cbn [SitemapUrl.loc SitemapUrl.alternates SitemapUrl.images].
  rewrite Hloc.
  destruct (ToBoolean (TVShow.poster_path show)),
           (ToBoolean (TVShow.backdrop_path show));
    cbn [app Server.some_images forallb Image.loc Image.title Image.caption is_text];
    rewrite ?Hor; reflexivity.
Qed.

Lemma returns_add_movie (movie : Movie.t) (day : string) :
  is_text (Movie.title movie) = true ->
  is_text (Movie.original_title movie) = true ->
  Server.lastmod_of env (Movie.updated_at movie) = Returned day ->
  Returns (Server.add_movie env movie).
Proof.
  intros Ht Ho Hday. unfold Server.add_movie. cbv zeta.
  apply returns_for_each. intros lang _. rewrite Hday.
  apply returns_and_then; [apply returns_lift|]. intros lastmod.
  apply returns_server_add_url. apply movie_url_text; trivial.
Qed.

Lemma returns_add_show (show : TVShow.t) (day : string) :
  is_text (TVShow.name show) = true ->
  is_text (TVShow.original_name show) = true ->
  Server.lastmod_of env (TVShow.updated_at show) = Returned day ->
  Returns (Server.add_show env show).
Proof.
  intros Ht Ho Hday. unfold Server.add_show. cbv zeta.
  apply returns_for_each. intros lang _. rewrite Hday.
  apply returns_and_then; [apply returns_lift|]. intros lastmod.
  apply returns_server_add_url. apply show_url_text; trivial.
Qed.

(** A document with a [try] whose handler throws again returns exactly
    when the body of the [try] does. *)
Lemma rethrowing_document (opening : string) (body : M unit)
    (handler : Exn -> M unit) (w : World) :
  (forall e w1, exists e' w2, handler e w1 = (Thrown e', w2)) ->
  (exists doc w',
     (set_xml opening ;;; try_catch body handler ;;;
      append_xml "</urlset>" ;;; get_xml) w = (Returned doc, w'))
  <-> (exists w', body {| console := console w; fetched := fetched w;
                          xml := opening |} = (Returned tt, w')).
Proof.
  intros Hhandler. unfold and_then, set_xml, try_catch.
  destruct (body _) as [[[] | e] w1].
  - split; intros _; eexists; [reflexivity|]. eexists. reflexivity.
  - destruct (Hhandler e w1) as (e' & w2 & ->).
    split; [intros (doc & w' & E) | intros (w' & E)]; discriminate E.
Qed.

Lemma returns_console_log (message : string) : Returns (console_log message).
Proof. intros w. eexists. eexists. reflexivity. Qed.

Lemma rows_return {A} (message : string) (add : A -> M unit) (rows : list A) :
  (forall x, In x rows -> Returns (add x)) ->
  Returns match rows with
          | _ :: _ => console_log message ;;; for_each add rows
          | [] => ret tt
          end.
Proof.
  intros Hadd. destruct rows as [|x l].
  - intros w. eexists. eexists. reflexivity.
  - apply returns_and_then; [apply returns_console_log|].
    intros _. apply returns_for_each. exact Hadd.
Qed.

Lemma rows_returned {A} (message : string) (add : A -> M unit) (rows : list A)
    (w w' : World) :
  match rows with
  | _ :: _ => console_log message ;;; for_each add rows
  | [] => ret tt
  end w = (Returned tt, w') ->
  forall x, In x rows -> exists w1 w2, add x w1 = (Returned tt, w2).
Proof.
  destruct rows as [|x l]; intros Hrun y Hy; [destruct Hy|].
  unfold and_then at 1 in Hrun. cbn [console_log] in Hrun.
  exact (for_each_returned _ _ _ _ Hrun y Hy).
Qed.

End DatedRows.

Section DatedExtras.
Local Open Scope string_scope.

(** X17.  With a store that answers and titles that are strings or
    null, the movies assembler of the edge function returns a document
    exactly when the [updated_at] of every row of the answer is one the
    date arithmetic can print: a single row with a time stamp that is no
    date makes it throw, and no document is returned for the other rows.
    The same holds of the TV-shows assembler. *)
Theorem one_undatable_row_fails_the_whole_sitemap :
  forall `{Host} (env : Env) (w : World),
    (forall rows : list Movie.t,
       data (select_by_popularity Movie.slug Movie.popularity 50000 (movies env))
       = Some rows ->
       (forall m, In m rows ->
          is_text (Movie.title m) = true /\
          is_text (Movie.original_title m) = true) ->
       ((exists doc w', Server.generateMoviesSitemap env w = (Returned doc, w'))
        <-> (forall m, In m rows ->
               exists day,
                 Server.lastmod_of env (Movie.updated_at m) = Returned day))) /\
    (forall rows : list TVShow.t,
       data (select_by_popularity TVShow.slug TVShow.popularity 50000 (tv_shows env))
       = Some rows ->
       (forall s, In s rows ->
          is_text (TVShow.name s) = true /\
          is_text (TVShow.original_name s) = true) ->
       ((exists doc w', Server.generateTVShowsSitemap env w = (Returned doc, w'))
        <-> (forall s, In s rows ->
               exists day,
                 Server.lastmod_of env (TVShow.updated_at s) = Returned day))).
Proof.
  intros H env w. split; intros rows Hdata Htext.
  - unfold Server.generateMoviesSitemap.
    rewrite rethrowing_document by (intros e w1; apply handler_throws).
    destruct (movies env) as [m b | all]; [discriminate Hdata|].
    cbn [select_by_popularity error data] in *.
    change Server.MAX_URLS_PER_SITEMAP with 50000%Z.
    apply (f_equal (fun o => match o with Some l => l | None => [] end)) in Hdata.
    cbn beta iota in Hdata. rewrite Hdata. clear Hdata.
    split.
    + intros (w' & Hrun) m Hm.
      destruct (rows_returned _ _ _ _ _ Hrun m Hm) as (w1 & w2 & E).
      exact (add_movie_returned env m w1 w2 E).
    + intros Hdated.
      destruct (rows_return
                  ("Generating sitemap for " ++ Server.count_string rows ++ " movies")
                  (Server.add_movie env) rows) with
        (w := {| console := console w; fetched := fetched w;
                 xml := Server.urlset_open_with_images |}) as ([] & w' & E).
      * intros m Hm. destruct (Hdated m Hm) as [day Hday].
        destruct (Htext m Hm) as [Ht Ho].
        exact (returns_add_movie env m day Ht Ho Hday).
      * exists w'. exact E.
  - unfold Server.generateTVShowsSitemap.
    rewrite rethrowing_document by (intros e w1; apply handler_throws).
    destruct (tv_shows env) as [m b | all]; [discriminate Hdata|].
    cbn [select_by_popularity error data] in *.
    change Server.MAX_URLS_PER_SITEMAP with 50000%Z.
    apply (f_equal (fun o => match o with Some l => l | None => [] end)) in Hdata.
    cbn beta iota in Hdata. rewrite Hdata. clear Hdata.
    split.
    + intros (w' & Hrun) s Hs.
      destruct (rows_returned _ _ _ _ _ Hrun s Hs) as (w1 & w2 & E).
      exact (add_show_returned env s w1 w2 E).
    + intros Hdated.
      destruct (rows_return
                  ("Generating sitemap for " ++ Server.count_string rows ++ " TV shows")
                  (Server.add_show env) rows) with
        (w := {| console := console w; fetched := fetched w;
                 xml := Server.urlset_open_with_images |}) as ([] & w' & E).
      * intros s Hs. destruct (Hdated s Hs) as [day Hday].
        destruct (Htext s Hs) as [Ht Ho].
        exact (returns_add_show env s day Ht Ho Hday).
      * exists w'. exact E.
Qed.

Lemma one_undatable_row_fails_the_whole_sitemap_witness :
  data (select_by_popularity Movie.slug Movie.popularity 50000
          (movies Examples.env_undated))
  = Some [Examples.film; Examples.undated_film] /\
  Server.lastmod_of (H := utc_host) Examples.env_undated
    (Movie.updated_at Examples.undated_film)
  = Thrown (RangeError "Invalid time value") /\
  ~ exists doc w',
      Server.generateMoviesSitemap (H := utc_host) Examples.env_undated start
      = (Returned doc, w').
Proof.
  split; [vm_compute; reflexivity|]. split; [vm_compute; reflexivity|].
  intros Hret.
  assert (Htext : forall m, In m [Examples.film; Examples.undated_film] ->
                    is_text (Movie.title m) = true /\
                    is_text (Movie.original_title m) = true)
    by (intros m [<- | [<- | []]]; split; reflexivity).
  destruct (proj1 (proj1 (one_undatable_row_fails_the_whole_sitemap (H := utc_host)
                            Examples.env_undated start)
                     [Examples.film; Examples.undated_film] eq_refl Htext)
              Hret Examples.undated_film (or_intror (or_introl eq_refl)))
    as [day E].
  vm_compute in E. discriminate E.
Defined.

End DatedExtras.

Section PeopleFailure.
Local Open Scope string_scope.
Context `{Host}.
Variable env : Env.

Lemma fetch_people_rejected (key : string) :
  forall (pages : list Z) (people : list Person.t) (w : World)
         (r : Outcome (list Person.t)) (w' : World),
    Server.fetch_people env key pages people w = (r, w') ->
    exists k, (k <= List.length pages)%nat /\
      fetched w'
      = (fetched w ++ map (Server.people_url key) (firstn k pages))%list /\
      (forall page e, In page (firstn k pages) -> unreadable env key page e ->
         r = Thrown e /\ last (firstn k pages) 0%Z = page) /\
      (forall e, r = Thrown e ->
         console w' = console w /\
         exists page, In page (firstn k pages) /\ unreadable env key page e).
Proof.
  induction pages as [|page pages IH]; intros people w r w' Hrun.
  - cbn [Server.fetch_people ret] in Hrun. injection Hrun as <- <-.
    exists 0%nat. cbn [firstn map]. rewrite app_nil_r.
    repeat split; try lia; try (intros; contradiction); try discriminate.
  - cbn [Server.fetch_people] in Hrun. unfold and_then at 1 in Hrun.
    cbn [fetch] in Hrun.
    destruct (api env (Server.people_url key page)) as [resp | e0] eqn:Hapi.
    + destruct (Response.ok resp) eqn:Hok; cbn [negb] in Hrun.
      * unfold and_then at 1, lift in Hrun.
        destruct (Response.results resp) as [results | e0] eqn:Hres.
        -- assert (Hhead : forall e, ~ unreadable env key page e).
           { intros e [Hu | (resp' & Hu & _ & Hr)]; rewrite Hapi in Hu;
               [discriminate Hu|]. injection Hu as <-. rewrite Hres in Hr.
             discriminate Hr. }
           assert (Hone : forall p, r = Returned p ->
                     w' = {| console := console w;
                             fetched := fetched w ++ [Server.people_url key page];
                             xml := xml w |} ->
                     exists k, (k <= List.length (page :: pages))%nat /\
                       fetched w'
                       = (fetched w ++ map (Server.people_url key)
                                         (firstn k (page :: pages)))%list /\
                       (forall page0 e, In page0 (firstn k (page :: pages)) ->
                          unreadable env key page0 e ->
                          r = Thrown e /\
                          last (firstn k (page :: pages)) 0%Z = page0) /\
                       (forall e, r = Thrown e ->
                          console w' = console w /\
                          exists page0, In page0 (firstn k (page :: pages)) /\
                                        unreadable env key page0 e)).
           { intros p -> ->. exists 1%nat. cbn [firstn map List.length fetched].
             split; [lia|]. split; [reflexivity|]. split.
             - intros page0 e [<- | []] Hu. destruct (Hhead e Hu).
             - intros e He. discriminate He. }
           destruct results as [[|x rows]|].
           ++ cbn [ret] in Hrun. injection Hrun as <- <-. eapply Hone; reflexivity.
           ++ destruct (2000 <=? Z.of_nat (List.length (people ++ x :: rows)))%Z.
              ** cbn [ret] in Hrun. injection Hrun as <- <-. eapply Hone; reflexivity.
              ** destruct (IH _ _ _ _ Hrun) as (k & Hk & Hf & Hrej & Hthrown).
                 exists (S k). cbn [firstn map List.length].
                 split; [lia|]. cbn [fetched] in Hf. rewrite <- app_assoc in Hf.
                 split; [exact Hf|]. split.
                 --- intros page0 e [<- | Hin] Hu; [destruct (Hhead e Hu)|].
                     destruct (Hrej page0 e Hin Hu) as [Hr Hl].
                     split; [exact Hr|]. rewrite <- Hl.
                     destruct (firstn k pages); [destruct Hin | reflexivity].
                 --- intros e He. destruct (Hthrown e He) as [Hc (page0 & Hin & Hu)].
                     split; [exact Hc|]. exists page0. split; [right; exact Hin | exact Hu].
           ++ cbn [ret] in Hrun. injection Hrun as <- <-. eapply Hone; reflexivity.
        -- injection Hrun as <- <-. exists 1%nat. cbn [firstn map List.length fetched].
           split; [lia|]. split; [reflexivity|]. split.
           ++ intros page0 e [<- | []] [Hu | (resp' & Hu & _ & Hr)];
                rewrite Hapi in Hu; [discriminate Hu|].
              injection Hu as <-. rewrite Hres in Hr. injection Hr as <-.
              split; reflexivity.
           ++ intros e He. injection He as <-. split; [reflexivity|].
              exists page. split; [left; reflexivity|].
              right. exists resp. repeat split; assumption.
      * unfold and_then, console_error in Hrun. cbn [ret] in Hrun.
        injection Hrun as <- <-. exists 1%nat. cbn [firstn map List.length fetched].
        split; [lia|]. split; [reflexivity|]. split.
        -- intros page0 e [<- | []] [Hu | (resp' & Hu & Hok' & _)];
             rewrite Hapi in Hu; [discriminate Hu|].
           injection Hu as <-. rewrite Hok in Hok'. discriminate Hok'.
        -- intros e He. discriminate He.
    + injection Hrun as <- <-. exists 1%nat. cbn [firstn map List.length fetched].
      split; [lia|]. split; [reflexivity|]. split.
      * intros page0 e [<- | []] [Hu | (resp' & Hu & _)]; rewrite Hapi in Hu.
        -- injection Hu as <-. split; reflexivity.
        -- discriminate Hu.
      * intros e He. injection He as <-. split; [reflexivity|].
        exists page. split; [left; reflexivity | left; exact Hapi].
Qed.

Lemma people_unreadable (key : string) (w : World) (r : Outcome string)
    (w' : World) :
  Server.generatePersonSitemap env key w = (r, w') ->
  exists k, (k <= 10)%nat /\
    fetched w'
    = (fetched w ++ map (Server.people_url key) (firstn k Server.ten_pages))%list /\
    (forall page e, In page (firstn k Server.ten_pages) ->
       unreadable env key page e ->
       last (firstn k Server.ten_pages) 0%Z = page /\
       r = Thrown e /\
       console w'
       = (console w ++ [failed "Error generating person sitemap:" e])%list).
Proof.
  unfold Server.generatePersonSitemap. intros Hrun.
  unfold and_then at 1 in Hrun. cbn [set_xml] in Hrun.
  unfold and_then at 1 in Hrun. unfold try_catch in Hrun.
  unfold and_then at 1 in Hrun.
  match type of Hrun with context [Server.fetch_people env key ?ps ?pp ?w0] =>
    destruct (Server.fetch_people env key ps pp w0) as [[people | e0] w1] eqn:E end.
  - destruct (fetch_people_rejected key _ _ _ _ _ E) as (k & Hk & Hf & Hrej & _).
    exists k. split; [exact Hk|]. cbn [fetched] in Hf. split.
    + rewrite <- Hf.
      match type of Hrun with context [and_then ?m ?c w1] =>
        destruct (and_then m c w1) as [[[] | e1] w2] eqn:E2;
        pose proof (quiet_rest env people _ _ _ E2) as Hq end.
      * unfold and_then, append_xml, get_xml in Hrun.
        injection Hrun as <- <-. exact Hq.
      * unfold and_then, console_error, throw in Hrun.
        injection Hrun as <- <-. exact Hq.
    + intros page e Hin Hu. destruct (Hrej page e Hin Hu) as [He _].
      discriminate He.
  - destruct (fetch_people_rejected key _ _ _ _ _ E) as (k & Hk & Hf & Hrej & Hthrown).
    destruct (Hthrown e0 eq_refl) as [Hc _]. cbn [fetched console] in Hf, Hc.
    unfold and_then, console_error, throw in Hrun.
    injection Hrun as <- <-. cbn [fetched console].
    exists k. split; [exact Hk|]. split; [exact Hf|].
    intros page e Hin Hu. destruct (Hrej page e Hin Hu) as [He Hl].
    injection He as <-. rewrite Hc. repeat split. exact Hl.
Qed.

End PeopleFailure.

Section PeopleFailureExtra.
Local Open Scope string_scope.

(** X20.  A request to the external API that is rejected, or an answer
    that is [ok] with a body that cannot be read, is not passed over
    like an answer that is not [ok]: whichever of the pages it happens
    at, the people assembler makes no further request, writes the error
    to the console and throws it; and the handler, when the client of
    the store is made and the key is set, answers with status 500 and
    the error's message. *)
Theorem people_sitemap_fails_when_the_api_cannot_be_read :
  forall `{Host} (env : Env) (key : string) (w : World),
    (forall (r : Outcome string) (w' : World),
       Server.generatePersonSitemap env key w = (r, w') ->
       exists k, (k <= 10)%nat /\
         fetched w'
         = (fetched w
            ++ map (Server.people_url key)
                   (firstn k [1; 2; 3; 4; 5; 6; 7; 8; 9; 10]%Z))%list /\
         (forall page e,
            In page (firstn k [1; 2; 3; 4; 5; 6; 7; 8; 9; 10]%Z) ->
            unreadable env key page e ->
            last (firstn k [1; 2; 3; 4; 5; 6; 7; 8; 9; 10]%Z) 0%Z = page /\
            r = Thrown e /\
            console w'
            = (console w ++ [failed "Error generating person sitemap:" e])%list)) /\
    (forall req : Request.t,
       String.eqb (Request.method req) "OPTIONS" = false ->
       createClient env (or_empty (SUPABASE_URL env))
         (or_empty (SUPABASE_SERVICE_ROLE_KEY env)) = Returned tt ->
       TMDB_API_KEY env = Some key -> String.eqb key "" = false ->
       Request.type req = Some "people" ->
       exists k, (k <= 10)%nat /\
         fetched (snd (Server.serve env req w))
         = (fetched w
            ++ map (Server.people_url key)
                   (firstn k [1; 2; 3; 4; 5; 6; 7; 8; 9; 10]%Z))%list /\
         (forall page e,
            In page (firstn k [1; 2; 3; 4; 5; 6; 7; 8; 9; 10]%Z) ->
            unreadable env key page e ->
            fst (Server.serve env req w)
            = Returned {| Reply.status := 500;
                          Reply.content_type := Some "application/json";
                          Reply.cache_control := None;
                          Reply.body := json_body "Failed to generate sitemap"
                                          (Server.message_of e) |})).
Proof.
  intros H env key w. split.
  - intros r w' Hrun. exact (people_unreadable env key w r w' Hrun).
  - intros req Hmethod Hclient Hkey Hne Htype.
    rewrite (serve_with_key env req key w Hmethod Hclient Hkey Hne).
    unfold type_of. rewrite Htype. cbn [String.eqb Ascii.eqb Bool.eqb].
    change (generator_of env "people" key) with (Server.generatePersonSitemap env key).
    match goal with |- context [Server.generatePersonSitemap env key ?w0] =>
      destruct (Server.generatePersonSitemap env key w0) as [r w1] eqn:E end.
    destruct (people_unreadable env key _ r w1 E) as (k & Hk & Hf & Hrej).
    cbn [fetched] in Hf.
    exists k. split; [exact Hk|]. split.
    + destruct r; exact Hf.
    + intros page e Hin Hu. destruct (Hrej page e Hin Hu) as (_ & -> & _).
      reflexivity.
Qed.

Lemma people_sitemap_fails_when_the_api_cannot_be_read_witness :
  unreadable Examples.env_flaky "key" 2 (TypeError "fetch failed") /\
  fst (Server.generatePersonSitemap (H := utc_host) Examples.env_flaky "key" start)
  = Thrown (TypeError "fetch failed").
Proof.
  split; [left; reflexivity|].
  destruct (Server.generatePersonSitemap (H := utc_host) Examples.env_flaky "key"
              start) as [r w'] eqn:E.
  destruct (proj1 (people_sitemap_fails_when_the_api_cannot_be_read
                     (H := utc_host) Examples.env_flaky "key" start) r w' E)
    as (k & Hk & Hf & Hrej).
  assert (Hw : fetched w' = [Server.people_url "key" 1; Server.people_url "key" 2])
    by (change w' with (snd (r, w')); rewrite <- E; vm_compute; reflexivity).
  rewrite Hw in Hf.
  destruct k as [|[|[|k]]]; try discriminate Hf.
  destruct (Hrej 2%Z (TypeError "fetch failed")) as (_ & Hr & _).
  - right. left. reflexivity.
  - left. reflexivity.
  - exact Hr.
Defined.

End PeopleFailureExtra.
Section StaticExtras.
Local Open Scope string_scope.

Lemma quiet_server_main `{Host} (env : Env) : Quiet (Server.generateMainSitemap env).
Proof.
  unfold Server.generateMainSitemap. quiet.
Qed.

(** X11.  The sitemap of the static pages never throws and reaches
    neither the stores nor the external API: the document of the edge
    function holds exactly 77 [<url>] tags, one for each of the seven
    pages in each of the eleven languages, and the one of the
    browser-side module seven for each of its languages, when no
    language holds a less-than sign. *)
Theorem static_pages_sitemap_always_returns :
  forall `{Host} (env : Env) (langs : list string) (baseUrl : string) (w : World),
    (exists doc w',
       Server.generateMainSitemap env w = (Returned doc, w') /\
       url_elements doc = 77%nat /\
       fetched w' = fetched w) /\
    (exists doc w',
       Browser.generateMainSitemap langs baseUrl env w = (Returned doc, w') /\
       (forallb angle_free langs = true ->
        url_elements doc = (7 * List.length langs)%nat)).
Proof.
  intros H env langs baseUrl w. split.
  - destruct (server_main_document env w) as (urls & w' & E & HP & Hn).
    eexists. exists w'. split; [exact E|]. split.
    + rewrite (document_count _ urls) by (first [split; reflexivity | exact HP]).
      exact Hn.
    + exact (quiet_server_main env _ _ _ E).
  - destruct (browser_main_returns env langs baseUrl w) as (doc & w' & E).
    exists doc, w'. split; [exact E|]. intros Hlangs.
    destruct (browser_main_document env langs baseUrl w Hlangs)
      as (urls & w1 & E1 & HP & Hn).
    assert (Hd : doc = Browser.urlset_open ++ joined urls ++ "</urlset>")
      by congruence.
    rewrite Hd, (document_count _ urls no_url_browser_opening HP). exact Hn.
Qed.

Lemma static_pages_sitemap_always_returns_witness :
  exists doc w',
    Browser.generateMainSitemap (H := utc_host) ["en"; "tr"]
      "https://www.tvshowup.com" Examples.env start = (Returned doc, w') /\
    url_elements doc = 14%nat.
Proof.
  destruct (proj2 (static_pages_sitemap_always_returns (H := utc_host)
                     Examples.env ["en"; "tr"] "https://www.tvshowup.com" start))
    as (doc & w' & E & Hn).
  exists doc, w'. split; [exact E|]. apply Hn. reflexivity.
Defined.

(** X12.  The sitemap index is the same document on both sides when the
    browser-side module is given the site's address: the XML
    declaration, the four sitemaps of the site in the order main,
    movies, tvshows, people, each stamped with the day, and nothing
    else; it never throws. *)
Theorem sitemap_index_lists_the_four_sitemaps :
  forall `{Host} (env : Env) (w : World),
    exists day,
      Server.today env = Returned day /\
      fst (Server.generateSitemapIndex env w) = Returned (index_document day) /\
      fst (Browser.generateSitemapIndex Server.BASE_URL env w)
      = Returned (index_document day) /\
      console (snd (Server.generateSitemapIndex env w)) = console w /\
      fetched (snd (Server.generateSitemapIndex env w)) = fetched w.
Proof.
  intros H env w. destruct (today_returns env) as [day Hday].
  exists day. split; [exact Hday|].
  rewrite (server_index env day w Hday). split; [reflexivity|].
  split; [|split; reflexivity].
  unfold Browser.generateSitemapIndex.
  unfold and_then at 1 2. cbn [set_xml]. unfold lift.
  cbn [for_of bind]. rewrite browser_today, Hday. cbn [bind for_of List.app].
  vm_compute. repeat (rewrite !append_assoc; vm_compute). reflexivity.
Qed.

(** X13.  The browser-side assemblers never throw, whatever the store
    does: each returns a document, and when no language holds a
    less-than sign the document holds at most as many [<url>] tags as
    the languages times the limit of the query. *)
Theorem browser_assemblers_never_throw :
  forall `{Host} (langs : list string) (baseUrl : string) (env : Env)
         (limit : Z) (w : World),
    (exists doc w',
       Browser.generateMoviesSitemap langs baseUrl env limit w
       = (Returned doc, w') /\
       (forallb angle_free langs = true ->
        (url_elements doc <= List.length langs * Z.to_nat limit)%nat)) /\
    (exists doc w',
       Browser.generateTVShowsSitemap langs baseUrl env limit w
       = (Returned doc, w') /\
       (forallb angle_free langs = true ->
        (url_elements doc <= List.length langs * Z.to_nat limit)%nat)).
Proof.
  intros H langs baseUrl env limit w. split.
  - exact (browser_movies_document env langs baseUrl limit w).
  - exact (browser_tv_shows_document env langs baseUrl limit w).
Qed.

Lemma browser_assemblers_never_throw_witness :
  exists doc w',
    Browser.generateMoviesSitemap (H := utc_host) ["en"; "tr"]
      "https://www.tvshowup.com" Examples.env_undated 100 start
    = (Returned doc, w') /\
    (url_elements doc <= 2 * Z.to_nat 100)%nat.
Proof.
  destruct (proj1 (browser_assemblers_never_throw (H := utc_host) ["en"; "tr"]
                     "https://www.tvshowup.com" Examples.env_undated 100 start))
    as (doc & w' & E & Hn).
  exists doc, w'. split; [exact E|]. apply Hn. reflexivity.
Defined.

(** X14.  When the store fails, the browser-side assemblers hide it:
    each returns the urlset with no entry and writes nothing to the
    console, where the edge function throws the store's error. *)
Theorem browser_assemblers_hide_a_store_failure :
  forall `{Host} (langs : list string) (baseUrl : string) (env : Env)
         (limit : Z) (w : World) (message : string) (b : bool),
    (movies env = Failing message b ->
     fst (Browser.generateMoviesSitemap langs baseUrl env limit w)
     = Returned (Browser.urlset_open ++ "</urlset>") /\
     console (snd (Browser.generateMoviesSitemap langs baseUrl env limit w))
     = console w /\
     fst (Server.generateMoviesSitemap env w) = Thrown (StoreError message b)) /\
    (tv_shows env = Failing message b ->
     fst (Browser.generateTVShowsSitemap langs baseUrl env limit w)
     = Returned (Browser.urlset_open ++ "</urlset>") /\
     console (snd (Browser.generateTVShowsSitemap langs baseUrl env limit w))
     = console w /\
     fst (Server.generateTVShowsSitemap env w) = Thrown (StoreError message b)).
Proof.
  intros H langs baseUrl env limit w message b. split; intros Hstore.
  - rewrite (browser_movies_store_failure env langs baseUrl limit w message b Hstore),
      (server_movies_store_failure env w message b Hstore).
    repeat split.
  - rewrite (browser_tv_shows_store_failure env langs baseUrl limit w message b Hstore),
      (server_tv_shows_store_failure env w message b Hstore).
    repeat split.
Qed.

Lemma browser_assemblers_hide_a_store_failure_witness :
  tv_shows Examples.env = Failing "connection refused" true /\
  fst (Browser.generateTVShowsSitemap (H := utc_host) ["en"; "tr"]
         "https://tvshowup.com" Examples.env 10000 start)
  = Returned (Browser.urlset_open ++ "</urlset>") /\
  console (snd (Browser.generateTVShowsSitemap (H := utc_host) ["en"; "tr"]
                  "https://tvshowup.com" Examples.env 10000 start))
  = console start /\
  fst (Server.generateTVShowsSitemap (H := utc_host) Examples.env start)
  = Thrown (StoreError "connection refused" true).
Proof.
  split; [reflexivity|].
  apply (proj2 (browser_assemblers_hide_a_store_failure (H := utc_host)
                  ["en"; "tr"] "https://tvshowup.com" Examples.env 10000 start
                  "connection refused" true)).
  reflexivity.
Defined.

(** X15.  For an entry with a string location, string links and no
    image, the two serializers return the same element but for the text
    of the priority, which the edge function writes with one decimal and
    the browser-side module as the number prints; without a priority
    they return the same element. *)
Theorem serializers_differ_in_the_priority_only :
  forall `{Host} (loc : string) (lastmod : Value) (changefreq : option Changefreq)
         (alternates : option (list Alternate.t)),
    match alternates with
    | Some l => forallb (fun a => is_string (Alternate.href a)) l
    | None => true
    end = true ->
    exists front rest,
      forall priority : option float,
        Browser.generateXmlUrl
          {| Browser.SitemapUrl.loc := VString loc;
             Browser.SitemapUrl.lastmod := lastmod;
             Browser.SitemapUrl.changefreq := changefreq;
             Browser.SitemapUrl.priority := priority;
             Browser.SitemapUrl.alternates := alternates |}
        = Returned (front
                    ++ match priority with
                       | Some x => "    <priority>" ++ Number_toString x
                                   ++ "</priority>" ++ nl
                       | None => ""
                       end
                    ++ rest) /\
        Server.generateXmlUrl
          {| SitemapUrl.loc := VString loc;
             SitemapUrl.lastmod := lastmod;
             SitemapUrl.changefreq := changefreq;
             SitemapUrl.priority := priority;
             SitemapUrl.alternates := alternates;
             SitemapUrl.images := None |}
        = Returned (front
                    ++ match priority with
                       | Some x => "    <priority>" ++ toFixed x 1
                                   ++ "</priority>" ++ nl
                       | None => ""
                       end
                    ++ rest).
Proof.
  intros H loc lastmod changefreq alternates Hl.
  destruct (serializers_agree loc lastmod changefreq alternates Hl)
    as (front & rest & E).
  exists front, rest. intros priority. destruct (E priority) as [Eb Es].
  split; [exact Eb|]. rewrite Es. destruct priority; reflexivity.
Qed.

Lemma serializers_differ_in_the_priority_only_witness :
  exists front rest,
    Browser.generateXmlUrl
      {| Browser.SitemapUrl.loc := VString "https://tvshowup.com/en/";
         Browser.SitemapUrl.lastmod := VString "2026-11-03";
         Browser.SitemapUrl.changefreq := Some daily;
         Browser.SitemapUrl.priority := Some 1.0%float;
         Browser.SitemapUrl.alternates := None |}
    = Returned (front ++ ("    <priority>" ++ "1" ++ "</priority>" ++ nl) ++ rest) /\
    Server.generateXmlUrl
      {| SitemapUrl.loc := VString "https://tvshowup.com/en/";
         SitemapUrl.lastmod := VString "2026-11-03";
         SitemapUrl.changefreq := Some daily;
         SitemapUrl.priority := Some 1.0%float;
         SitemapUrl.alternates := None;
         SitemapUrl.images := None |}
    = Returned (front ++ ("    <priority>" ++ "1.0" ++ "</priority>" ++ nl) ++ rest).
Proof.
  destruct (serializers_differ_in_the_priority_only (H := utc_host)
              "https://tvshowup.com/en/" (VString "2026-11-03") (Some daily) None
              eq_refl) as (front & rest & E).
  exists front, rest. exact (E (Some 1.0%float)).
Defined.

Lemma browser_escapeXml_cases (v : Value) :
  (exists s, v = VString s /\ Browser.escapeXml v = Returned (Spec.escape s)) \/
  (is_string v = false /\ exists m, Browser.escapeXml v = Thrown (TypeError m)).
Proof.
  destruct v as [ | | b | x | s];
    try (right; split; [reflexivity | eexists; reflexivity]).
  left. exists s. split; [reflexivity | apply browser_escapeXml_string].
Qed.

Lemma browser_links (l : list Alternate.t) :
  forall xml : string,
    (forallb (fun a => is_string (Alternate.href a)) l = true /\
     exists u, for_of Browser.add_alternate l xml = Returned u) \/
    (forallb (fun a => is_string (Alternate.href a)) l = false /\
     exists m, for_of Browser.add_alternate l xml = Thrown (TypeError m)).
Proof.
  induction l as [|a l IH]; intros xml; cbn [for_of forallb].
  - left. split; [reflexivity | eexists; reflexivity].
  - destruct (browser_escapeXml_cases (Alternate.href a))
      as [(s & Hs & E) | (Hs & m & E)]; rewrite Hs.
    + assert (Hstep : exists acc, Browser.add_alternate xml a = Returned acc)
        by (unfold Browser.add_alternate; rewrite E; eexists; reflexivity).
      destruct Hstep as [acc ->]. cbn [is_string andb bind]. apply IH.
    + assert (Hstep : Browser.add_alternate xml a = Thrown (TypeError m))
        by (unfold Browser.add_alternate; rewrite E; reflexivity).
      rewrite Hstep. right. split; [reflexivity | exists m; reflexivity].
Qed.

(** X16.  The browser-side serializer returns an element exactly when
    the location of the entry and the address of each of its links are
    strings; otherwise it throws a TypeError, as for a null location,
    for which the edge function writes an empty [<loc>] element. *)
Theorem browser_serializer_needs_strings :
  forall url : Browser.SitemapUrl.t,
    let strings :=
      is_string (Browser.SitemapUrl.loc url)
      && match Browser.SitemapUrl.alternates url with
         | Some l => forallb (fun a => is_string (Alternate.href a)) l
         | None => true
         end in
    (strings = true -> exists u, Browser.generateXmlUrl url = Returned u) /\
    (strings = false ->
     exists m, Browser.generateXmlUrl url = Thrown (TypeError m)) /\
    (Browser.SitemapUrl.loc url = VNull ->
     Browser.generateXmlUrl url
     = Thrown (TypeError "Cannot read properties of undefined or null") /\
     Server.escapeXml (Browser.SitemapUrl.loc url) = Returned "").
Proof.
  intros [loc lastmod changefreq priority alternates]. cbv zeta.
  cbn [Browser.SitemapUrl.loc Browser.SitemapUrl.alternates].
  unfold Browser.generateXmlUrl.
  cbn [Browser.SitemapUrl.loc Browser.SitemapUrl.alternates
       Browser.SitemapUrl.lastmod Browser.SitemapUrl.changefreq
       Browser.SitemapUrl.priority].
  split; [|split].
  - destruct (browser_escapeXml_cases loc) as [(s & -> & ->) | (Hs & m & ->)];
      [|rewrite Hs; discriminate].
    cbn [is_string andb bind]. destruct alternates as [l|]; intros Hl.
    + match goal with |- context [for_of Browser.add_alternate l ?x] =>
        destruct (browser_links l x) as [(_ & u & ->) | (Hf & _)] end.
      * eexists. reflexivity.
      * rewrite Hf in Hl. discriminate Hl.
    + eexists. reflexivity.
  - destruct (browser_escapeXml_cases loc) as [(s & -> & ->) | (Hs & m & ->)];
      [|intros _; exists m; reflexivity].
    cbn [is_string andb bind]. destruct alternates as [l|]; intros Hl;
      [|discriminate Hl].
    match goal with |- context [for_of Browser.add_alternate l ?x] =>
      destruct (browser_links l x) as [(Hf & _) | (_ & m & ->)] end.
    + rewrite Hf in Hl. discriminate Hl.
    + exists m. reflexivity.
  - intros ->. split; reflexivity.
Qed.

Lemma browser_serializer_needs_strings_witness :
  exists m,
    Browser.generateXmlUrl
      {| Browser.SitemapUrl.loc := VString "https://tvshowup.com/en/";
         Browser.SitemapUrl.lastmod := VUndefined;
         Browser.SitemapUrl.changefreq := None;
         Browser.SitemapUrl.priority := None;
         Browser.SitemapUrl.alternates :=
           Some [ {| Alternate.hreflang := VString "tr";
                     Alternate.href := VNumber 5 |} ] |}
    = Thrown (TypeError m).
Proof.
  apply (proj1 (proj2 (browser_serializer_needs_strings
           {| Browser.SitemapUrl.loc := VString "https://tvshowup.com/en/";
              Browser.SitemapUrl.lastmod := VUndefined;
              Browser.SitemapUrl.changefreq := None;
              Browser.SitemapUrl.priority := None;
              Browser.SitemapUrl.alternates :=
                Some [ {| Alternate.hreflang := VString "tr";
                          Alternate.href := VNumber 5 |} ] |}))).
  reflexivity.
Defined.

End StaticExtras.

Section SlugFacts.
Local Open Scope string_scope.

Lemma every_keep (p q : ascii -> bool) (s : string) :
  every q s = true -> every (fun a => p a && q a) (keep p s) = true.
Proof.
  induction s as [|a s IH]; cbn [every keep]; [reflexivity|].
  intros Hq. apply andb_true_iff in Hq. destruct Hq as [Ha Hs].
  destruct (p a) eqn:Hp; cbn [every]; [rewrite Hp, Ha|]; auto.
Qed.

Lemma every_collapse (p q : ascii -> bool) (s : string) :
  forall b, every q s = true ->
    every (fun a => (q a && negb (p a)) || Ascii.eqb a "-")
          (collapse p "-" b s) = true.
Proof.
  induction s as [|a s IH]; intros b; cbn [every collapse]; [reflexivity|].
  intros Hq. apply andb_true_iff in Hq. destruct Hq as [Ha Hs].
  destruct (p a) eqn:Hp.
  - destruct b; [apply IH; exact Hs|].
    cbn [append every]. rewrite IH by exact Hs.
    rewrite orb_true_r. reflexivity.
  - cbn [every]. rewrite Ha, Hp, IH by exact Hs. reflexivity.
Qed.

Lemma every_impl (p q : ascii -> bool) (s : string) :
  (forall a, p a = true -> q a = true) -> every p s = true -> every q s = true.
Proof.
  intros Hpq. induction s as [|a s IH]; cbn [every]; [reflexivity|].
  intros Hp. apply andb_true_iff in Hp. destruct Hp as [Ha Hs].
  rewrite (Hpq a Ha), IH by exact Hs. reflexivity.
Qed.

Lemma every_substring (p : ascii -> bool) (s : string) :
  forall n, every p s = true -> every p (substring 0 n s) = true.
Proof.
  induction s as [|a s IH]; intros [|n] Hp; cbn [substring every]; try reflexivity.
  cbn [every] in Hp. apply andb_true_iff in Hp. destruct Hp as [Ha Hs].
  rewrite Ha, IH by exact Hs. reflexivity.
Qed.

Lemma every_lower (s : string) :
  every (fun a => negb ((65 <=? code a) && (code a <=? 90))%Z) (map_string lower s)
  = true.
Proof.
  induction s as [|a s IH]; cbn [every map_string]; [reflexivity|].
  rewrite IH, andb_true_r.
  destruct a as [[] [] [] [] [] [] [] []]; vm_compute; reflexivity.
Qed.

Lemma single_collapse (s : string) :
  forall b, single_hyphens b (collapse (Ascii.eqb "-") "-" b s) = true.
Proof.
  induction s as [|a s IH]; intros b; cbn [collapse single_hyphens]; [reflexivity|].
  destruct (Ascii.eqb "-" a) eqn:Ha.
  - destruct b; [apply IH|]. cbn [append single_hyphens Ascii.eqb Bool.eqb negb andb].
    apply IH.
  - cbn [single_hyphens]. rewrite Ascii.eqb_sym, Ha. apply IH.
Qed.

Lemma single_substring (s : string) :
  forall b n, single_hyphens b s = true -> single_hyphens b (substring 0 n s) = true.
Proof.
  induction s as [|a s IH]; intros b [|n] Hs; cbn [substring single_hyphens];
    try reflexivity.
  cbn [single_hyphens] in Hs. destruct (Ascii.eqb a "-").
  - apply andb_true_iff in Hs. destruct Hs as [Hb Hs]. rewrite Hb. apply IH, Hs.
  - apply IH, Hs.
Qed.

Lemma length_prefix (s : string) :
  forall n, (String.length (substring 0 n s) <= n)%nat.
Proof.
  induction s as [|a s IH]; intros [|n]; cbn [substring String.length]; try lia.
  specialize (IH n). lia.
Qed.

Lemma slug_char_after_cleaning (a : ascii) :
  (((is_word a || is_space a || Ascii.eqb a "-")
    && negb ((65 <=? code a) && (code a <=? 90))%Z)
   && negb (is_space a)) || Ascii.eqb a "-" = true ->
  is_slug_char a = true.
Proof.
  destruct a as [[] [] [] [] [] [] [] []]; vm_compute; intros E;
    first [reflexivity | discriminate E].
Qed.

Lemma slug_char_twice (a : ascii) :
  (is_slug_char a && negb (Ascii.eqb "-" a)) || Ascii.eqb a "-" = true ->
  is_slug_char a = true.
Proof.
  destruct a as [[] [] [] [] [] [] [] []]; vm_compute; intros E;
    first [reflexivity | discriminate E].
Qed.

(** Identity of each step on a string that is a slug already. *)
Lemma lower_slug (s : string) :
  every is_slug_char s = true -> map_string lower s = s.
Proof.
  induction s as [|a s IH]; cbn [every map_string]; [reflexivity|].
  intros Hs. apply andb_true_iff in Hs. destruct Hs as [Ha Hs].
  rewrite IH by exact Hs. f_equal.
  revert Ha. destruct a as [[] [] [] [] [] [] [] []]; vm_compute; intros E;
    first [reflexivity | discriminate E].
Qed.

Lemma keep_slug (s : string) :
  every is_slug_char s = true ->
  keep (fun a => is_word a || is_space a || Ascii.eqb a "-") s = s.
Proof.
  induction s as [|a s IH]; cbn [every keep]; [reflexivity|].
  intros Hs. apply andb_true_iff in Hs. destruct Hs as [Ha Hs].
  rewrite IH by exact Hs.
  replace (is_word a || is_space a || Ascii.eqb a "-") with true; [reflexivity|].
  revert Ha. destruct a as [[] [] [] [] [] [] [] []]; vm_compute; intros E;
    first [reflexivity | discriminate E].
Qed.

Lemma spaces_slug (s : string) :
  forall b, every is_slug_char s = true -> collapse is_space "-" b s = s.
Proof.
  induction s as [|a s IH]; intros b; cbn [every collapse]; [reflexivity|].
  intros Hs. apply andb_true_iff in Hs. destruct Hs as [Ha Hs].
  replace (is_space a) with false; [rewrite IH by exact Hs; reflexivity|].
  revert Ha. destruct a as [[] [] [] [] [] [] [] []]; vm_compute; intros E;
    first [reflexivity | discriminate E].
Qed.

Lemma hyphens_slug (s : string) :
  forall b, single_hyphens b s = true -> collapse (Ascii.eqb "-") "-" b s = s.
Proof.
  induction s as [|a s IH]; intros b; cbn [single_hyphens collapse]; [reflexivity|].
  rewrite (Ascii.eqb_sym "-" a). destruct (Ascii.eqb a "-") eqn:Ha.
  - apply Ascii.eqb_eq in Ha. subst a. intros Hs.
    apply andb_true_iff in Hs. destruct Hs as [Hb Hs].
    destruct b; [discriminate Hb|]. rewrite IH by exact Hs. reflexivity.
  - intros Hs. rewrite IH by exact Hs. reflexivity.
Qed.

Lemma whole_prefix (s : string) :
  forall n, (String.length s <= n)%nat -> substring 0 n s = s.
Proof.
  induction s as [|a s IH]; intros [|n] Hn; cbn [substring]; try reflexivity.
  - cbn [String.length] in Hn. lia.
  - cbn [String.length] in Hn. rewrite IH by lia. reflexivity.
Qed.

(** X18.  The slug of a person: [createSlugFromName] throws a TypeError
    unless the name is a string; for a string it returns the id, a
    hyphen and a cleaned name of at most 50 characters, all of them
    lower-case letters, digits, underscores and hyphens, with no two
    hyphens in a row; on a name that is such a text already it returns
    the id, a hyphen and the name itself. *)
Theorem person_slug_is_clean :
  forall (id name : Value),
    (is_string name = false ->
     exists m, Server.createSlugFromName id name = Thrown (TypeError m)) /\
    (forall s, name = VString s ->
       exists clean,
         Server.createSlugFromName id name
         = Returned (ToString id ++ "-" ++ clean) /\
         (String.length clean <= 50)%nat /\
         every is_slug_char clean = true /\
         single_hyphens false clean = true /\
         (every is_slug_char s = true -> single_hyphens false s = true ->
          (String.length s <= 50)%nat -> clean = s)).
Proof.
  intros id name. split.
  - destruct name as [ | | b | x | s]; intros Hs; try discriminate Hs;
      eexists; reflexivity.
  - intros s ->. unfold Server.createSlugFromName. cbn [toLowerCase bind].
    eexists. split; [reflexivity|]. split; [apply length_prefix|].
    split; [|split].
    + apply every_substring.
      eapply every_impl; [exact slug_char_twice|].
      apply every_collapse.
      eapply every_impl; [exact slug_char_after_cleaning|].
      apply every_collapse.
      apply (every_keep (fun a => is_word a || is_space a || Ascii.eqb a "-")).
      apply every_lower.
    + apply single_substring, single_collapse.
    + intros Hc Hh Hn.
      rewrite (lower_slug s Hc), (keep_slug s Hc), (spaces_slug s false Hc),
        (hyphens_slug s false Hh).
      apply whole_prefix. exact Hn.
Qed.

Lemma person_slug_is_clean_witness :
  exists clean,
    Server.createSlugFromName (VNumber 31) (VString "Tom  HANKS-Jr.")
    = Returned (ToString (VNumber 31) ++ "-" ++ clean) /\
    (String.length clean <= 50)%nat /\
    every is_slug_char clean = true /\
    single_hyphens false clean = true.
Proof.
  destruct (proj2 (person_slug_is_clean (VNumber 31) (VString "Tom  HANKS-Jr."))
              "Tom  HANKS-Jr." eq_refl) as (clean & E & Hn & Hc & Hh & _).
  exists clean. repeat split; assumption.
Defined.

End SlugFacts.

Section EscapeFacts.
Local Open Scope string_scope.

Lemma escape_append (a b : string) :
  Spec.escape (a ++ b) = Spec.escape a ++ Spec.escape b.
Proof.
  induction a as [|x a IH]; cbn [append Spec.escape]; [reflexivity|].
  rewrite IH, append_assoc. reflexivity.
Qed.

Lemma entity_cases (x : ascii) :
  (Spec.plain x = true /\ Spec.entity x = String x "") \/
  (Spec.plain x = false /\
   exists name, In name Spec.entity_names /\ Spec.entity x = String "&" name).
Proof.
  unfold Spec.plain, Spec.entity.
  destruct (Ascii.eqb x "&"); [right; split; [reflexivity|]; eexists; split; [|reflexivity]; simpl; tauto|].
  destruct (Ascii.eqb x "<"); [right; split; [reflexivity|]; eexists; split; [|reflexivity]; simpl; tauto|].
  destruct (Ascii.eqb x ">"); [right; split; [reflexivity|]; eexists; split; [|reflexivity]; simpl; tauto|].
  destruct (Ascii.eqb x quote); [right; split; [reflexivity|]; eexists; split; [|reflexivity]; simpl; tauto|].
  destruct (Ascii.eqb x "'"); [right; split; [reflexivity|]; eexists; split; [|reflexivity]; simpl; tauto|].
  left. split; reflexivity.
Qed.

Lemma length_escape (s : string) :
  (String.length s <= String.length (Spec.escape s))%nat.
Proof.
  induction s as [|x s IH]; cbn [Spec.escape String.length]; [lia|].
  rewrite length_append.
  destruct (entity_cases x) as [[_ ->] | [_ (name & _ & ->)]];
    cbn [String.length]; lia.
Qed.

Lemma escape_plain (s : string) :
  Spec.all_plain s = true <-> Spec.escape s = s.
Proof.
  induction s as [|x s IH]; cbn [Spec.all_plain Spec.escape]; [tauto|].
  destruct (entity_cases x) as [[Hp ->] | [Hp (name & Hin & ->)]]; rewrite Hp;
    cbn [andb append].
  - rewrite IH. split; [intros ->; reflexivity | intros E; injection E; trivial].
  - split; [discriminate|]. intros E. exfalso.
    apply (f_equal String.length) in E. cbn [String.length] in E.
    rewrite length_append in E. pose proof (length_escape s) as Hl.
    assert (1 <= String.length name)%nat; [|lia].
    simpl in Hin.
    destruct Hin as [<- | [<- | [<- | [<- | [<- | []]]]]]; cbn [String.length]; lia.
Qed.

Lemma entity_first (x y : ascii) (a b : string) :
  Spec.entity x ++ a = Spec.entity y ++ b -> x = y /\ a = b.
Proof.
  unfold Spec.entity.
  destruct (Ascii.eqb_spec x "&"), (Ascii.eqb_spec y "&");
  destruct (Ascii.eqb_spec x "<"), (Ascii.eqb_spec y "<");
  destruct (Ascii.eqb_spec x ">"), (Ascii.eqb_spec y ">");
  destruct (Ascii.eqb_spec x quote), (Ascii.eqb_spec y quote);
  destruct (Ascii.eqb_spec x "'"), (Ascii.eqb_spec y "'");
  cbn [append]; intros E; try discriminate E;
  try (subst; split; [reflexivity | injection E; trivial]; fail);
  try (injection E; intros; subst; split; [congruence | reflexivity]; fail);
  try (injection E; intros; subst; congruence).
Qed.

Lemma escape_injective (a : string) :
  forall b, Spec.escape a = Spec.escape b -> a = b.
Proof.
  induction a as [|x a IH]; intros [|y b]; cbn [Spec.escape]; intros E.
  - reflexivity.
  - exfalso. apply (f_equal String.length) in E. rewrite length_append in E.
    cbn [String.length] in E.
    destruct (entity_cases y) as [[_ Hy] | [_ (name & _ & Hy)]];
      rewrite Hy in E; cbn [String.length] in E; lia.
  - exfalso. apply (f_equal String.length) in E. rewrite length_append in E.
    cbn [String.length] in E.
    destruct (entity_cases x) as [[_ Hx] | [_ (name & _ & Hx)]];
      rewrite Hx in E; cbn [String.length] in E; lia.
  - destruct (entity_first x y _ _ E) as [-> E']. rewrite (IH b E'). reflexivity.
Qed.

(** X19.  The two escape helpers return the same text for a string; they
    escape a concatenation piece by piece, lose nothing (two strings
    with the same escaped text are equal), never return a shorter text,
    and return the string itself exactly when it holds none of the five
    characters: escaping an escaped text again changes it whenever it
    holds an entity. *)
Theorem escaping_loses_nothing :
  forall a b : string,
    exists ea eb,
      Server.escapeXml (VString a) = Returned ea /\
      Browser.escapeXml (VString a) = Returned ea /\
      Server.escapeXml (VString b) = Returned eb /\
      Server.escapeXml (VString (a ++ b)) = Returned (ea ++ eb) /\
      (ea = eb -> a = b) /\
      (String.length a <= String.length ea)%nat /\
      (ea = a <-> Spec.all_plain a = true) /\
      (Server.escapeXml (VString ea) = Returned ea <-> Spec.all_plain a = true).
Proof.
  intros a b. exists (Spec.escape a), (Spec.escape b).
  assert (Hs : forall s, Server.escapeXml (VString s) = Returned (Spec.escape s)).
  { intros s. rewrite server_escapeXml_escaped. unfold Spec.escaped, Spec.missing.
    destruct s; reflexivity. }
  rewrite !Hs, browser_escapeXml_string, escape_append.
  repeat split; try reflexivity.
  - apply escape_injective.
  - apply length_escape.
  - apply escape_plain.
  - apply escape_plain.
  - intros E. apply Returned_eq in E. apply escape_plain.
    apply escape_injective. exact E.
  - intros Hp. apply escape_plain in Hp. rewrite !Hp. reflexivity.
Qed.

End EscapeFacts.

